(** * flask-rest-jsonapi: query-string directives and schema projection

    A shallow embedding of [flask_rest_jsonapi/querystring.py]
    ([QueryStringManager]) and of [compute_schema] from
    [flask_rest_jsonapi/schema.py], with the properties of the
    specification stated and proved over it.

    Conventions of the embedding.
    - A Python [str] is a [string]: an ASCII character as it is, any
      other character as its bytes in UTF-8. The code looks for ASCII
      characters only, which UTF-8 keeps apart from the bytes of the
      others. What the built-in [int] makes of a string is left to the
      interpreter: the parsers take [int] as a parameter.
    - A Python [dict] is an association list in insertion order with
      pairwise distinct keys; [d[k] = v] keeps the position of a key that
      is already present and appends a new one, as [dict] does.
    - A Python [set] is a [gset]; the order in which [tuple(s)] lists a set
      is not fixed by the language and is a parameter of the model.
    - A raised exception is the [Err] case of [outcome]. *)

From Stdlib Require Import ZArith Ascii String Lia DecimalString.
From stdpp Require Import base strings list gmap sets.

Local Open Scope Z_scope.

(** ** Exceptions and results *)

Inductive exn : Type :=
| BadRequest (detail : string) (parameter : string)
| InvalidInclude (detail : string)
| RegistryError (name : string)
| PyTypeError
| PyValueError
| PyKeyError (key : string)
| PyAttributeError.

Inductive outcome (A : Type) : Type :=
| Ok (a : A)
| Err (e : exn).
Arguments Ok {A} a.
Arguments Err {A} e.

Definition bind {A B} (r : outcome A) (k : A -> outcome B) : outcome B :=
  match r with
  | Ok a => k a
  | Err e => Err e
  end.

Notation "'let*' x ':=' r 'in' k" := (bind r (fun x => k))
  (at level 10, x name, r at level 100, k at level 200).

Definition is_ok {A} (r : outcome A) : bool :=
  match r with Ok _ => true | Err _ => false end.

(** [for x in l: body x], stopping at the first exception. *)
Fixpoint for_each {A} (body : A -> outcome unit) (l : list A) : outcome unit :=
  match l with
  | [] => Ok tt
  | x :: l' => let* _ := body x in for_each body l'
  end.

(** ** The Python built-ins the program uses *)

Module Py.

(** [s.startswith(prefix)] *)
Fixpoint startswith (s prefix : string) {struct prefix} : bool :=
  match prefix, s with
  | EmptyString, _ => true
  | String _ _, EmptyString => false
  | String p prefix', String c s' => Ascii.eqb c p && startswith s' prefix'
  end.

(** [s.index(c)] for a one-character [c]; [None] is [ValueError]. *)
Fixpoint index (c : ascii) (s : string) : option nat :=
  match s with
  | EmptyString => None
  | String d s' =>
      if Ascii.eqb d c then Some O
      else match index c s' with
           | Some i => Some (S i)
           | None => None
           end
  end.

Fixpoint drop (n : nat) (s : string) : string :=
  match n, s with
  | O, _ => s
  | S _, EmptyString => EmptyString
  | S n', String _ s' => drop n' s'
  end.

Fixpoint take (n : nat) (s : string) : string :=
  match n, s with
  | O, _ => EmptyString
  | S _, EmptyString => EmptyString
  | S n', String c s' => String c (take n' s')
  end.

(** [s[a:b]] for indices that are not negative: empty when [b <= a]. *)
Definition slice (s : string) (a b : nat) : string :=
  take (b - a) (drop a s).

(** [c in s] for a one-character [c]. *)
Fixpoint contains (c : ascii) (s : string) : bool :=
  match s with
  | EmptyString => false
  | String d s' => Ascii.eqb d c || contains c s'
  end.

(** [s.split(sep)] for a one-character [sep]. *)
Fixpoint split (sep : ascii) (s : string) : list string :=
  match s with
  | EmptyString => [EmptyString]
  | String c s' =>
      if Ascii.eqb c sep then EmptyString :: split sep s'
      else match split sep s' with
           | w :: ws => String c w :: ws
           | [] => [String c EmptyString]
           end
  end.

(** [sep.join(l)] *)
Fixpoint join (sep : string) (l : list string) : string :=
  match l with
  | [] => EmptyString
  | [w] => w
  | w :: l' => w +:+ sep +:+ join sep l'
  end.

(** [s.replace(c, '')] for a one-character [c]. *)
Fixpoint remove (c : ascii) (s : string) : string :=
  match s with
  | EmptyString => EmptyString
  | String d s' => if Ascii.eqb d c then remove c s' else String d (remove c s')
  end.

(** Iterating over a string yields its characters as strings. *)
Fixpoint chars (s : string) : list string :=
  match s with
  | EmptyString => []
  | String c s' => String c EmptyString :: chars s'
  end.

(** Truth value of a string. *)
Definition truthy (s : string) : bool :=
  match s with EmptyString => false | String _ _ => true end.

(** [str(z)], as ["{}".format(z)] renders an integer. *)
Definition str_of_int (z : Z) : string := NilZero.string_of_int (Z.to_int z).

(** *** [int(s)] on a string

    The built-in belongs to the interpreter. Which digits and blanks it
    takes besides the ASCII ones, whether underscores may separate
    digits and how long a literal may be depend on its version and its
    settings, so the code that calls [int] is modelled over a parameter
    [int : string -> option Z], with [None] for [ValueError].

    [int_ascii] is what CPython 3.11 with its default settings returns
    for a string of ASCII characters: leading and trailing white space is
    skipped, one sign is allowed, single underscores may separate digits,
    and a literal of more than 4300 digits is refused. *)

Definition is_ascii_char (c : ascii) : bool := (nat_of_ascii c <? 128)%nat.

Fixpoint is_ascii (s : string) : bool :=
  match s with
  | EmptyString => true
  | String c s' => is_ascii_char c && is_ascii s'
  end.

Definition is_space (c : ascii) : bool :=
  let n := nat_of_ascii c in
  ((9 <=? n)%nat && (n <=? 13)%nat) || (n =? 32)%nat.

Definition digit_val (c : ascii) : option Z :=
  let n := nat_of_ascii c in
  if (48 <=? n)%nat && (n <=? 57)%nat then Some (Z.of_nat (n - 48)) else None.

Fixpoint lstrip (s : string) : string :=
  match s with
  | EmptyString => EmptyString
  | String c s' => if is_space c then lstrip s' else s
  end.

Fixpoint all_space (s : string) : bool :=
  match s with
  | EmptyString => true
  | String c s' => is_space c && all_space s'
  end.

(** The digits of a literal; [after_digit] tells whether the previous
    character was a digit, which an underscore and the end require. *)
Fixpoint digits (s : string) (acc : Z) (after_digit : bool) : option Z :=
  match s with
  | EmptyString => if after_digit then Some acc else None
  | String c s' =>
      if Ascii.eqb c "_" then
        if after_digit then digits s' acc false else None
      else match digit_val c with
           | Some d => digits s' (10 * acc + d) true
           | None =>
               if after_digit && all_space s then Some acc else None
           end
  end.

(** The number of digits of a string. *)
Fixpoint count_digits (s : string) : Z :=
  match s with
  | EmptyString => 0
  | String c s' =>
      (match digit_val c with Some _ => 1 | None => 0 end) + count_digits s'
  end.

(** [sys.get_int_max_str_digits()] as it is by default. *)
Definition max_str_digits : Z := 4300.

Definition int_ascii (s : string) : option Z :=
  if count_digits s >? max_str_digits then None
  else
    match lstrip s with
    | String "-" s' => z ← digits s' 0 false; Some (- z)
    | String "+" s' => digits s' 0 false
    | s' => digits s' 0 false
    end.

(** *** [dict] *)

Definition dict (V : Type) : Type := list (string * V).

Fixpoint get {V} (k : string) (d : dict V) : option V :=
  match d with
  | [] => None
  | (k', v) :: d' => if String.eqb k' k then Some v else get k d'
  end.

Definition mem {V} (k : string) (d : dict V) : bool :=
  match get k d with Some _ => true | None => false end.

(** [d[k] = v] *)
Fixpoint set {V} (k : string) (v : V) (d : dict V) : dict V :=
  match d with
  | [] => [(k, v)]
  | (k', v') :: d' =>
      if String.eqb k' k then (k', v) :: d' else (k', v') :: set k v d'
  end.

Definition keys {V} (d : dict V) : list string := d.*1.

(** [x in (a, b, ...)] on strings. *)
Definition elem (x : string) (l : list string) : bool :=
  existsb (String.eqb x) l.

End Py.

(** ** The application configuration

    [current_app.config] with the three options the parser reads; [None]
    is an option that is not set. *)

Record config : Type := {
  ALLOW_DISABLE_PAGINATION : option bool;
  MAX_PAGE_SIZE : option Z;
  MAX_INCLUDE_DEPTH : option Z
}.

(** ** [QueryStringManager] *)

(** A value of the mapping [_get_key_values] builds: the raw string, or
    the list of its comma-separated parts. *)
Inductive qvalue : Type :=
| VStr (s : string)
| VList (l : list string).

(** One entry of [sorting]: [{'field': field, 'order': order}]. *)
Record sort_entry : Type := { field : string; order : string }.

Module QueryStringManager.

(** [self.qs]: the raw query parameters, in the order [items()] lists
    them. *)
Definition querystring : Type := Py.dict string.

Definition item_value (value : string) : qvalue :=
  if Py.contains "," value then VList (Py.split "," value) else VStr value.

(** The sub-key of a raw key: [key[key.index('[') + 1 : key.index(']')]].
    [None] is the [ValueError] of a missing bracket. *)
Definition item_key (key : string) : option string :=
  match Py.index "[" key with
  | Some i =>
      let key_start := S i in
      match Py.index "]" key with
      | Some key_end => Some (Py.slice key key_start key_end)
      | None => None
      end
  | None => None
  end.

(** The loop of [_get_key_values] over [self.qs.items()], with
    [results] the mapping built so far. An exception inside the [try]
    becomes a [BadRequest] whose source is the key at hand. *)
Fixpoint get_key_values_loop (name : string) (items : list (string * string))
    (results : Py.dict qvalue) : outcome (Py.dict qvalue) :=
  match items with
  | [] => Ok results
  | (key, value) :: items' =>
      if negb (Py.startswith key name) then
        get_key_values_loop name items' results
      else
        match item_key key with
        | Some item_key =>
            get_key_values_loop name items'
              (Py.set item_key (item_value value) results)
        | None => Err (BadRequest "Parse error" key)
        end
  end.

Definition _get_key_values (name : string) (qs : querystring)
    : outcome (Py.dict qvalue) :=
  get_key_values_loop name qs [].

(** [grouping] *)
Definition grouping (qs : querystring) : option (list string) :=
  match Py.get "group" qs with
  | Some groups => Some (Py.split "," groups)
  | None => None
  end.

Section pagination.

(** The built-in [int] on a string; [None] is its [ValueError]. *)
Variable int : string -> option Z.

(** [int(value)] on a value of the mapping: a list raises [TypeError],
    a string that [int] refuses raises [ValueError]. *)
Definition int_of_value (value : qvalue) : outcome Z :=
  match value with
  | VStr s => match int s with
              | Some z => Ok z
              | None => Err PyValueError
              end
  | VList _ => Err PyTypeError
  end.

(** The body of the first loop of [pagination]; only [ValueError] is
    caught. *)
Definition check_page_item (item : string * qvalue) : outcome unit :=
  let '(key, value) := item in
  if negb (Py.elem key ["number"; "size"]) then
    Err (BadRequest (key +:+ " is not a valid parameter of pagination") "page")
  else
    match int_of_value value with
    | Ok _ => Ok tt
    | Err PyValueError => Err (BadRequest "Parse error" ("page[" +:+ key +:+ "]"))
    | Err e => Err e
    end.

(** The two policy checks that follow the loop. *)
Definition check_disable_pagination (cfg : config) (result : Py.dict qvalue)
    : outcome unit :=
  match ALLOW_DISABLE_PAGINATION cfg with
  | Some false =>
      let* size := match Py.get "size" result with
                   | Some v => int_of_value v
                   | None => Ok 1
                   end in
      if size =? 0 then
        Err (BadRequest "You are not allowed to disable pagination" "page[size]")
      else Ok tt
  | _ => Ok tt
  end.

Definition check_max_page_size (cfg : config) (result : Py.dict qvalue)
    : outcome unit :=
  match MAX_PAGE_SIZE cfg, Py.get "size" result with
  | Some max, Some v =>
      let* size := int_of_value v in
      if size >? max then
        Err (BadRequest ("Maximum page size is " +:+ Py.str_of_int max) "page[size]")
      else Ok tt
  | _, _ => Ok tt
  end.

Definition pagination (cfg : config) (qs : querystring)
    : outcome (Py.dict qvalue) :=
  let* result := _get_key_values "page" qs in
  let* _ := for_each check_page_item result in
  let* _ := check_disable_pagination cfg result in
  let* _ := check_max_page_size cfg result in
  Ok result.

End pagination.

(** [fields]: every value becomes a list. *)
Definition fields (qs : querystring) : outcome (Py.dict (list string)) :=
  let* result := _get_key_values "fields" qs in
  Ok (map (fun '(key, value) =>
             (key, match value with
                   | VList l => l
                   | VStr s => [s]
                   end)) result).

Definition sorting (qs : querystring) : list sort_entry :=
  match Py.get "sort" qs with
  | Some sort =>
      if Py.truthy sort then
        map (fun sort_field =>
               {| field := Py.remove "-" sort_field;
                  order := if Py.startswith sort_field "-" then "desc" else "asc" |})
            (Py.split "," sort)
      else []
  | None => []
  end.

(** The depth check of [include] on one element of the iteration. *)
Definition check_include_path (max : Z) (include_path : string) : outcome unit :=
  if Z.of_nat (length (Py.split "." include_path)) >? max then
    Err (InvalidInclude ("You can't use include through more than "
                         +:+ Py.str_of_int max +:+ " relationships"))
  else Ok tt.

(** [include]. [include_param] is the raw string, or the default [[]]
    when the parameter is absent; the [for] loop runs over
    [include_param] itself, that is over the characters of the string. *)
Definition include (cfg : config) (qs : querystring) : outcome (list string) :=
  let include_param := Py.get "include" qs in
  let* _ := match MAX_INCLUDE_DEPTH cfg with
            | Some max =>
                for_each (check_include_path max)
                  (match include_param with
                   | Some s => Py.chars s
                   | None => []
                   end)
            | None => Ok tt
            end in
  Ok (match include_param with
      | Some s => if Py.truthy s then Py.split "," s else []
      | None => []
      end).

End QueryStringManager.

(** ** Schemas

    The marshmallow objects [compute_schema] works on. A declared field
    is a relationship, which holds in [_Relationship__schema] the schema
    it relates to, or any other field. That schema is given by the name
    of a class (resolved through [class_registry]), by the class itself,
    or by an instance of it; projection stores instances there.

    A schema class is a value: its name, its [Meta.type_] and its declared
    fields. An instance holds the class it was made from, the attributes
    [only], [include_data] and [many] set from the keyword arguments, and
    its own copy of the declared fields, which is what the second loop of
    [compute_schema] writes to. The constructor belongs to the
    serialization library: which keyword arguments it refuses, and with
    which exception, is a parameter of the model ([init_error] below),
    and an instance it returns is built from the keyword arguments. *)

Inductive Field : Type :=
| Attribute
| Relationship (schema : SchemaRef)
with SchemaRef : Type :=
| RefName (name : string)
| RefClass (cls : SchemaCls)
| RefInstance (inst : Schema)
with SchemaCls : Type :=
| Class (name : string) (type_ : string) (declared : list (string * Field))
with Schema : Type :=
| Instance (cls : SchemaCls) (only : option (list string))
    (include_data : list string) (many : bool)
    (declared_fields : list (string * Field)).

Definition cls_name (c : SchemaCls) : string :=
  match c with Class name _ _ => name end.
Definition cls_type (c : SchemaCls) : string :=
  match c with Class _ type_ _ => type_ end.
(** [schema_cls._declared_fields] *)
Definition cls_declared_fields (c : SchemaCls) : Py.dict Field :=
  match c with Class _ _ declared => declared end.

(** [schema.__class__], [schema.only], [schema.include_data],
    [schema.many], [schema.declared_fields] *)
Definition schema_class (s : Schema) : SchemaCls :=
  match s with Instance cls _ _ _ _ => cls end.
Definition schema_only (s : Schema) : option (list string) :=
  match s with Instance _ only _ _ _ => only end.
Definition schema_include_data (s : Schema) : list string :=
  match s with Instance _ _ include_data _ _ => include_data end.
Definition schema_many (s : Schema) : bool :=
  match s with Instance _ _ _ many _ => many end.
Definition schema_declared_fields (s : Schema) : Py.dict Field :=
  match s with Instance _ _ _ _ declared_fields => declared_fields end.

(** The fields the instance serializes: those of [only] when it is set,
    every declared field otherwise. *)
Definition visible_fields (s : Schema) : list string :=
  match schema_only s with
  | Some only => only
  | None => Py.keys (schema_declared_fields s)
  end.

(** A value of the keyword arguments of a schema: [None], a boolean
    ([many], [partial]) or a sequence of field names ([only],
    [include_data]). *)
Inductive kwval : Type :=
| KNone
| KBool (b : bool)
| KTuple (t : list string).

Definition kwargs : Type := Py.dict kwval.

Definition kw_tuple (key : string) (kw : kwargs) : list string :=
  match Py.get key kw with
  | Some (KTuple t) => t
  | _ => []
  end.

(** [kw[key] += (x,)] *)
Definition kw_append (key x : string) (kw : kwargs) : kwargs :=
  Py.set key (KTuple (kw_tuple key kw ++ [x])) kw.

(** The instance that calling [schema_cls] with the keyword arguments
    [schema_kwargs] returns, when the constructor accepts them: it holds
    its own copy of the declared fields of the class. *)
Definition new_instance (schema_cls : SchemaCls) (schema_kwargs : kwargs) : Schema :=
  Instance schema_cls
    (match Py.get "only" schema_kwargs with
     | Some (KTuple t) => Some t
     | _ => None
     end)
    (kw_tuple "include_data" schema_kwargs)
    (match Py.get "many" schema_kwargs with
     | Some (KBool b) => b
     | _ => false
     end)
    (cls_declared_fields schema_cls).

(** [include_path.split('.')[0]] *)
Definition first_segment (include_path : string) : string :=
  hd "" (Py.split "." include_path).

(** ['.'.join(include_path.split('.')[1:])] *)
Definition rest_segments (include_path : string) : string :=
  Py.join "." (tail (Py.split "." include_path)).

(** The number of segments of the longest path of an include list. *)
Definition depth (include : list string) : nat :=
  foldr Nat.max 0%nat (map (fun p => length (Py.split "." p)) include).

Section compute_schema.

(** The order in which [tuple(s)] lists the elements of a set. *)
Variable tuple_of_set : gset string -> list string.

(** marshmallow's [class_registry]: class name to class. *)
Variable class_registry : Py.dict SchemaCls.

(** The validation the constructor of a schema class makes of its keyword
    arguments: [Some e] is the exception it raises, [None] its
    acceptance. *)
Variable init_error : SchemaCls -> kwargs -> option exn.

(** [schema_cls( **schema_kwargs )] *)
Definition instantiate (schema_cls : SchemaCls) (schema_kwargs : kwargs)
    : outcome Schema :=
  match init_error schema_cls schema_kwargs with
  | Some e => Err e
  | None => Ok (new_instance schema_cls schema_kwargs)
  end.

(** The first loop of [compute_schema]: checks each path and collects
    [include_data] and the paths below each relationship. The mapping
    [schema_kwargs] is returned as the loop leaves it, also when it
    raises. *)
Fixpoint collect_includes (schema_cls : SchemaCls) (include : list string)
    (schema_kwargs : kwargs) (related_includes : Py.dict (list string))
    : kwargs * outcome (Py.dict (list string)) :=
  match include with
  | [] => (schema_kwargs, Ok related_includes)
  | include_path :: include' =>
      let field := first_segment include_path in
      match Py.get field (cls_declared_fields schema_cls) with
      | None =>
          (schema_kwargs,
           Err (InvalidInclude
                  (cls_name schema_cls +:+ " has no attribute " +:+ field)))
      | Some Attribute =>
          (schema_kwargs,
           Err (InvalidInclude (field +:+ " is not a relationship attribute of "
                                +:+ cls_name schema_cls)))
      | Some (Relationship _) =>
          let schema_kwargs := kw_append "include_data" field schema_kwargs in
          let related_includes :=
            if Py.mem field related_includes then related_includes
            else Py.set field [] related_includes in
          let related_includes :=
            if Py.contains "." include_path then
              Py.set field
                (default [] (Py.get field related_includes)
                   ++ [rest_segments include_path])
                related_includes
            else related_includes in
          collect_includes schema_cls include' schema_kwargs related_includes
      end
  end.

(** "make sure id field is in only parameter" *)
Definition ensure_id (schema_kwargs : kwargs) : kwargs * outcome unit :=
  match Py.get "only" schema_kwargs with
  | Some (KTuple only) =>
      if Py.elem "id" only then (schema_kwargs, Ok tt)
      else (kw_append "only" "id" schema_kwargs, Ok tt)
  | Some (KBool _) => (schema_kwargs, Err PyTypeError)
  | Some KNone | None => (schema_kwargs, Ok tt)
  end.

(** "manage sparse fieldsets": the new value of [schema.only]. *)
Definition sparse_only (schema : Schema) (fields : Py.dict (list string))
    : option (list string) :=
  match Py.get (cls_type (schema_class schema)) fields with
  | Some requested =>
      let tmp_only : gset string :=
        list_to_set (Py.keys (schema_declared_fields schema))
          ∩ list_to_set requested in
      let tmp_only :=
        match schema_only schema with
        | Some (f :: only) => tmp_only ∩ list_to_set (f :: only)
        | _ => tmp_only
        end in
      let only := tuple_of_set tmp_only in
      Some (if Py.elem "id" only then only else only ++ ["id"])
  | None => schema_only schema
  end.

(** The class and the keyword arguments the second loop projects a
    related schema with. *)
Definition related_class (related_schema_cls : SchemaRef)
    : outcome (SchemaCls * kwargs) :=
  match related_schema_cls with
  | RefInstance inst => Ok (schema_class inst, [("many", KBool (schema_many inst))])
  | RefName name =>
      match Py.get name class_registry with
      | Some cls => Ok (cls, [])
      | None => Err (RegistryError name)
      end
  | RefClass cls => Ok (cls, [])
  end.

(** The second loop of [compute_schema], "manage compound documents",
    over the declared fields of the instance; [project] is the
    recursive call, [None] when it has no fuel left. *)
Fixpoint expand_includes
    (project : SchemaCls -> kwargs -> list string -> option (kwargs * outcome Schema))
    (related_includes : Py.dict (list string)) (include : list string)
    (declared_fields : Py.dict Field) : option (outcome (Py.dict Field)) :=
  match include with
  | [] => Some (Ok declared_fields)
  | include_path :: include' =>
      let field := first_segment include_path in
      match Py.get field declared_fields with
      | None => Some (Err (PyKeyError field))
      | Some Attribute => Some (Err (PyKeyError "_Relationship__schema"))
      | Some (Relationship related_schema_cls) =>
          match related_class related_schema_cls with
          | Err e => Some (Err e)
          | Ok (related_schema_cls, related_schema_kwargs) =>
              match Py.get field related_includes with
              | None => Some (Err (PyKeyError field))
              | Some sub_includes =>
                  match project related_schema_cls related_schema_kwargs
                          sub_includes with
                  | None => None
                  | Some (_, Err e) => Some (Err e)
                  | Some (_, Ok related_schema) =>
                      expand_includes project related_includes include'
                        (Py.set field (Relationship (RefInstance related_schema))
                           declared_fields)
                  end
              end
          end
      end
  end.

(** [compute_schema] with a bound on the depth of the recursion. The
    result is the mapping [default_kwargs] as the call leaves it and
    the schema or the exception; an [include] of [None] is the empty
    list, which the code treats alike. *)
Fixpoint compute_schema_fuel (fuel : nat) (schema_cls : SchemaCls)
    (default_kwargs : kwargs) (qs : QueryStringManager.querystring)
    (include : list string) : option (kwargs * outcome Schema) :=
  match fuel with
  | O => None
  | S fuel' =>
      let schema_kwargs := Py.set "include_data" (KTuple []) default_kwargs in
      match collect_includes schema_cls include schema_kwargs [] with
      | (schema_kwargs, Err e) => Some (schema_kwargs, Err e)
      | (schema_kwargs, Ok related_includes) =>
          match ensure_id schema_kwargs with
          | (schema_kwargs, Err e) => Some (schema_kwargs, Err e)
          | (schema_kwargs, Ok _) =>
              match instantiate schema_cls schema_kwargs with
              | Err e => Some (schema_kwargs, Err e)
              | Ok schema =>
                  match QueryStringManager.fields qs with
                  | Err e => Some (schema_kwargs, Err e)
                  | Ok fields =>
                      let only := sparse_only schema fields in
                      match expand_includes
                              (fun c k i => compute_schema_fuel fuel' c k qs i)
                              related_includes include
                              (schema_declared_fields schema) with
                      | None => None
                      | Some (Err e) => Some (schema_kwargs, Err e)
                      | Some (Ok declared_fields) =>
                          Some (schema_kwargs,
                                Ok (Instance schema_cls only
                                      (schema_include_data schema)
                                      (schema_many schema) declared_fields))
                      end
                  end
              end
          end
      end
  end.

Definition compute_schema (schema_cls : SchemaCls) (default_kwargs : kwargs)
    (qs : QueryStringManager.querystring) (include : list string)
    : option (kwargs * outcome Schema) :=
  compute_schema_fuel (S (depth include)) schema_cls default_kwargs qs include.

End compute_schema.

(** ** Notions the properties are stated with *)

(** The sub-key as the specification words it: the substring between the
    first "[" and the first "]" after it. *)
Definition sub_key_after_bracket (key : string) : option string :=
  match Py.index "[" key with
  | Some i =>
      let rest := Py.drop (S i) key in
      match Py.index "]" rest with
      | Some j => Some (Py.take j rest)
      | None => None
      end
  | None => None
  end.

(** A pagination outcome as the specification words it: keys among
    [number] and [size], values integers that are not negative. *)
Definition keys_fixed_values_nonnegative (int : string -> option Z)
    (r : outcome (Py.dict qvalue)) : Prop :=
  match r with
  | Ok result =>
      forall key value, (key, value) ∈ result ->
        (key = "number" \/ key = "size")
        /\ exists z, QueryStringManager.int_of_value int value = Ok z /\ 0 <= z
  | Err _ => True
  end.

(** An interpreter whose [int] reads the strings of ASCII characters as
    CPython 3.11 does. *)
Definition reads_ascii_literals (int : string -> option Z) : Prop :=
  forall s, Py.is_ascii s = true -> int s = Py.int_ascii s.

(** The page size a validated pagination mapping asks for. *)
Definition page_size (int : string -> option Z) (result : Py.dict qvalue)
    : option Z :=
  match Py.get "size" result with
  | Some (VStr s) => int s
  | _ => None
  end.

Definition disable_violation (int : string -> option Z) (cfg : config)
    (result : Py.dict qvalue) : bool :=
  match ALLOW_DISABLE_PAGINATION cfg, page_size int result with
  | Some false, Some size => size =? 0
  | _, _ => false
  end.

Definition max_violation (int : string -> option Z) (cfg : config)
    (result : Py.dict qvalue) : bool :=
  match MAX_PAGE_SIZE cfg, page_size int result with
  | Some max, Some size => size >? max
  | _, _ => false
  end.

Definition no_config : config :=
  {| ALLOW_DISABLE_PAGINATION := None; MAX_PAGE_SIZE := None;
     MAX_INCLUDE_DEPTH := None |}.

Definition max_include_depth (max : Z) : config :=
  {| ALLOW_DISABLE_PAGINATION := None; MAX_PAGE_SIZE := None;
     MAX_INCLUDE_DEPTH := Some max |}.

(** An include path whose first segment is no declared relationship. *)
Definition invalid_include (schema_cls : SchemaCls) (include_path : string) : Prop :=
  match Py.get (first_segment include_path) (cls_declared_fields schema_cls) with
  | Some (Relationship _) => False
  | _ => True
  end.

Definition is_invalid_include (r : outcome (Py.dict (list string))) : Prop :=
  match r with
  | Err (InvalidInclude _) => True
  | _ => False
  end.

(** The mapping [default_kwargs] after the first loop of [compute_schema],
    and after the check of [only] that follows it. *)
Definition kwargs_after_includes (schema_cls : SchemaCls) (default_kwargs : kwargs)
    (include : list string) : kwargs :=
  (collect_includes schema_cls include
     (Py.set "include_data" (KTuple []) default_kwargs) []).1.

Definition kwargs_after (schema_cls : SchemaCls) (default_kwargs : kwargs)
    (include : list string) : kwargs :=
  (ensure_id (kwargs_after_includes schema_cls default_kwargs include)).1.

(** A sequence of field names with [id] added at its end when it is not
    in it. *)
Definition with_id (only : list string) : list string :=
  if Py.elem "id" only then only else only ++ ["id"].

(** The list [only] of the options a caller passes, if there is one. *)
Definition allow_list (default_kwargs : kwargs) : option (list string) :=
  match Py.get "only" default_kwargs with
  | Some (KTuple t) => Some t
  | _ => None
  end.

Definition allowed (default_kwargs : kwargs) (f : string) : Prop :=
  match allow_list default_kwargs with
  | Some t => f ∈ t
  | None => True
  end.

(** The set [tmp_only] of the fields a sparse fieldset selects. *)
Definition selected_fields (schema_cls : SchemaCls) (default_kwargs : kwargs)
    (requested : list string) : gset string :=
  let tmp_only : gset string :=
    list_to_set (Py.keys (cls_declared_fields schema_cls))
      ∩ list_to_set requested in
  match allow_list default_kwargs with
  | Some t => tmp_only ∩ list_to_set (with_id t)
  | None => tmp_only
  end.

(** The visible fields follow the order of the declared ones. *)
Definition in_declared_order (schema : Schema) : Prop :=
  sublist (visible_fields schema) (Py.keys (schema_declared_fields schema)).

(** Example schemas. *)
Definition PersonSchema : SchemaCls :=
  Class "PersonSchema" "person"
    [("id", Attribute); ("name", Attribute); ("email", Attribute);
     ("computers", Relationship (RefName "ComputerSchema"))].

Definition ComputerSchema : SchemaCls :=
  Class "ComputerSchema" "computer"
    [("id", Attribute); ("serial", Attribute);
     ("owner", Relationship (RefClass PersonSchema))].

Definition example_registry : Py.dict SchemaCls :=
  [("PersonSchema", PersonSchema); ("ComputerSchema", ComputerSchema)].

(** A constructor for the examples. As the constructor of
    marshmallow-jsonapi's [Schema] does, it refuses with [ValueError]
    keyword arguments whose [include_data] names a field that their list
    [only] leaves out. *)
Definition unknown_field_error (schema_cls : SchemaCls) (schema_kwargs : kwargs)
    : option exn :=
  match Py.get "only" schema_kwargs with
  | Some (KTuple (f :: only)) =>
      if forallb (fun relation => Py.elem relation (f :: only))
           (kw_tuple "include_data" schema_kwargs)
      then None
      else Some PyValueError
  | _ => None
  end.

(** ** Further code of [QueryStringManager] *)

(** [MANAGED_KEYS] *)
Definition MANAGED_KEYS : list string :=
  ["filter"; "page"; "fields"; "sort"; "include"; "q"; "group"].

(** [key.startswith(prefixes)] for a tuple of prefixes. *)
Definition startswith_any (key : string) (prefixes : list string) : bool :=
  existsb (Py.startswith key) prefixes.

(** The dictionary a comprehension builds from the items it is given,
    one assignment after the other. *)
Definition dict_of_items {V} (items : list (string * V)) : Py.dict V :=
  foldl (fun d item => Py.set item.1 item.2 d) [] items.

(** The property [querystring]: the raw parameters whose key starts with
    a managed name. *)
Definition querystring_managed (qs : QueryStringManager.querystring)
    : Py.dict string :=
  dict_of_items
    (List.filter (fun item => startswith_any item.1 MANAGED_KEYS) qs).

(** The raw values a sub-key gets from the keys under a prefix, in the
    order of the query string. *)
Definition sub_key_values (name k : string)
    (qs : QueryStringManager.querystring) : list qvalue :=
  omap (fun item =>
          if Py.startswith item.1 name then
            match QueryStringManager.item_key item.1 with
            | Some k' =>
                if String.eqb k' k
                then Some (QueryStringManager.item_value item.2)
                else None
            | None => None
            end
          else None) qs.

(** The token of [sort] that stands for an entry. *)
Definition sort_token (e : sort_entry) : string :=
  (if String.eqb (order e) "desc" then "-" else "") +:+ field e.

(** Whether the depth check of [include] rejects the raw string [s] under
    the limit [max]. *)
Definition include_rejected (max : Z) (s : string) : bool :=
  ((max <? 1) && Py.truthy s) || ((max <? 2) && Py.contains "." s).

(** ** Further notions of the projection *)

(** The first segments of the include paths the first loop of
    [compute_schema] accepts before it stops. *)
Fixpoint validated_segments (schema_cls : SchemaCls) (include : list string)
    : list string :=
  match include with
  | [] => []
  | include_path :: include' =>
      match Py.get (first_segment include_path) (cls_declared_fields schema_cls) with
      | Some (Relationship _) =>
          first_segment include_path :: validated_segments schema_cls include'
      | _ => []
      end
  end.

(** The class a relationship relates to, when its schema resolves. *)
Definition ref_class (class_registry : Py.dict SchemaCls) (ref : SchemaRef)
    : option SchemaCls :=
  match related_class class_registry ref with
  | Ok (cls, _) => Some cls
  | Err _ => None
  end.


(** An entry [only] of the options that [compute_schema] can test for
    [id]: anything but a boolean. *)
Definition only_fine (kw : kwargs) : Prop :=
  match Py.get "only" kw with
  | Some (KBool _) => False
  | _ => True
  end.



(** ** The helpers of [schema.py] and the relationship resource

    These functions read more of a declared field than [compute_schema]
    does: its [attribute], and for a relationship its [type_] and
    [id_field]. A [FieldObject] is a declared field with these
    attributes, a [SchemaObject] a schema class with such fields. *)

Record FieldObject : Type := {
  fo_field : Field;
  attribute : option string;
  fo_type_ : string;
  id_field : string
}.

Record SchemaObject : Type := {
  so_name : string;
  so_type_ : string;
  _declared_fields : Py.dict FieldObject
}.

(** The schema class as [compute_schema] sees it. *)
Definition schema_cls_of (schema : SchemaObject) : SchemaCls :=
  Class (so_name schema) (so_type_ schema)
    (map (fun '(key, value) => (key, fo_field value)) (_declared_fields schema)).

(** [isinstance(value, GenericRelationship)] *)
Definition is_relationship (value : FieldObject) : bool :=
  match fo_field value with
  | Relationship _ => true
  | Attribute => false
  end.

(** The exceptions of these functions: a plain [Exception],
    [RelationNotFound], [BadRequest] and [InvalidType] with a source
    pointer, and Python's own. *)
Inductive raised : Type :=
| PlainException (message : string)
| RelationNotFound (detail : string)
| BadRequestAt (detail pointer : string)
| InvalidType (detail pointer : string)
| ValueError (message : string)
| TypeError
| KeyError (key : string)
| AttributeError
| UnboundLocalError.

Inductive attempt (A : Type) : Type :=
| Done (a : A)
| Raised (e : raised).
Arguments Done {A} a.
Arguments Raised {A} e.

Definition attempt_bind {A B} (r : attempt A) (k : A -> attempt B) : attempt B :=
  match r with
  | Done a => k a
  | Raised e => Raised e
  end.

Notation "'try*' x ':=' r 'in' k" := (attempt_bind r (fun x => k))
  (at level 10, x name, r at level 100, k at level 200).

(** A list comprehension over a function that may raise. *)
Fixpoint map_attempt {A B} (f : A -> attempt B) (l : list A) : attempt (list B) :=
  match l with
  | [] => Done []
  | x :: l' =>
      try* y := f x in
      try* ys := map_attempt f l' in
      Done (y :: ys)
  end.

Definition get_model_field (schema : SchemaObject) (field : string)
    : attempt string :=
  match Py.get field (_declared_fields schema) with
  | None =>
      Raised (PlainException (so_name schema +:+ " has no attribute " +:+ field))
  | Some value =>
      match attribute value with
      | Some a => Done a
      | None => Done field
      end
  end.

Definition get_relationships (schema : SchemaObject) (model_field : bool)
    : attempt (list string) :=
  let relationships :=
    Py.keys (List.filter (fun item => is_relationship item.2)
               (_declared_fields schema)) in
  if model_field then map_attempt (get_model_field schema) relationships
  else Done relationships.

Definition get_related_schema (schema : SchemaObject) (field : string)
    : attempt SchemaRef :=
  match Py.get field (_declared_fields schema) with
  | None => Raised (KeyError field)
  | Some value =>
      match fo_field value with
      | Relationship ref => Done ref
      | Attribute => Raised (KeyError "_Relationship__schema")
      end
  end.

(** The loop of [get_schema_field] over the items of
    [schema_fields_to_model]. *)
Fixpoint find_schema_field (items : list (string * string)) (field : string)
    : attempt string :=
  match items with
  | [] => Raised (PlainException ("Couldn't find schema field from " +:+ field))
  | (key, value) :: items' =>
      if String.eqb value field then Done key else find_schema_field items' field
  end.

Definition get_schema_field (schema : SchemaObject) (field : string)
    : attempt string :=
  try* items :=
    map_attempt (fun key => try* value := get_model_field schema key in
                            Done (key, value))
      (Py.keys (_declared_fields schema)) in
  let schema_fields_to_model := dict_of_items items in
  find_schema_field schema_fields_to_model field.

(** [get_schema_from_type] over the items of marshmallow's registry,
    which holds a list of classes under each name; an entry whose list is
    empty raises inside the [try] and is passed over. *)
Fixpoint get_schema_from_type (registry : Py.dict (list SchemaObject))
    (resource_type : string) : attempt SchemaObject :=
  match registry with
  | [] =>
      Raised (PlainException ("Couldn't find schema for type: " +:+ resource_type))
  | (cls_name, cls) :: registry' =>
      match cls with
      | cls0 :: _ =>
          if String.eqb (so_type_ cls0) resource_type then Done cls0
          else get_schema_from_type registry' resource_type
      | [] => get_schema_from_type registry' resource_type
      end
  end.

(** [ResourceRelationship._get_relationship_data] for the request path
    [path]. *)
Definition _get_relationship_data (schema : SchemaObject) (path : string)
    : attempt (string * string * string * string) :=
  let relationship_field := List.last (Py.split "/" path) "" in
  try* relationships := get_relationships schema false in
  if negb (Py.elem relationship_field relationships) then
    Raised (RelationNotFound
              (so_name schema +:+ " has no attribute " +:+ relationship_field))
  else
    match Py.get relationship_field (_declared_fields schema) with
    | None => Raised (KeyError relationship_field)
    | Some value =>
        let related_type_ := fo_type_ value in
        let related_id_field := id_field value in
        try* model_relationship_field :=
          get_model_field schema relationship_field in
        Done (relationship_field, model_relationship_field,
              related_type_, related_id_field)
    end.

(** The model field each declared field stands for. *)
Definition model_field_of (item : string * FieldObject) : string :=
  default item.1 (attribute item.2).

(** ** Request bodies and the relationship resource

    A parsed JSON document, as [request.get_json()] returns it; the
    numbers are the integers, whose value nothing here reads. *)

Inductive json : Type :=
| JNull
| JBool (b : bool)
| JNumber (z : Z)
| JString (s : string)
| JArray (items : list json)
| JObject (members : list (string * json)).

(** Truth value, for [request.get_json() or {}]. *)
Definition json_truthy (x : json) : bool :=
  match x with
  | JNull => false
  | JBool b => b
  | JNumber z => negb (z =? 0)
  | JString s => Py.truthy s
  | JArray items => match items with [] => false | _ => true end
  | JObject members => match members with [] => false | _ => true end
  end.

(** [sub in s] on strings. *)
Fixpoint is_substring (sub s : string) : bool :=
  Py.startswith s sub
  || match s with
     | EmptyString => false
     | String _ s' => is_substring sub s'
     end.

(** [key in x] for a string [key]: a key of a dictionary, an element of
    a list, a substring of a string; anything else is not iterable. *)
Definition json_contains (key : string) (x : json) : attempt bool :=
  match x with
  | JObject members => Done (Py.mem key members)
  | JArray items =>
      Done (existsb (fun item => match item with
                                 | JString s => String.eqb s key
                                 | _ => false
                                 end) items)
  | JString s => Done (is_substring key s)
  | _ => Raised TypeError
  end.

(** [x[key]] for a string [key]: only a dictionary takes one. *)
Definition json_getitem (x : json) (key : string) : attempt json :=
  match x with
  | JObject members =>
      match Py.get key members with
      | Some v => Done v
      | None => Raised (KeyError key)
      end
  | _ => Raised TypeError
  end.

(** [x != s] for a string [s]. *)
Definition json_differs (x : json) (s : string) : bool :=
  match x with
  | JString s' => negb (String.eqb s' s)
  | _ => true
  end.

(** The double quote, which the messages hold. *)
Definition dq : string := String "034"%char "".

Fixpoint for_each_attempt {A} (body : A -> attempt unit) (l : list A)
    : attempt unit :=
  match l with
  | [] => Done tt
  | x :: l' => try* _ := body x in for_each_attempt body l'
  end.

(** The three checks [post], [patch] and [delete] of
    [ResourceRelationship] make on a resource identifier, [mismatch]
    being the message of the last one. *)
Definition check_identifier (mismatch related_type_ : string) (obj : json)
    : attempt unit :=
  try* has_type := json_contains "type" obj in
  if negb has_type then
    Raised (BadRequestAt ("Missing type in " +:+ dq +:+ "data" +:+ dq +:+ " node")
              "/data/type")
  else
    try* has_id := json_contains "id" obj in
    if negb has_id then
      Raised (BadRequestAt ("Missing id in " +:+ dq +:+ "data" +:+ dq +:+ " node")
                "/data/id")
    else
      try* type_ := json_getitem obj "type" in
      if json_differs type_ related_type_ then
        Raised (InvalidType mismatch "/data/type")
      else Done tt.

(** The checks at the head of [post], [patch] and [delete] of
    [ResourceRelationship], the same in the three, on the body of the
    request. *)
Definition check_relationship_payload (body : json) (related_type_ : string)
    : attempt unit :=
  let json_data := if json_truthy body then body else JObject [] in
  try* has_data := json_contains "data" json_data in
  if negb has_data then
    Raised (BadRequestAt
              ("You must provide data with a " +:+ dq +:+ "data" +:+ dq
               +:+ " route node") "/data")
  else
    try* data := json_getitem json_data "data" in
    try* _ := match data with
              | JObject _ =>
                  check_identifier "The type field does not match the resource type"
                    related_type_ data
              | _ => Done tt
              end in
    match data with
    | JArray items =>
        for_each_attempt
          (check_identifier "The type provided does not match the resource type"
             related_type_) items
    | _ => Done tt
    end.

(** A resource identifier of the type [related_type_]: a dictionary with
    an [id] and that [type]. *)
Definition identifies (related_type_ : string) (obj : json) : Prop :=
  exists members,
    obj = JObject members
    /\ Py.mem "id" members = true
    /\ Py.get "type" members = Some (JString related_type_).

(** ** [SchemaOpts]

    The class [Meta] of a schema: its [type_], a string when it is set,
    and its other attributes. *)





(** Example schemas with the attributes of their fields. *)
Definition PersonObject : SchemaObject :=
  {| so_name := "PersonSchema";
     so_type_ := "person";
     _declared_fields :=
       [("id", {| fo_field := Attribute; attribute := Some "person_id";
                  fo_type_ := ""; id_field := "" |});
        ("name", {| fo_field := Attribute; attribute := None;
                    fo_type_ := ""; id_field := "" |});
        ("computers", {| fo_field := Relationship (RefName "ComputerSchema");
                         attribute := Some "machines";
                         fo_type_ := "computer"; id_field := "id" |})] |}.

Definition ComputerObject : SchemaObject :=
  {| so_name := "ComputerSchema";
     so_type_ := "computer";
     _declared_fields :=
       [("id", {| fo_field := Attribute; attribute := None;
                  fo_type_ := ""; id_field := "" |});
        ("owner", {| fo_field := Relationship (RefName "PersonSchema");
                     attribute := Some "person";
                     fo_type_ := "person"; id_field := "id" |})] |}.

(** The check [ResourceDetail.patch] makes on the identifier of the body
    once the body is loaded; [url_id] is [str] of the identifier in the
    url. *)
Definition check_patch_id (json_data : json) (url_id : string) : attempt unit :=
  try* data := json_getitem json_data "data" in
  try* has_id := json_contains "id" data in
  if negb has_id then
    Raised (BadRequestAt ("Missing id in " +:+ dq +:+ "data" +:+ dq +:+ " node")
              "/data/id")
  else
    try* id := json_getitem data "id" in
    if json_differs id url_id then
      Raised (BadRequestAt
                "Value of id does not match the resource identifier in url"
                "/data/id")
    else Done tt.

(** ** The end of [dispatch_request]

    What a view method returns: a response object, a tuple, or any other
    value; and the response [make_response] is called for, with the
    value to serialize, the status and the headers. *)

Record http_response : Type := {
  body : json;
  status : json;
  headers : list (string * json)
}.

Inductive view_result : Type :=
| ViewResponse (r : http_response)
| ViewTuple (items : list json)
| ViewValue (v : json).

Definition content_type : json := JString "application/vnd.api+json".

(** [data.update({'jsonapi': {'version': '1.0'}})] when [data] is a
    dictionary. *)
Definition with_jsonapi (data : json) : json :=
  match data with
  | JObject members =>
      JObject (Py.set "jsonapi" (JObject [("version", JString "1.0")]) members)
  | _ => data
  end.

(** [dispatch_request] from the point where the method has returned
    [response]. Each of the two unpackings takes a tuple of its own
    length and leaves the variables alone otherwise. *)
Definition dispatch_response (response : view_result) : attempt http_response :=
  let default_headers := [("Content-Type", content_type)] in
  match response with
  | ViewResponse r =>
      Done {| body := body r; status := status r;
              headers := headers r ++ [("Content-Type", content_type)] |}
  | ViewValue v =>
      Done {| body := with_jsonapi v; status := JNumber 200;
              headers := default_headers |}
  | ViewTuple items =>
      try* unpacked3 :=
        match items with
        | [data; status_code; JObject h] =>
            Done (Some (data, status_code), Py.set "Content-Type" content_type h)
        | [_; _; _] => Raised AttributeError
        | _ => Done (None, default_headers)
        end in
      let unpacked2 :=
        match items with
        | [data; status_code] => Some (data, status_code)
        | _ => unpacked3.1
        end in
      match unpacked2 with
      | Some (data, status_code) =>
          Done {| body := with_jsonapi data; status := status_code;
                  headers := unpacked3.2 |}
      | None => Raised UnboundLocalError
      end
  end.

(** ** The projection and the objects it writes to

    [compute_schema] again, with the field objects in a store. Above, a
    schema class is taken for the fields it declares; that says what a
    call returns, not which objects it writes to. Here a field object has
    an identity, its location in the store, and the store holds for each
    one what the projection reads and writes of it: whether it is a
    relationship, and then its [_Relationship__schema]. A schema class
    and an instance hold, per field name, the location of the field
    object.

    The constructor of a schema class belongs to the serialization
    library. It is a parameter, [construct]: from the store, the class
    and the keyword arguments it gives the store as it leaves it and the
    instance or the exception. *)

Module Store.

Abbreviation loc := nat.

Inductive StoredClass : Type :=
| SClass (name : string) (type_ : string) (_declared_fields : list (string * loc)).

Inductive StoredSchema : Type :=
| SInstance (cls : StoredClass) (only : option (list string))
    (include_data : list string) (many : bool)
    (declared_fields : list (string * loc)).

(** The value of [_Relationship__schema]: the name of a class, a class or
    an instance. *)
Inductive Slot : Type :=
| SlotName (name : string)
| SlotClass (cls : StoredClass)
| SlotInstance (inst : StoredSchema).

Inductive StoredField : Type :=
| SAttribute
| SRelationship (schema : Slot).

Abbreviation store := (list StoredField).

Definition cls_name (c : StoredClass) : string :=
  match c with SClass name _ _ => name end.
Definition cls_type (c : StoredClass) : string :=
  match c with SClass _ type_ _ => type_ end.
Definition cls_declared_fields (c : StoredClass) : Py.dict loc :=
  match c with SClass _ _ declared => declared end.

Definition schema_class (s : StoredSchema) : StoredClass :=
  match s with SInstance cls _ _ _ _ => cls end.
Definition schema_only (s : StoredSchema) : option (list string) :=
  match s with SInstance _ only _ _ _ => only end.
Definition schema_include_data (s : StoredSchema) : list string :=
  match s with SInstance _ _ include_data _ _ => include_data end.
Definition schema_many (s : StoredSchema) : bool :=
  match s with SInstance _ _ _ many _ => many end.
Definition schema_declared_fields (s : StoredSchema) : Py.dict loc :=
  match s with SInstance _ _ _ _ declared_fields => declared_fields end.

(** [isinstance(field, GenericRelationship)] for the object at a
    location. *)
Definition is_relationship (h : store) (l : loc) : bool :=
  match h !! l with
  | Some (SRelationship _) => true
  | _ => false
  end.

Section compute_schema.

Variable tuple_of_set : gset string -> list string.
Variable class_registry : Py.dict StoredClass.
Variable construct :
  store -> StoredClass -> kwargs -> store * outcome StoredSchema.

(** The first loop of [compute_schema]. It reads the declared fields of
    the class and writes to [schema_kwargs]. *)
Fixpoint collect_includes (h : store) (schema_cls : StoredClass)
    (include : list string) (schema_kwargs : kwargs)
    (related_includes : Py.dict (list string))
    : kwargs * outcome (Py.dict (list string)) :=
  match include with
  | [] => (schema_kwargs, Ok related_includes)
  | include_path :: include' =>
      let field := first_segment include_path in
      match Py.get field (cls_declared_fields schema_cls) with
      | None =>
          (schema_kwargs,
           Err (InvalidInclude
                  (cls_name schema_cls +:+ " has no attribute " +:+ field)))
      | Some l =>
          if negb (is_relationship h l) then
            (schema_kwargs,
             Err (InvalidInclude (field +:+ " is not a relationship attribute of "
                                  +:+ cls_name schema_cls)))
          else
            let schema_kwargs := kw_append "include_data" field schema_kwargs in
            let related_includes :=
              if Py.mem field related_includes then related_includes
              else Py.set field [] related_includes in
            let related_includes :=
              if Py.contains "." include_path then
                Py.set field
                  (default [] (Py.get field related_includes)
                     ++ [rest_segments include_path])
                  related_includes
              else related_includes in
            collect_includes h schema_cls include' schema_kwargs related_includes
      end
  end.

(** "manage sparse fieldsets": the new value of [schema.only]. *)
Definition sparse_only (schema : StoredSchema) (fields : Py.dict (list string))
    : option (list string) :=
  match Py.get (cls_type (schema_class schema)) fields with
  | Some requested =>
      let tmp_only : gset string :=
        list_to_set (Py.keys (schema_declared_fields schema))
          ∩ list_to_set requested in
      let tmp_only :=
        match schema_only schema with
        | Some (f :: only) => tmp_only ∩ list_to_set (f :: only)
        | _ => tmp_only
        end in
      let only := tuple_of_set tmp_only in
      Some (if Py.elem "id" only then only else only ++ ["id"])
  | None => schema_only schema
  end.

Definition related_class (related_schema_cls : Slot)
    : outcome (StoredClass * kwargs) :=
  match related_schema_cls with
  | SlotInstance inst => Ok (schema_class inst, [("many", KBool (schema_many inst))])
  | SlotName name =>
      match Py.get name class_registry with
      | Some cls => Ok (cls, [])
      | None => Err (RegistryError name)
      end
  | SlotClass cls => Ok (cls, [])
  end.

(** The second loop of [compute_schema]. [relation_field] is the field
    object of the instance, and the assignment at the end of the body
    writes to that object. *)
Fixpoint expand_includes
    (project : store -> StoredClass -> kwargs -> list string ->
               option (store * kwargs * outcome StoredSchema))
    (related_includes : Py.dict (list string)) (include : list string)
    (declared_fields : Py.dict loc) (h : store)
    : option (store * outcome unit) :=
  match include with
  | [] => Some (h, Ok tt)
  | include_path :: include' =>
      let field := first_segment include_path in
      match Py.get field declared_fields with
      | None => Some (h, Err (PyKeyError field))
      | Some relation_field =>
          match h !! relation_field with
          | Some (SRelationship related_schema_cls) =>
              match related_class related_schema_cls with
              | Err e => Some (h, Err e)
              | Ok (related_schema_cls, related_schema_kwargs) =>
                  match Py.get field related_includes with
                  | None => Some (h, Err (PyKeyError field))
                  | Some sub_includes =>
                      match project h related_schema_cls related_schema_kwargs
                              sub_includes with
                      | None => None
                      | Some (h, _, Err e) => Some (h, Err e)
                      | Some (h, _, Ok related_schema) =>
                          expand_includes project related_includes include'
                            declared_fields
                            (<[relation_field :=
                                 SRelationship (SlotInstance related_schema)]> h)
                      end
                  end
              end
          | _ => Some (h, Err (PyKeyError "_Relationship__schema"))
          end
      end
  end.

(** [compute_schema] with a bound on the depth of the recursion: the
    store and the mapping [default_kwargs] as the call leaves them, and
    the schema or the exception. *)
Fixpoint compute_schema_fuel (fuel : nat) (h : store) (schema_cls : StoredClass)
    (default_kwargs : kwargs) (qs : QueryStringManager.querystring)
    (include : list string) : option (store * kwargs * outcome StoredSchema) :=
  match fuel with
  | O => None
  | S fuel' =>
      let schema_kwargs := Py.set "include_data" (KTuple []) default_kwargs in
      match collect_includes h schema_cls include schema_kwargs [] with
      | (schema_kwargs, Err e) => Some (h, schema_kwargs, Err e)
      | (schema_kwargs, Ok related_includes) =>
          match ensure_id schema_kwargs with
          | (schema_kwargs, Err e) => Some (h, schema_kwargs, Err e)
          | (schema_kwargs, Ok _) =>
              match construct h schema_cls schema_kwargs with
              | (h, Err e) => Some (h, schema_kwargs, Err e)
              | (h, Ok schema) =>
                  match QueryStringManager.fields qs with
                  | Err e => Some (h, schema_kwargs, Err e)
                  | Ok fields =>
                      let only := sparse_only schema fields in
                      match expand_includes
                              (fun h c k i => compute_schema_fuel fuel' h c k qs i)
                              related_includes include
                              (schema_declared_fields schema) h with
                      | None => None
                      | Some (h, Err e) => Some (h, schema_kwargs, Err e)
                      | Some (h, Ok _) =>
                          Some (h, schema_kwargs,
                                Ok (SInstance (schema_class schema) only
                                      (schema_include_data schema)
                                      (schema_many schema)
                                      (schema_declared_fields schema)))
                      end
                  end
              end
          end
      end
  end.

Definition compute_schema (h : store) (schema_cls : StoredClass)
    (default_kwargs : kwargs) (qs : QueryStringManager.querystring)
    (include : list string) : option (store * kwargs * outcome StoredSchema) :=
  compute_schema_fuel (S (depth include)) h schema_cls default_kwargs qs include.

End compute_schema.

(** Every object of the store [h] is in the store [h'], as it was. *)
Definition unchanged (h h' : store) : Prop :=
  (length h <= length h')%nat
  /\ forall l, (l < length h)%nat -> h' !! l = h !! l.

(** A constructor that copies: the field objects it makes are new, and
    the objects that were in the store are as they were.
    [copy.deepcopy(self._declared_fields)] in marshmallow's [__init__] is
    where the constructor of the library does so. *)
Definition copies
    (construct : store -> StoredClass -> kwargs -> store * outcome StoredSchema)
    : Prop :=
  forall h schema_cls schema_kwargs,
    (exists new, (construct h schema_cls schema_kwargs).1 = h ++ new)
    /\ forall schema,
        (construct h schema_cls schema_kwargs).2 = Ok schema ->
        schema_class schema = schema_cls
        /\ forall f l,
            Py.get f (schema_declared_fields schema) = Some l ->
            (length h <= l)%nat.

(** A constructor for the examples: it copies the field objects of the
    class to the end of the store, in the order of the declared fields,
    and takes [only], [include_data] and [many] from the keyword
    arguments. *)
Fixpoint copy_fields (h : store) (next : loc) (fields : Py.dict loc)
    : list StoredField * Py.dict loc :=
  match fields with
  | [] => ([], [])
  | (f, l) :: fields' =>
      let '(objects, table) := copy_fields h (S next) fields' in
      (default SAttribute (h !! l) :: objects, (f, next) :: table)
  end.

Definition copying_constructor (h : store) (schema_cls : StoredClass)
    (schema_kwargs : kwargs) : store * outcome StoredSchema :=
  let '(objects, table) :=
    copy_fields h (length h) (cls_declared_fields schema_cls) in
  (h ++ objects,
   Ok (SInstance schema_cls
         (match Py.get "only" schema_kwargs with
          | Some (KTuple t) => Some t
          | _ => None
          end)
         (kw_tuple "include_data" schema_kwargs)
         (match Py.get "many" schema_kwargs with
          | Some (KBool b) => b
          | _ => false
          end)
         table)).

(** The example schemas: the field objects of the person class are at
    the locations 0 to 3, those of the computer class at 4 to 6. *)
Definition PersonSchema : StoredClass :=
  SClass "PersonSchema" "person"
    [("id", 0%nat); ("name", 1%nat); ("email", 2%nat); ("computers", 3%nat)].

Definition ComputerSchema : StoredClass :=
  SClass "ComputerSchema" "computer"
    [("id", 4%nat); ("serial", 5%nat); ("owner", 6%nat)].

Definition example_store : store :=
  [SAttribute; SAttribute; SAttribute;
   SRelationship (SlotName "ComputerSchema");
   SAttribute; SAttribute;
   SRelationship (SlotClass PersonSchema)].

Definition example_registry : Py.dict StoredClass :=
  [("PersonSchema", PersonSchema); ("ComputerSchema", ComputerSchema)].

End Store.

(** A class of the store as the first loop of [compute_schema] sees it:
    its name and, for each field, whether it is a relationship. *)
Definition first_loop_view (h : Store.store) (schema_cls : Store.StoredClass)
    : SchemaCls :=
  Class (Store.cls_name schema_cls) (Store.cls_type schema_cls)
    (map (fun item : string * Store.loc =>
            (item.1,
             if Store.is_relationship h item.2
             then Relationship (RefName (Store.cls_name schema_cls))
             else Attribute))
       (Store.cls_declared_fields schema_cls)).

(** * Properties *)

(** ** Strings *)

Section strings.

Implicit Types (c : ascii) (s a b k : string).

Local Arguments String.append !_ _ / : simpl nomatch.

Lemma index_None c s : Py.index c s = None <-> Py.contains c s = false.
Proof.
  induction s as [|d s IH]; simpl; [done|].
  destruct (Ascii.eqb d c); simpl; [split; discriminate|].
  destruct (Py.index c s); [|tauto].
  split; [discriminate|]. intros H. apply IH in H. discriminate.
Qed.

Lemma index_app_skip c a s :
  Py.contains c a = false ->
  Py.index c (a +:+ s) = Nat.add (String.length a) <$> Py.index c s.
Proof.
  induction a as [|d a IH]; simpl; intros H.
  - by destruct (Py.index c s).
  - apply orb_false_iff in H as [-> H]. rewrite (IH H).
    by destruct (Py.index c s).
Qed.

Lemma append_assoc a b s : (a +:+ b) +:+ s = a +:+ (b +:+ s).
Proof. induction a as [|d a IH]; simpl; [done|]. by rewrite IH. Qed.

Lemma index_head c s : Py.index c (String c s) = Some O.
Proof. simpl. by rewrite Ascii.eqb_refl. Qed.

Lemma drop_app a s : Py.drop (String.length a) (a +:+ s) = s.
Proof. induction a; simpl; [by destruct s|done]. Qed.

Lemma take_app a s : Py.take (String.length a) (a +:+ s) = a.
Proof. induction a; simpl; [by destruct s|congruence]. Qed.

Lemma take_0 s : Py.take 0 s = "".
Proof. by destruct s. Qed.

Lemma contains_app c a s :
  Py.contains c (a +:+ s) = Py.contains c a || Py.contains c s.
Proof.
  induction a as [|d a IH]; simpl; [done|]. by rewrite IH, orb_assoc.
Qed.

Lemma startswith_app s a : Py.startswith (a +:+ s) a = true.
Proof. induction a; simpl; [done|]. by rewrite Ascii.eqb_refl. Qed.

(** Splitting never yields the empty list, and no part holds the
    separator. *)
Lemma split_not_nil c s : Py.split c s <> [].
Proof.
  destruct s as [|d s]; simpl; [done|].
  destruct (Ascii.eqb d c); [done|]. by destruct (Py.split c s).
Qed.

Lemma split_parts_free c s w : w ∈ Py.split c s -> Py.contains c w = false.
Proof.
  revert w. induction s as [|d s IH]; simpl; intros w.
  - intros ->%list_elem_of_singleton. done.
  - destruct (Ascii.eqb d c) eqn:E.
    + intros [->|H]%elem_of_cons; [done|by apply IH].
    + destruct (Py.split c s) as [|w' ws] eqn:Es.
      * intros ->%list_elem_of_singleton. simpl. by rewrite E.
      * intros [->|H]%elem_of_cons; simpl.
        -- rewrite E. apply IH. left.
        -- apply IH. by right.
Qed.

Lemma split_free c s : Py.contains c s = false -> Py.split c s = [s].
Proof.
  induction s as [|d s IH]; simpl; [done|].
  intros [-> H]%orb_false_iff. by rewrite (IH H).
Qed.

Lemma split_app c a s :
  Py.contains c a = false ->
  Py.split c (a +:+ String c s) = a :: Py.split c s.
Proof.
  induction a as [|d a IH]; simpl.
  - by rewrite Ascii.eqb_refl.
  - intros [-> H]%orb_false_iff. by rewrite (IH H).
Qed.

Lemma split_join c w ws :
  Forall (fun x => Py.contains c x = false) (w :: ws) ->
  Py.split c (Py.join (String c "") (w :: ws)) = w :: ws.
Proof.
  revert w. induction ws as [|w' ws IH]; intros w Hall.
  - apply split_free. by inversion Hall.
  - inversion Hall as [|? ? Hw Hws]; subst.
    change (Py.join (String c "") (w :: w' :: ws))
      with (w +:+ String c (Py.join (String c "") (w' :: ws))).
    rewrite split_app by done. by rewrite IH.
Qed.

Lemma remove_free c s : Py.contains c s = false -> Py.remove c s = s.
Proof.
  induction s as [|d s IH]; simpl; [done|].
  intros [-> H]%orb_false_iff. by rewrite (IH H).
Qed.

End strings.

(** ** Bracket-key extraction *)

Section get_key_values.

Import QueryStringManager.
Implicit Types (name key value a b k : string) (qs : querystring).

Local Arguments String.append !_ _ / : simpl nomatch.

Lemma item_key_None key :
  item_key key = None <->
  Py.contains "[" key = false \/ Py.contains "]" key = false.
Proof.
  unfold item_key. rewrite <- !index_None.
  destruct (Py.index "[" key), (Py.index "]" key); split;
    intros; try done; try tauto; by intuition.
Qed.

Lemma item_key_between a k b :
  Py.contains "[" a = false -> Py.contains "]" a = false ->
  Py.contains "]" k = false ->
  item_key (a +:+ "[" +:+ k +:+ "]" +:+ b) = Some k.
Proof.
  intros Ha1 Ha2 Hk. unfold item_key.
  rewrite (index_app_skip "[" a) by done.
  change ("[" +:+ k +:+ "]" +:+ b) with (String "[" (k +:+ String "]" b)).
  rewrite index_head. simpl fmap. cbv zeta.
  rewrite (index_app_skip "]" a) by done.
  replace (Py.index "]" (String "[" (k +:+ String "]" b)))
    with (Some (S (String.length k))).
  2:{ simpl. rewrite (index_app_skip "]" k) by done. rewrite index_head.
      simpl. by rewrite Nat.add_0_r. }
  simpl fmap. unfold Py.slice.
  replace (String.length a + S (String.length k)
           - S (String.length a + 0))%nat with (String.length k) by lia.
  replace (S (String.length a + 0)) with (String.length (a +:+ "[")).
  2:{ clear. induction a; simpl; [done|]. by rewrite IHa. }
  replace (a +:+ String "[" (k +:+ String "]" b))
    with ((a +:+ "[") +:+ (k +:+ String "]" b)).
  2:{ clear. induction a; simpl; [done|]. by rewrite IHa. }
  by rewrite drop_app, take_app.
Qed.

Lemma item_key_close_first a b :
  Py.contains "[" a = false -> Py.contains "]" a = false ->
  Py.contains "[" b = true ->
  item_key (a +:+ "]" +:+ b) = Some "".
Proof.
  intros Ha1 Ha2 Hb. unfold item_key.
  rewrite (index_app_skip "[" a) by done.
  change ("]" +:+ b) with (String "]" b).
  destruct (Py.index "[" (String "]" b)) as [i|] eqn:Ei.
  2:{ apply index_None in Ei. simpl in Ei. congruence. }
  simpl fmap. cbv zeta.
  rewrite (index_app_skip "]" a) by done. rewrite index_head. simpl fmap.
  unfold Py.slice.
  replace (String.length a + 0 - S (String.length a + i))%nat with O by lia.
  by rewrite take_0.
Qed.

Lemma item_value_list v1 v2 :
  Py.contains "," v1 = false -> Py.contains "," v2 = false ->
  item_value (v1 +:+ "," +:+ v2) = VList [v1; v2].
Proof.
  intros H1 H2. unfold item_value.
  change ("," +:+ v2) with (String "," v2).
  rewrite contains_app. simpl. rewrite orb_true_r.
  by rewrite split_app, (split_free "," v2).
Qed.

Lemma item_value_scalar v : Py.contains "," v = false -> item_value v = VStr v.
Proof. intros H. unfold item_value. by rewrite H. Qed.

Lemma get_key_values_loop_Err name qs results e :
  get_key_values_loop name qs results = Err e ->
  exists key value,
    (key, value) ∈ qs /\ Py.startswith key name = true
    /\ item_key key = None /\ e = BadRequest "Parse error" key.
Proof.
  revert results. induction qs as [|[key value] qs IH]; intros results; simpl.
  - discriminate.
  - destruct (Py.startswith key name) eqn:Es; simpl.
    + destruct (item_key key) as [k|] eqn:Ek.
      * intros (key' & value' & Hin & ?)%IH.
        exists key', value'. split; [by right|done].
      * intros [= <-]. exists key, value. split; [left|done].
    + intros (key' & value' & Hin & ?)%IH.
      exists key', value'. split; [by right|done].
Qed.

Lemma get_key_values_loop_fails name qs results key value :
  (key, value) ∈ qs -> Py.startswith key name = true -> item_key key = None ->
  is_ok (get_key_values_loop name qs results) = false.
Proof.
  intros Hin Hs Hk. revert results.
  induction qs as [|[key' value'] qs IH]; intros results.
  - by apply elem_of_nil in Hin.
  - simpl. apply elem_of_cons in Hin as [[= <- <-]|Hin].
    + by rewrite Hs, Hk.
    + destruct (Py.startswith key' name); simpl; [|by apply IH].
      destruct (item_key key'); [by apply IH|done].
Qed.

Lemma get_key_values_single name key value k :
  Py.startswith key name = true -> item_key key = Some k ->
  _get_key_values name [(key, value)] = Ok [(k, item_value value)].
Proof.
  intros Hs Hk. unfold _get_key_values. simpl. by rewrite Hs, Hk.
Qed.

End get_key_values.

(** Evaluates [pagination] on a query string of ASCII literals, given
    that [int] reads them as [int_ascii] does. *)
Ltac read_literals Hint :=
  cbv; rewrite ?Hint by reflexivity; reflexivity.

Section bracket_claims.

Import QueryStringManager.

(** C6, at inputs where the code departs from it: the closing bracket
    is looked for from the start of the key, not after the opening one.
    In ["page]x[size]"] the specification reads the sub-key [size], the
    parser the empty string; ["page]x["] has no "]" after its "[", so the
    specification has the extraction fail, and the parser returns the
    empty sub-key. The examples of the claim itself hold. *)
Theorem get_key_values_close_bracket_first :
  sub_key_after_bracket "page]x[size]" = Some "size"
  /\ _get_key_values "page" [("page]x[size]", "5")] = Ok [("", VStr "5")]
  /\ item_key "page]x[size]" <> sub_key_after_bracket "page]x[size]"
  /\ sub_key_after_bracket "page]x[" = None
  /\ _get_key_values "page" [("page]x[", "5")] = Ok [("", VStr "5")]
  /\ _get_key_values "filter" [("filter[name]", "v1,v2")]
     = Ok [("name", VList ["v1"; "v2"])]
  /\ _get_key_values "filter" [("filter[name]", "v1")] = Ok [("name", VStr "v1")]
  /\ _get_key_values "fields" [("fields", "x")]
     = Err (BadRequest "Parse error" "fields").
Proof. by repeat split. Qed.

(** What the extraction does in general. For a raw key that starts with
    the prefix the sub-key is the slice from after the first "[" of the
    key to the first "]" of the key: the substring between the two when
    no "]" comes before the "[", the empty string when one does. A value
    with a comma becomes the list of its parts, any other stays a
    string. The extraction raises exactly when a key with the prefix has
    no "[" or no "]", and the [BadRequest] names such a key. *)
Lemma get_key_values_sub_key :
  (forall name key value k,
      Py.startswith key name = true -> item_key key = Some k ->
      _get_key_values name [(key, value)] = Ok [(k, item_value value)])
  /\ (forall a k b,
         Py.contains "[" a = false -> Py.contains "]" a = false ->
         Py.contains "]" k = false ->
         item_key (a +:+ "[" +:+ k +:+ "]" +:+ b) = Some k)
  /\ (forall a b,
         Py.contains "[" a = false -> Py.contains "]" a = false ->
         Py.contains "[" b = true ->
         item_key (a +:+ "]" +:+ b) = Some "")
  /\ (forall v1 v2,
         Py.contains "," v1 = false -> Py.contains "," v2 = false ->
         item_value (v1 +:+ "," +:+ v2) = VList [v1; v2])
  /\ (forall v, Py.contains "," v = false -> item_value v = VStr v)
  /\ (forall name qs e,
         _get_key_values name qs = Err e ->
         exists key value,
           (key, value) ∈ qs /\ Py.startswith key name = true
           /\ (Py.contains "[" key = false \/ Py.contains "]" key = false)
           /\ e = BadRequest "Parse error" key)
  /\ (forall name qs key value,
         (key, value) ∈ qs -> Py.startswith key name = true ->
         Py.contains "[" key = false \/ Py.contains "]" key = false ->
         is_ok (_get_key_values name qs) = false)
  /\ _get_key_values "filter" [("filter[name]", "v1,v2"); ("sort", "name")]
     = Ok [("name", VList ["v1"; "v2"])]
  /\ _get_key_values "filter" [("filter[name]", "v1")] = Ok [("name", VStr "v1")]
  /\ _get_key_values "fields" [("fields[user]", "name"); ("fields", "x")]
     = Err (BadRequest "Parse error" "fields").
Proof.
  split; [exact get_key_values_single|].
  split; [exact item_key_between|].
  split; [exact item_key_close_first|].
  split; [exact item_value_list|].
  split; [exact item_value_scalar|].
  split.
  { intros name qs e (key & value & Hin & Hs & Hk & ->)%get_key_values_loop_Err.
    exists key, value. by rewrite <- item_key_None. }
  split.
  { intros name qs key value Hin Hs Hk%item_key_None.
    by eapply get_key_values_loop_fails. }
  by repeat split.
Qed.

(** C10: a raw key is selected as soon as its name starts with the
    prefix, whatever follows the prefix before the bracket; so
    [pages[foo]=1] gives the sub-key [foo] under the prefix [page],
    pagination rejects it, and it makes the parse of a valid
    [page[size]=10] fail. *)
Theorem get_key_values_prefix_only :
  (forall name suffix k b value,
      Py.contains "[" (name +:+ suffix) = false ->
      Py.contains "]" (name +:+ suffix) = false ->
      Py.contains "]" k = false ->
      _get_key_values name [((name +:+ suffix) +:+ "[" +:+ k +:+ "]" +:+ b, value)]
      = Ok [(k, item_value value)])
  /\ _get_key_values "page" [("pages[foo]", "1")] = Ok [("foo", VStr "1")]
  /\ (forall int cfg,
         pagination int cfg [("pages[foo]", "1")]
         = Err (BadRequest "foo is not a valid parameter of pagination" "page"))
  /\ (forall int,
         reads_ascii_literals int ->
         pagination int no_config [("page[size]", "10")] = Ok [("size", VStr "10")])
  /\ (forall int cfg,
         reads_ascii_literals int ->
         pagination int cfg [("page[size]", "10"); ("pages[foo]", "1")]
         = Err (BadRequest "foo is not a valid parameter of pagination" "page"))
  /\ (forall int cfg,
         pagination int cfg [("page[size]", "10"); ("pagesize", "1")]
         = Err (BadRequest "Parse error" "pagesize")).
Proof.
  split.
  { intros name suffix k b value H1 H2 Hk.
    apply get_key_values_single.
    - rewrite append_assoc. apply startswith_app.
    - by apply item_key_between. }
  split; [done|]. split; [done|].
  split; [intros int Hint; read_literals Hint|].
  split; [intros int cfg Hint; read_literals Hint|done].
Qed.

(** C10 on the key [pages[foo]]: prefix [page], suffix [s]. *)
Lemma get_key_values_prefix_only_witness :
  _get_key_values "page" [(("page" +:+ "s") +:+ "[" +:+ "foo" +:+ "]" +:+ "", "1")]
  = Ok [("foo", item_value "1")].
Proof.
  destruct get_key_values_prefix_only as (Hsel & _).
  apply (Hsel "page" "s" "foo" "" "1"); reflexivity.
Defined.

End bracket_claims.

(** ** Sorting and inclusion *)

Section sort_include_claims.

Import QueryStringManager.

(** The entry of one token of [sort]. *)
Lemma sorting_tokens qs sort :
  Py.get "sort" qs = Some sort -> Py.truthy sort = true ->
  sorting qs
  = map (fun token =>
           {| field := Py.remove "-" token;
              order := if Py.startswith token "-" then "desc" else "asc" |})
        (Py.split "," sort).
Proof. intros Hs Ht. unfold sorting. by rewrite Hs, Ht. Qed.

Lemma sorting_absent qs : Py.get "sort" qs = None -> sorting qs = [].
Proof. intros Hs. unfold sorting. by rewrite Hs. Qed.

(** On field names without a hyphen the marker alone is removed. *)
Lemma sort_field_descending name :
  Py.contains "-" name = false -> Py.remove "-" (String "-" name) = name.
Proof. intros H. simpl. by apply remove_free. Qed.

(** C5, at an input where the code departs from it: every hyphen of a
    token is removed, not only the leading one, so the field name
    [first-name] is not returned unchanged. The examples of the claim
    itself hold. *)
Theorem sorting_removes_inner_hyphens :
  sorting [("sort", "first-name")] = [{| field := "firstname"; order := "asc" |}]
  /\ sorting [("sort", "-created-at")]
     = [{| field := "createdat"; order := "desc" |}]
  /\ sorting [("sort", "-created_at,name")]
     = [{| field := "created_at"; order := "desc" |};
        {| field := "name"; order := "asc" |}]
  /\ sorting [] = [].
Proof. by repeat split. Qed.

Lemma check_include_char max c :
  2 <= max -> check_include_path max (String c "") = Ok tt.
Proof.
  intros H. unfold check_include_path. simpl.
  destruct (Ascii.eqb c "."); simpl;
    match goal with |- context [?n >? max] => destruct (Z.gtb_spec n max) end;
    (done || lia).
Qed.

(** With a limit of two or more the depth check of [include] never
    fails: it looks at the characters of the raw string, and a
    character splits into at most two parts. *)
Lemma include_limit_of_two_never_fails max qs :
  2 <= max -> is_ok (include (max_include_depth max) qs) = true.
Proof.
  intros H. unfold include. simpl.
  destruct (Py.get "include" qs) as [s|]; [|done].
  assert (for_each (check_include_path max) (Py.chars s) = Ok tt) as ->; [|done].
  induction s as [|c s IH]; [done|].
  simpl Py.chars. simpl for_each. by rewrite check_include_char, IH.
Qed.

(** C1, at an input where the code departs from it: a path of three
    segments passes a limit of two. The examples of the claim itself
    hold. *)
Theorem include_three_segments_pass_limit_two :
  include (max_include_depth 2) [("include", "a.b.c")] = Ok ["a.b.c"]
  /\ include (max_include_depth 1) [("include", "author.publisher")]
     = Err (InvalidInclude "You can't use include through more than 1 relationships")
  /\ include (max_include_depth 2) [("include", "author.publisher")]
     = Ok ["author.publisher"]
  /\ include no_config [("include", "author.publisher,comments")]
     = Ok ["author.publisher"; "comments"]
  /\ include (max_include_depth 1) [] = Ok [].
Proof. by repeat split. Qed.

End sort_include_claims.

(** ** Pagination *)

Section pagination_claims.

Import QueryStringManager.

Lemma elem_spec x l : Py.elem x l = true <-> x ∈ l.
Proof.
  unfold Py.elem. induction l as [|y l IH]; simpl.
  - split; [done|]. by intros ?%elem_of_nil.
  - rewrite orb_true_iff, IH, elem_of_cons, String.eqb_eq. done.
Qed.

Lemma get_elem_of {V} k (v : V) (d : Py.dict V) :
  Py.get k d = Some v -> (k, v) ∈ d.
Proof.
  induction d as [|[k' v'] d IH]; simpl; [done|].
  destruct (String.eqb_spec k' k) as [->|].
  - intros [= ->]. left.
  - intros H. right. by apply IH.
Qed.

Lemma for_each_Ok {A} (body : A -> outcome unit) l :
  for_each body l = Ok tt <-> Forall (fun x => body x = Ok tt) l.
Proof.
  induction l as [|x l IH]; simpl.
  - split; [constructor|done].
  - rewrite Forall_cons, <- IH.
    destruct (body x) as [[]|e]; simpl; [tauto|].
    split; [done|]. by intros [? _].
Qed.

Lemma for_each_first_Err {A} (body : A -> outcome unit) pre x post e :
  for_each body pre = Ok tt -> body x = Err e ->
  for_each body (pre ++ x :: post) = Err e.
Proof.
  intros Hpre Hx. induction pre as [|y pre IH]; simpl in *.
  - by rewrite Hx.
  - destruct (body y) as [[]|]; simpl in *; [by apply IH|done].
Qed.

Section interpreter.

Variable int : string -> option Z.

Lemma check_page_item_Ok key value :
  check_page_item int (key, value) = Ok tt <->
  (key = "number" \/ key = "size")
  /\ exists s z, value = VStr s /\ int s = Some z.
Proof.
  unfold check_page_item.
  destruct (Py.elem key ["number"; "size"]) eqn:Ek; simpl.
  - apply elem_spec in Ek.
    assert (key = "number" \/ key = "size") as Hk.
    { apply elem_of_cons in Ek as [->|Ek]; [by left|].
      apply list_elem_of_singleton in Ek. by right. }
    destruct value as [s|l]; simpl.
    + destruct (int s) as [z|] eqn:Ez.
      * split; [|done]. intros _. split; [done|]. by exists s, z.
      * split; [done|]. intros (_ & s' & z & [= <-] & ?). congruence.
    + split; [done|]. intros (_ & s & z & ? & _). done.
  - split; [done|]. intros [Hk _].
    assert (Py.elem key ["number"; "size"] = true); [|congruence].
    apply elem_spec. destruct Hk as [->| ->]; [left|right; left].
Qed.

Lemma pagination_Ok cfg qs result :
  pagination int cfg qs = Ok result ->
  _get_key_values "page" qs = Ok result
  /\ for_each (check_page_item int) result = Ok tt.
Proof.
  unfold pagination.
  destruct (_get_key_values "page" qs) as [r|]; simpl; [|done].
  destruct (for_each (check_page_item int) r) as [[]|] eqn:Hall; simpl; [|done].
  destruct (check_disable_pagination int cfg r); simpl; [|done].
  destruct (check_max_page_size int cfg r); simpl; [|done].
  intros [= <-]. done.
Qed.

Lemma valid_size_value result :
  for_each (check_page_item int) result = Ok tt ->
  match Py.get "size" result with
  | Some v => exists s z, v = VStr s /\ int s = Some z
  | None => True
  end.
Proof.
  intros Hall%for_each_Ok. destruct (Py.get "size" result) as [v|] eqn:Eg; [|done].
  apply get_elem_of in Eg. rewrite Forall_forall in Hall.
  apply Hall, check_page_item_Ok in Eg. tauto.
Qed.

(** What [pagination] returns once the sub-keys and values have passed
    the first loop. *)
Lemma pagination_checked cfg qs result :
  _get_key_values "page" qs = Ok result ->
  for_each (check_page_item int) result = Ok tt ->
  pagination int cfg qs
  = if disable_violation int cfg result then
      Err (BadRequest "You are not allowed to disable pagination" "page[size]")
    else if max_violation int cfg result then
      Err (BadRequest ("Maximum page size is "
                       +:+ Py.str_of_int (default 0 (MAX_PAGE_SIZE cfg)))
                      "page[size]")
    else Ok result.
Proof.
  intros Hget Hall. unfold pagination. rewrite Hget. simpl. rewrite Hall. simpl.
  pose proof (valid_size_value result Hall) as Hsize.
  unfold check_disable_pagination, check_max_page_size,
    disable_violation, max_violation, page_size.
  destruct (Py.get "size" result) as [v|].
  - destruct Hsize as (s & z & -> & Hz). simpl. rewrite Hz.
    destruct (ALLOW_DISABLE_PAGINATION cfg) as [[]|], (MAX_PAGE_SIZE cfg) as [max|];
      simpl; try destruct (z =? 0); simpl; try destruct (z >? max); done.
  - destruct (ALLOW_DISABLE_PAGINATION cfg) as [[]|], (MAX_PAGE_SIZE cfg) as [max|];
      done.
Qed.

(** C2 (amended): a pagination mapping that is returned has its keys
    among [number] and [size] and as values the raw strings, each of
    which [int] takes for an integer, which may be negative. The first
    entry that does not pass decides the exception: a sub-key other than
    [number] and [size] gives a [BadRequest] whose source is [page], a
    string that [int] refuses gives a [BadRequest] whose source is
    [page[<key>]]. *)
Theorem pagination_keys_and_values :
  (forall cfg qs result,
      pagination int cfg qs = Ok result ->
      forall key value, (key, value) ∈ result ->
        (key = "number" \/ key = "size")
        /\ exists s z, value = VStr s /\ int s = Some z)
  /\ (forall cfg qs pre key value post,
         _get_key_values "page" qs = Ok (pre ++ (key, value) :: post) ->
         for_each (check_page_item int) pre = Ok tt ->
         key <> "number" -> key <> "size" ->
         pagination int cfg qs
         = Err (BadRequest (key +:+ " is not a valid parameter of pagination")
                           "page"))
  /\ (forall cfg qs pre key s post,
         _get_key_values "page" qs = Ok (pre ++ (key, VStr s) :: post) ->
         for_each (check_page_item int) pre = Ok tt ->
         key = "number" \/ key = "size" ->
         int s = None ->
         pagination int cfg qs
         = Err (BadRequest "Parse error" ("page[" +:+ key +:+ "]")))
  /\ (forall cfg,
         pagination int cfg [("page[foo]", "1")]
         = Err (BadRequest "foo is not a valid parameter of pagination" "page"))
  /\ (reads_ascii_literals int ->
      forall cfg,
        pagination int cfg [("page[size]", "abc")]
        = Err (BadRequest "Parse error" "page[size]"))
  /\ (reads_ascii_literals int ->
      pagination int no_config [("page[number]", "3"); ("page[size]", "-5")]
      = Ok [("number", VStr "3"); ("size", VStr "-5")]).
Proof.
  split.
  { intros cfg qs result [_ Hall]%pagination_Ok key value Hin.
    apply for_each_Ok in Hall. rewrite Forall_forall in Hall.
    by apply check_page_item_Ok, Hall. }
  split.
  { intros cfg qs pre key value post Hget Hpre Hn Hs.
    unfold pagination. rewrite Hget. simpl.
    erewrite for_each_first_Err; [done|done|].
    unfold check_page_item.
    destruct (Py.elem key ["number"; "size"]) eqn:Ek; [|done].
    apply elem_spec in Ek. apply elem_of_cons in Ek as [->|Ek]; [done|].
    by apply list_elem_of_singleton in Ek. }
  split.
  { intros cfg qs pre key s post Hget Hpre Hk Hs.
    unfold pagination. rewrite Hget. simpl.
    erewrite for_each_first_Err; [done|done|].
    unfold check_page_item. simpl int_of_value. rewrite Hs.
    by destruct Hk as [-> | ->]. }
  split; [done|].
  split; intros Hint; [intros cfg|]; read_literals Hint.
Qed.

(** C7: once the sub-keys and values have passed, the two policies
    decide. A size of zero with [ALLOW_DISABLE_PAGINATION] set to
    [False], and otherwise a size above [MAX_PAGE_SIZE], give a
    [BadRequest] whose source is [page[size]]; anything else returns
    the mapping. The size is what [int] makes of the value, as in the
    loop that has passed. *)
Theorem pagination_policies :
  (forall cfg qs result,
      _get_key_values "page" qs = Ok result ->
      for_each (check_page_item int) result = Ok tt ->
      pagination int cfg qs
      = if disable_violation int cfg result then
          Err (BadRequest "You are not allowed to disable pagination" "page[size]")
        else if max_violation int cfg result then
          Err (BadRequest ("Maximum page size is "
                           +:+ Py.str_of_int (default 0 (MAX_PAGE_SIZE cfg)))
                          "page[size]")
        else Ok result)
  /\ (reads_ascii_literals int ->
      forall max depth,
        pagination int {| ALLOW_DISABLE_PAGINATION := Some false;
                          MAX_PAGE_SIZE := max; MAX_INCLUDE_DEPTH := depth |}
          [("page[size]", "0")]
        = Err (BadRequest "You are not allowed to disable pagination" "page[size]"))
  /\ (reads_ascii_literals int ->
      forall depth,
        pagination int {| ALLOW_DISABLE_PAGINATION := Some true;
                          MAX_PAGE_SIZE := None; MAX_INCLUDE_DEPTH := depth |}
          [("page[size]", "0")]
        = Ok [("size", VStr "0")])
  /\ (reads_ascii_literals int ->
      forall depth,
        pagination int {| ALLOW_DISABLE_PAGINATION := None;
                          MAX_PAGE_SIZE := None; MAX_INCLUDE_DEPTH := depth |}
          [("page[size]", "0")]
        = Ok [("size", VStr "0")])
  /\ (reads_ascii_literals int ->
      forall allow depth,
        pagination int {| ALLOW_DISABLE_PAGINATION := allow;
                          MAX_PAGE_SIZE := Some 50; MAX_INCLUDE_DEPTH := depth |}
          [("page[size]", "51")]
        = Err (BadRequest "Maximum page size is 50" "page[size]"))
  /\ (reads_ascii_literals int ->
      forall allow depth,
        pagination int {| ALLOW_DISABLE_PAGINATION := allow;
                          MAX_PAGE_SIZE := Some 50; MAX_INCLUDE_DEPTH := depth |}
          [("page[size]", "50")]
        = Ok [("size", VStr "50")]).
Proof.
  split; [exact pagination_checked|].
  split; [intros Hint [?|] ?; read_literals Hint|].
  split; [intros Hint ?; read_literals Hint|].
  split; [intros Hint ?; read_literals Hint|].
  split; intros Hint [[]|] ?; read_literals Hint.
Qed.

End interpreter.

(** C2, as the specification states it, fails on a negative page size:
    [page[size]=-5] is returned, its value the string ["-5"], which
    [int] reads as the integer -5. *)
Lemma pagination_negative_size_returned :
  pagination Py.int_ascii no_config [("page[size]", "-5")]
  = Ok [("size", VStr "-5")]
  /\ Py.int_ascii "-5" = Some (-5)
  /\ ~ keys_fixed_values_nonnegative Py.int_ascii
         (pagination Py.int_ascii no_config [("page[size]", "-5")]).
Proof.
  split; [done|]. split; [done|]. intros H.
  destruct (H "size" (VStr "-5")) as (_ & z & Hz & Hpos); [left|].
  vm_compute in Hz. injection Hz as <-. lia.
Qed.

(** C2 on [page[number]=3&page[size]=-5], for the entry [size]. *)
Lemma pagination_keys_and_values_witness :
  ("size" = "number" \/ "size" = "size")
  /\ exists s z, VStr "-5" = VStr s /\ Py.int_ascii s = Some z.
Proof.
  destruct (pagination_keys_and_values Py.int_ascii) as (Hok & _).
  apply (Hok no_config [("page[number]", "3"); ("page[size]", "-5")]
           [("number", VStr "3"); ("size", VStr "-5")]).
  - reflexivity.
  - right. left.
Defined.

(** C7 on [page[size]=51] with a maximum of 50 and pagination that may
    not be disabled. *)
Lemma pagination_policies_witness :
  pagination Py.int_ascii
    {| ALLOW_DISABLE_PAGINATION := Some false;
       MAX_PAGE_SIZE := Some 50; MAX_INCLUDE_DEPTH := None |}
    [("page[number]", "2"); ("page[size]", "51")]
  = Err (BadRequest "Maximum page size is 50" "page[size]").
Proof.
  destruct (pagination_policies Py.int_ascii) as (Hpol & _).
  apply (Hpol {| ALLOW_DISABLE_PAGINATION := Some false;
                 MAX_PAGE_SIZE := Some 50; MAX_INCLUDE_DEPTH := None |}
           [("page[number]", "2"); ("page[size]", "51")]
           [("number", VStr "2"); ("size", VStr "51")]); reflexivity.
Defined.

End pagination_claims.

(** ** Dictionaries *)

Section dict.

Context {V : Type}.
Implicit Types (k : string) (v : V) (d : Py.dict V).

Lemma get_set_eq k v d : Py.get k (Py.set k v d) = Some v.
Proof.
  induction d as [|[k' v'] d IH]; simpl.
  - by rewrite String.eqb_refl.
  - destruct (String.eqb k' k) eqn:E; simpl; by rewrite E.
Qed.

Lemma get_set_ne k k' v d : k <> k' -> Py.get k' (Py.set k v d) = Py.get k' d.
Proof.
  intros Hne. induction d as [|[k0 v0] d IH]; simpl.
  - by destruct (String.eqb_spec k k').
  - destruct (String.eqb_spec k0 k) as [->|]; simpl.
    + by destruct (String.eqb_spec k k').
    + by rewrite IH.
Qed.

Lemma keys_set_present k v d :
  Py.mem k d = true -> Py.keys (Py.set k v d) = Py.keys d.
Proof.
  unfold Py.mem, Py.keys. induction d as [|[k' v'] d IH]; simpl; [done|].
  destruct (String.eqb k' k); simpl; [done|]. intros H.
  f_equal. by apply IH.
Qed.

Lemma mem_set k k' v d :
  Py.mem k' (Py.set k v d) = String.eqb k k' || Py.mem k' d.
Proof.
  unfold Py.mem. destruct (String.eqb_spec k k') as [->|Hne]; simpl.
  - by rewrite get_set_eq.
  - by rewrite get_set_ne.
Qed.

End dict.

(** ** Projection: the include paths *)

Section collect_includes.

Implicit Types (schema_cls : SchemaCls) (include : list string)
  (kw : kwargs) (related : Py.dict (list string)).

Lemma collect_includes_invalid schema_cls include kw related include_path :
  include_path ∈ include -> invalid_include schema_cls include_path ->
  is_invalid_include (collect_includes schema_cls include kw related).2.
Proof.
  intros Hin Hbad. revert kw related.
  induction include as [|p include IH]; intros kw related.
  - by apply elem_of_nil in Hin.
  - simpl. unfold invalid_include in Hbad.
    destruct (Py.get (first_segment p) (cls_declared_fields schema_cls))
      as [[|ref]|] eqn:Ep; [done| |done].
    apply elem_of_cons in Hin as [->|Hin]; [by rewrite Ep in Hbad|].
    by apply IH.
Qed.

Lemma collect_includes_valid schema_cls include kw related :
  Forall (fun p => ~ invalid_include schema_cls p) include ->
  exists related', (collect_includes schema_cls include kw related).2 = Ok related'.
Proof.
  intros Hall. revert kw related.
  induction Hall as [|p include Hp Hall IH]; intros kw related; simpl; [by eexists|].
  unfold invalid_include in Hp.
  destruct (Py.get (first_segment p) (cls_declared_fields schema_cls))
    as [[|ref]|]; [by destruct Hp| |by destruct Hp].
  apply IH.
Qed.

Lemma get_kw_append_ne key key' x kw :
  key <> key' -> Py.get key' (kw_append key x kw) = Py.get key' kw.
Proof. intros Hne. unfold kw_append. by rewrite get_set_ne. Qed.

(** The first loop writes to [include_data] alone. *)
Lemma collect_includes_frame schema_cls include kw related key :
  key <> "include_data" ->
  Py.get key (collect_includes schema_cls include kw related).1 = Py.get key kw.
Proof.
  intros Hne. revert kw related.
  induction include as [|p include IH]; intros kw related; simpl; [done|].
  destruct (Py.get (first_segment p) (cls_declared_fields schema_cls))
    as [[|ref]|]; [done| |done].
  rewrite IH. by apply get_kw_append_ne.
Qed.

Lemma collect_includes_include_data schema_cls include kw related related' data :
  Py.get "include_data" kw = Some (KTuple data) ->
  (collect_includes schema_cls include kw related).2 = Ok related' ->
  Py.get "include_data" (collect_includes schema_cls include kw related).1
  = Some (KTuple (data ++ map first_segment include)).
Proof.
  revert kw related data.
  induction include as [|p include IH]; intros kw related data Hdata; simpl.
  - by rewrite app_nil_r.
  - destruct (Py.get (first_segment p) (cls_declared_fields schema_cls))
      as [[|ref]|]; [done| |done].
    intros Hok. erewrite IH; [|by apply get_set_eq|done].
    unfold kw_tuple. rewrite Hdata. by rewrite <- app_assoc.
Qed.

End collect_includes.

(** ** Projection: [compute_schema] *)

Section compute_schema_props.

Variable tuple_of_set : gset string -> list string.
Variable class_registry : Py.dict SchemaCls.
Variable init_error : SchemaCls -> kwargs -> option exn.

Implicit Types (schema_cls : SchemaCls) (include : list string)
  (kw default_kwargs : kwargs) (qs : QueryStringManager.querystring).

(** One call of [compute_schema], step by step. *)
Lemma compute_schema_fuel_inv fuel schema_cls default_kwargs qs include kw' r :
  compute_schema_fuel tuple_of_set class_registry init_error (S fuel)
    schema_cls default_kwargs qs include = Some (kw', r) ->
  match (collect_includes schema_cls include
           (Py.set "include_data" (KTuple []) default_kwargs) []).2 with
  | Err e =>
      kw' = kwargs_after_includes schema_cls default_kwargs include /\ r = Err e
  | Ok related_includes =>
      kw' = kwargs_after schema_cls default_kwargs include
      /\ match (ensure_id
                  (kwargs_after_includes schema_cls default_kwargs include)).2 with
         | Err e => r = Err e
         | Ok _ =>
             match init_error schema_cls kw' with
             | Some e => r = Err e
             | None =>
                 match QueryStringManager.fields qs with
                 | Err e => r = Err e
                 | Ok fields =>
                     match r with
                     | Ok schema =>
                         schema_class schema = schema_cls
                         /\ schema_only schema
                            = sparse_only tuple_of_set
                                (new_instance schema_cls kw') fields
                         /\ schema_include_data schema
                            = kw_tuple "include_data" kw'
                     | Err _ => True
                     end
                 end
             end
         end
  end.
Proof.
  unfold kwargs_after, kwargs_after_includes. simpl compute_schema_fuel.
  destruct (collect_includes _ _ _ _) as [kw1 [related|e]]; simpl;
    [|by intros [= <- <-]].
  destruct (ensure_id kw1) as [kw2 [[]|e]]; simpl; [|by intros [= <- <-]].
  unfold instantiate.
  destruct (init_error schema_cls kw2) as [e|] eqn:Ei;
    [intros [= <- <-]; by rewrite Ei|].
  destruct (QueryStringManager.fields qs) as [fields|e];
    [|intros [= <- <-]; by rewrite Ei].
  destruct (expand_includes _ _ _ _) as [[declared|e]|];
    [intros [= <- <-]|intros [= <- <-]|]; by rewrite ?Ei.
Qed.

(** C9: an include path whose first segment is not a declared field,
    or is a declared field that is no relationship, makes
    [compute_schema] raise [InvalidInclude], wherever the path stands
    in the list. *)
Theorem compute_schema_invalid_include
    schema_cls default_kwargs qs include include_path :
  include_path ∈ include ->
  Py.get (first_segment include_path) (cls_declared_fields schema_cls) = None
  \/ Py.get (first_segment include_path) (cls_declared_fields schema_cls)
     = Some Attribute ->
  exists kw' detail,
    compute_schema tuple_of_set class_registry init_error
      schema_cls default_kwargs qs include
    = Some (kw', Err (InvalidInclude detail)).
Proof.
  intros Hin Hbad.
  assert (invalid_include schema_cls include_path) as Hinv.
  { unfold invalid_include. by destruct Hbad as [-> | ->]. }
  pose proof (collect_includes_invalid schema_cls include
                (Py.set "include_data" (KTuple []) default_kwargs) []
                include_path Hin Hinv) as H.
  unfold compute_schema. simpl compute_schema_fuel.
  destruct (collect_includes _ _ _ _) as [kw1 [related|[]]]; simpl in H; try done.
  by eexists _, _.
Qed.

Lemma elem_of_with_id only f : f ∈ with_id only <-> f = "id" \/ f ∈ only.
Proof.
  unfold with_id. destruct (Py.elem "id" only) eqn:E.
  - apply elem_spec in E. split; [by right|]. by intros [->|].
  - rewrite elem_of_app, list_elem_of_singleton. tauto.
Qed.

Lemma NoDup_with_id only : NoDup only -> NoDup (with_id only).
Proof.
  intros Hnd. unfold with_id. destruct (Py.elem "id" only) eqn:E; [done|].
  apply NoDup_app. split; [done|]. split; [|apply NoDup_singleton].
  intros f Hf ->%list_elem_of_singleton.
  apply elem_spec in Hf. congruence.
Qed.

Lemma with_id_not_nil only : with_id only <> [].
Proof.
  intros H.
  pose proof (proj2 (elem_of_with_id only "id") (or_introl eq_refl)) as Hin.
  rewrite H in Hin. by apply elem_of_nil in Hin.
Qed.

(** The entry [only] of the mapping once [compute_schema] has checked it. *)
Lemma only_after schema_cls default_kwargs include :
  Py.get "only" (kwargs_after schema_cls default_kwargs include)
  = match Py.get "only" default_kwargs with
    | Some (KTuple t) => Some (KTuple (with_id t))
    | o => o
    end.
Proof.
  unfold kwargs_after, kwargs_after_includes.
  pose proof (collect_includes_frame schema_cls include
                (Py.set "include_data" (KTuple []) default_kwargs) [] "only") as Hfr.
  rewrite get_set_ne in Hfr by done.
  rewrite <- Hfr by done. clear Hfr.
  generalize (collect_includes schema_cls include
                (Py.set "include_data" (KTuple []) default_kwargs) []).1 as kw1.
  intros kw1. unfold ensure_id, with_id.
  destruct (Py.get "only" kw1) as [[|b|t]|] eqn:E; simpl; try done.
  destruct (Py.elem "id" t); simpl; [done|].
  unfold kw_append, kw_tuple. by rewrite get_set_eq, E.
Qed.

(** The check of [only] writes to [only] alone. *)
Lemma ensure_id_frame kw key :
  key <> "only" -> Py.get key (ensure_id kw).1 = Py.get key kw.
Proof.
  intros Hne. unfold ensure_id.
  destruct (Py.get "only" kw) as [[|b|t]|]; simpl; try done.
  destruct (Py.elem "id" t); simpl; [done|]. by apply get_kw_append_ne.
Qed.

Lemma instantiate_only schema_cls default_kwargs include :
  schema_only (new_instance schema_cls (kwargs_after schema_cls default_kwargs include))
  = with_id <$> allow_list default_kwargs.
Proof.
  unfold new_instance, allow_list. simpl. rewrite only_after.
  by destruct (Py.get "only" default_kwargs) as [[|b|t]|].
Qed.

(** [schema.only] after the sparse fieldsets have been managed. *)
Lemma sparse_only_selected schema_cls default_kwargs include fields requested :
  Py.get (cls_type schema_cls) fields = Some requested ->
  sparse_only tuple_of_set
    (new_instance schema_cls (kwargs_after schema_cls default_kwargs include)) fields
  = Some (with_id (tuple_of_set (selected_fields schema_cls default_kwargs requested))).
Proof.
  intros Hreq. unfold sparse_only. rewrite instantiate_only.
  simpl schema_class. simpl schema_declared_fields. rewrite Hreq.
  unfold selected_fields.
  destruct (allow_list default_kwargs) as [t|]; [|done].
  change (with_id <$> Some t) with (Some (with_id t)).
  destruct (with_id t) as [|f only] eqn:E; [|done].
  by apply with_id_not_nil in E.
Qed.

Lemma sparse_only_absent schema_cls default_kwargs include fields :
  Py.get (cls_type schema_cls) fields = None ->
  sparse_only tuple_of_set
    (new_instance schema_cls (kwargs_after schema_cls default_kwargs include)) fields
  = with_id <$> allow_list default_kwargs.
Proof.
  intros Hreq. unfold sparse_only. simpl schema_class. rewrite Hreq.
  apply instantiate_only.
Qed.

(** A schema that is returned, and what was read on the way. *)
Lemma compute_schema_Ok schema_cls default_kwargs qs include kw' schema :
  compute_schema tuple_of_set class_registry init_error
    schema_cls default_kwargs qs include
  = Some (kw', Ok schema) ->
  kw' = kwargs_after schema_cls default_kwargs include
  /\ Forall (fun p => ~ invalid_include schema_cls p) include
  /\ exists fields,
      QueryStringManager.fields qs = Ok fields
      /\ schema_class schema = schema_cls
      /\ schema_only schema
         = sparse_only tuple_of_set (new_instance schema_cls kw') fields
      /\ schema_include_data schema = kw_tuple "include_data" kw'.
Proof.
  intros H. unfold compute_schema in H.
  apply compute_schema_fuel_inv in H.
  destruct (collect_includes _ _ _ _).2 as [related|e] eqn:Ec; [|by destruct H].
  destruct H as [-> H]. split; [done|]. split.
  { apply Forall_forall. intros p Hp Hbad.
    pose proof (collect_includes_invalid schema_cls include
                  (Py.set "include_data" (KTuple []) default_kwargs) [] p Hp Hbad)
      as Hi.
    by rewrite Ec in Hi. }
  destruct (ensure_id _).2; [|done].
  destruct (init_error schema_cls _); [done|].
  destruct (QueryStringManager.fields qs) as [fields|]; [|done].
  by exists fields.
Qed.

Lemma elem_of_tuple_of_set (X : gset string) f :
  (forall Y, tuple_of_set Y ≡ₚ elements Y) -> f ∈ tuple_of_set X <-> f ∈ X.
Proof. intros Hperm. by rewrite Hperm, elem_of_elements. Qed.

Lemma elem_of_selected_fields schema_cls default_kwargs requested f :
  f ∈ selected_fields schema_cls default_kwargs requested <->
  f ∈ Py.keys (cls_declared_fields schema_cls) /\ f ∈ requested
  /\ (f = "id" \/ allowed default_kwargs f).
Proof.
  unfold selected_fields, allowed.
  destruct (allow_list default_kwargs) as [t|].
  - rewrite !elem_of_intersection, !elem_of_list_to_set, elem_of_with_id. tauto.
  - rewrite elem_of_intersection, !elem_of_list_to_set. tauto.
Qed.

(** C8: when the directives hold a sparse fieldset for the type of the
    schema, the visible fields of the projected schema are the declared
    fields that the caller's list [only] allows (when there is one) and
    that the fieldset requests, together with [id], which is always
    among them; no field is listed twice. *)
Theorem sparse_fieldset_visible_fields
    schema_cls default_kwargs qs include kw' schema fields requested :
  (forall X, tuple_of_set X ≡ₚ elements X) ->
  compute_schema tuple_of_set class_registry init_error
    schema_cls default_kwargs qs include
  = Some (kw', Ok schema) ->
  QueryStringManager.fields qs = Ok fields ->
  Py.get (cls_type schema_cls) fields = Some requested ->
  "id" ∈ visible_fields schema
  /\ NoDup (visible_fields schema)
  /\ forall f,
      f ∈ visible_fields schema <->
      f = "id"
      \/ (f ∈ Py.keys (cls_declared_fields schema_cls)
          /\ allowed default_kwargs f /\ f ∈ requested).
Proof.
  intros Hperm (-> & _ & fields' & Hf & _ & Honly & _)%compute_schema_Ok
    Hfields Hreq.
  assert (fields' = fields) as -> by congruence.
  rewrite (sparse_only_selected _ _ _ _ _ Hreq) in Honly.
  unfold visible_fields. rewrite Honly.
  split; [apply elem_of_with_id; by left|].
  split.
  { apply NoDup_with_id. rewrite Hperm. apply NoDup_elements. }
  intros f. rewrite elem_of_with_id, elem_of_tuple_of_set by done.
  rewrite elem_of_selected_fields. tauto.
Qed.

(** C3 (amended): with a sparse fieldset for the type, the visible fields
    are listed in the order in which the set of the selected fields is
    enumerated, with [id] after them when it was not selected; this is not
    the order of the declared fields in general. Projecting with no
    include path, no sparse fieldset for the type and no list [only] in
    the options leaves every declared field visible, in declared order;
    the one exception such a call can raise is one of the constructor
    of the schema class. *)
Theorem visible_fields_order :
  (forall schema_cls default_kwargs qs include kw' schema fields requested,
      compute_schema tuple_of_set class_registry init_error
        schema_cls default_kwargs qs include
      = Some (kw', Ok schema) ->
      QueryStringManager.fields qs = Ok fields ->
      Py.get (cls_type schema_cls) fields = Some requested ->
      visible_fields schema
      = with_id (tuple_of_set (selected_fields schema_cls default_kwargs requested)))
  /\ (forall schema_cls default_kwargs qs fields,
         QueryStringManager.fields qs = Ok fields ->
         Py.get (cls_type schema_cls) fields = None ->
         Py.get "only" default_kwargs = None
         \/ Py.get "only" default_kwargs = Some KNone ->
         exists r,
           compute_schema tuple_of_set class_registry init_error
             schema_cls default_kwargs qs []
           = Some (Py.set "include_data" (KTuple []) default_kwargs, r)
           /\ match init_error schema_cls
                      (Py.set "include_data" (KTuple []) default_kwargs) with
              | Some e => r = Err e
              | None =>
                  exists schema,
                    r = Ok schema
                    /\ schema_declared_fields schema = cls_declared_fields schema_cls
                    /\ visible_fields schema
                       = Py.keys (cls_declared_fields schema_cls)
              end).
Proof.
  split.
  - intros schema_cls default_kwargs qs include kw' schema fields requested
      (-> & _ & fields' & Hf & _ & Honly & _)%compute_schema_Ok Hfields Hreq.
    assert (fields' = fields) as -> by congruence.
    rewrite (sparse_only_selected _ _ _ _ _ Hreq) in Honly.
    unfold visible_fields. by rewrite Honly.
  - intros schema_cls default_kwargs qs fields Hfields Hreq Honly.
    unfold compute_schema. simpl.
    assert (ensure_id (Py.set "include_data" (KTuple []) default_kwargs)
            = (Py.set "include_data" (KTuple []) default_kwargs, Ok tt)) as ->.
    { unfold ensure_id. rewrite get_set_ne by done. by destruct Honly as [-> | ->]. }
    unfold instantiate.
    destruct (init_error schema_cls _) as [e|]; [by eexists|].
    rewrite Hfields. eexists. split; [done|]. eexists. split; [done|].
    split; [done|].
    unfold visible_fields, sparse_only. simpl. rewrite Hreq.
    rewrite get_set_ne by done. by destruct Honly as [-> | ->].
Qed.

(** The options mapping after a call: [compute_schema] leaves every entry
    other than [include_data] and [only] as it was, and when it returns a
    schema, [include_data] holds the first segments of the include paths
    and a list [only] without [id] has [id] at its end. *)
Lemma compute_schema_writes_kwargs schema_cls default_kwargs qs include kw' r :
  compute_schema tuple_of_set class_registry init_error
    schema_cls default_kwargs qs include
  = Some (kw', r) ->
  (forall key,
      key <> "include_data" -> key <> "only" ->
      Py.get key kw' = Py.get key default_kwargs)
  /\ (forall schema,
         r = Ok schema ->
         schema_class schema = schema_cls
         /\ Py.get "include_data" kw' = Some (KTuple (map first_segment include))
         /\ Py.get "only" kw'
            = match Py.get "only" default_kwargs with
              | Some (KTuple t) => Some (KTuple (with_id t))
              | o => o
              end).
Proof.
  intros H. split.
  - intros key Hdata Honly. unfold compute_schema in H.
    apply compute_schema_fuel_inv in H.
    assert (Py.get key (kwargs_after_includes schema_cls default_kwargs include)
            = Py.get key default_kwargs) as Hfr.
    { unfold kwargs_after_includes. rewrite collect_includes_frame by done.
      by rewrite get_set_ne. }
    destruct (collect_includes _ _ _ _).2; destruct H as [-> _]; [|done].
    unfold kwargs_after. by rewrite ensure_id_frame.
  - intros schema ->.
    pose proof H as (-> & Hvalid & fields & _ & Hcls & _)%compute_schema_Ok.
    split; [done|]. split; [|apply only_after].
    unfold kwargs_after, kwargs_after_includes.
    rewrite ensure_id_frame by done.
    destruct (collect_includes_valid schema_cls include
                (Py.set "include_data" (KTuple []) default_kwargs) [] Hvalid)
      as [related Hrel].
    by erewrite collect_includes_include_data; [|apply get_set_eq|done].
Qed.

End compute_schema_props.

(** ** Projection: the recursion ends *)

Section depth.

Local Open Scope nat_scope.

Implicit Types (include subs : list string) (related : Py.dict (list string)).

Lemma split_contains c s :
  Py.contains c s = true -> exists w w' ws, Py.split c s = w :: w' :: ws.
Proof.
  induction s as [|d s IH]; simpl; [done|].
  destruct (Ascii.eqb d c); simpl.
  - intros _. destruct (Py.split c s) as [|w' ws] eqn:E.
    + by apply split_not_nil in E.
    + by exists "", w', ws.
  - intros (w & w' & ws & ->)%IH. by eexists _, _, _.
Qed.

(** The paths below a relationship are shorter than the path they come
    from. *)
Lemma rest_segments_shorter p :
  Py.contains "." p = true ->
  S (length (Py.split "." (rest_segments p))) = length (Py.split "." p).
Proof.
  intros Hp. unfold rest_segments.
  destruct (split_contains "." p Hp) as (w & w' & ws & E).
  rewrite E. simpl tail. rewrite (split_join "." w' ws); [done|].
  apply Forall_forall. intros x Hx. apply (split_parts_free "." p).
  rewrite E. by right.
Qed.

Lemma split_length_pos c s : 0 < length (Py.split c s).
Proof.
  pose proof (split_not_nil c s). destruct (Py.split c s); [done|]. simpl. lia.
Qed.

Lemma depth_elem include p :
  p ∈ include -> length (Py.split "." p) <= depth include.
Proof.
  unfold depth. induction include as [|q include IH]; simpl.
  - by intros ?%elem_of_nil.
  - intros [->|Hin]%elem_of_cons; [lia|]. apply IH in Hin. lia.
Qed.

Lemma depth_below subs n :
  0 < n -> Forall (fun s => length (Py.split "." s) < n) subs -> depth subs < n.
Proof.
  intros Hn Hall. unfold depth.
  induction Hall as [|s subs Hs Hall IH]; simpl; [done|]. lia.
Qed.

(** Where the entries of [related_includes] come from. *)
Lemma collect_includes_related schema_cls include kw related related' :
  (collect_includes schema_cls include kw related).2 = Ok related' ->
  forall field subs,
    Py.get field related' = Some subs ->
    (is_Some (Py.get field related) \/ exists p, p ∈ include)
    /\ forall s, s ∈ subs ->
         (exists subs0, Py.get field related = Some subs0 /\ s ∈ subs0)
         \/ (exists p,
                p ∈ include /\ Py.contains "." p = true /\ s = rest_segments p).
Proof.
  revert kw related. induction include as [|p include IH]; intros kw related; simpl.
  - intros [= <-] field subs Hget. split; [by left|]. intros s Hs. left. eauto.
  - destruct (Py.get (first_segment p) (cls_declared_fields schema_cls))
      as [[|ref]|]; [done| |done].
    intros Hok field subs Hget.
    destruct (IH _ _ Hok field subs Hget) as [Hkey Hsubs]. clear IH Hok Hget.
    split.
    { right. exists p. left. }
    intros s Hs. destruct (Hsubs s Hs) as [(subs0 & Hget0 & Hs0)|(q & Hq & ?)];
      [|right; exists q; split; [by right|done]].
    clear Hsubs Hkey.
    set (related1 := if Py.mem (first_segment p) related then related
                     else Py.set (first_segment p) [] related) in *.
    assert (forall subs1 s, Py.get field related1 = Some subs1 -> s ∈ subs1 ->
              exists subs0, Py.get field related = Some subs0 /\ s ∈ subs0) as H1.
    { intros subs1 s1 Hg Hs1. unfold related1 in Hg.
      destruct (Py.mem (first_segment p) related); [eauto|].
      destruct (String.eqb_spec (first_segment p) field) as [<-|Hne].
      - rewrite get_set_eq in Hg. injection Hg as <-. by apply elem_of_nil in Hs1.
      - rewrite get_set_ne in Hg by done. eauto. }
    destruct (Py.contains "." p) eqn:Ep; [|left; eauto].
    destruct (String.eqb_spec (first_segment p) field) as [<-|Hne].
    + rewrite get_set_eq in Hget0. injection Hget0 as <-.
      apply elem_of_app in Hs0 as [Hs0| ->%list_elem_of_singleton].
      * left. destruct (Py.get (first_segment p) related1) as [subs1|] eqn:E1.
        -- eapply H1; done.
        -- by apply elem_of_nil in Hs0.
      * right. exists p. split; [left|done].
    + rewrite get_set_ne in Hget0 by done. left. eauto.
Qed.

Lemma collect_includes_depth schema_cls include kw related' field subs :
  (collect_includes schema_cls include kw []).2 = Ok related' ->
  Py.get field related' = Some subs ->
  depth subs < depth include.
Proof.
  intros Hok Hget.
  destruct (collect_includes_related _ _ _ _ _ Hok field subs Hget) as [Hkey Hsubs].
  assert (0 < depth include) as Hpos.
  { destruct Hkey as [[? Hx]|[p Hp]]; [done|].
    pose proof (depth_elem include p Hp). pose proof (split_length_pos "." p). lia. }
  apply depth_below; [done|]. apply Forall_forall. intros s Hs.
  destruct (Hsubs s Hs) as [(? & Hx & _)|(p & Hp & Hdot & ->)]; [done|].
  pose proof (rest_segments_shorter p Hdot).
  pose proof (depth_elem include p Hp). lia.
Qed.

Section fuel.

Variable tuple_of_set : gset string -> list string.
Variable class_registry : Py.dict SchemaCls.
Variable init_error : SchemaCls -> kwargs -> option exn.

Lemma expand_includes_total project related include declared_fields :
  (forall field subs schema_cls kw,
      Py.get field related = Some subs -> is_Some (project schema_cls kw subs)) ->
  is_Some (expand_includes class_registry project related include declared_fields).
Proof.
  intros Hproject. revert declared_fields.
  induction include as [|p include IH]; intros declared_fields; simpl; [done|].
  destruct (Py.get (first_segment p) declared_fields) as [[|ref]|]; [done| |done].
  destruct (related_class class_registry ref) as [[cls kw]|]; [|done].
  destruct (Py.get (first_segment p) related) as [subs|] eqn:Hsubs; [|done].
  destruct (Hproject _ _ cls kw Hsubs) as [[kw' [schema|e]] ->]; [apply IH|done].
Qed.

(** With more fuel than the include paths have segments the projection
    ends: it returns a schema or raises. *)
Lemma compute_schema_fuel_total fuel schema_cls default_kwargs qs include :
  depth include < fuel ->
  is_Some (compute_schema_fuel tuple_of_set class_registry init_error fuel
             schema_cls default_kwargs qs include).
Proof.
  revert schema_cls default_kwargs include.
  induction fuel as [|fuel IH]; intros schema_cls default_kwargs include Hfuel;
    [lia|].
  simpl.
  destruct (collect_includes _ _ _ _) as [kw1 [related|e]] eqn:Ec; [|done].
  destruct (ensure_id kw1) as [kw2 [[]|e]]; [|done].
  destruct (instantiate init_error schema_cls kw2) as [schema|e]; [|done].
  destruct (QueryStringManager.fields qs) as [fields|e]; [|done].
  match goal with
  | |- context [expand_includes _ ?project ?rel ?inc ?declared] =>
      destruct (expand_includes_total project rel inc declared) as [[d|e] ->];
        [|done|done]
  end.
  intros field subs cls kw Hget. apply IH.
  pose proof (collect_includes_depth schema_cls include
                (Py.set "include_data" (KTuple []) default_kwargs)
                related field subs) as Hd.
  rewrite Ec in Hd. specialize (Hd eq_refl Hget). lia.
Qed.

Lemma expand_includes_ext project project' related include declared_fields :
  (forall field subs schema_cls kw,
      Py.get field related = Some subs ->
      project schema_cls kw subs = project' schema_cls kw subs) ->
  expand_includes class_registry project related include declared_fields
  = expand_includes class_registry project' related include declared_fields.
Proof.
  intros Hext. revert declared_fields.
  induction include as [|p include IH]; intros declared_fields; simpl; [done|].
  destruct (Py.get (first_segment p) declared_fields) as [[|ref]|]; [done| |done].
  destruct (related_class class_registry ref) as [[cls kw]|]; [|done].
  destruct (Py.get (first_segment p) related) as [subs|] eqn:Hsubs; [|done].
  rewrite (Hext _ _ cls kw Hsubs).
  destruct (project' cls kw subs) as [[kw' [schema|e]]|]; [apply IH|done|done].
Qed.

(** More fuel than that does not change the result. *)
Lemma compute_schema_fuel_stable fuel fuel' schema_cls default_kwargs qs include :
  depth include < fuel -> depth include < fuel' ->
  compute_schema_fuel tuple_of_set class_registry init_error fuel
    schema_cls default_kwargs qs include
  = compute_schema_fuel tuple_of_set class_registry init_error fuel'
      schema_cls default_kwargs qs include.
Proof.
  revert fuel' schema_cls default_kwargs include.
  induction fuel as [|fuel IH];
    intros [|fuel'] schema_cls default_kwargs include Hfuel Hfuel'; try lia.
  simpl.
  destruct (collect_includes _ _ _ _) as [kw1 [related|e]] eqn:Ec; [|done].
  destruct (ensure_id kw1) as [kw2 [[]|e]]; [|done].
  destruct (instantiate init_error schema_cls kw2) as [schema|e]; [|done].
  destruct (QueryStringManager.fields qs) as [fields|e]; [|done].
  match goal with
  | |- context [expand_includes _ ?project ?rel ?inc ?declared] =>
      rewrite (expand_includes_ext project
                 (fun c k i =>
                    compute_schema_fuel tuple_of_set class_registry init_error
                      fuel' c k qs i) rel inc declared); [done|]
  end.
  intros field subs cls kw Hget.
  pose proof (collect_includes_depth schema_cls include
                (Py.set "include_data" (KTuple []) default_kwargs)
                related field subs) as Hd.
  rewrite Ec in Hd. specialize (Hd eq_refl Hget). apply IH; lia.
Qed.

Theorem compute_schema_total schema_cls default_kwargs qs include :
  is_Some (compute_schema tuple_of_set class_registry init_error
             schema_cls default_kwargs qs include).
Proof. apply compute_schema_fuel_total. lia. Qed.

End fuel.

End depth.

(** ** The projection properties on the example schemas *)

Section examples.

Local Abbreviation project :=
  (compute_schema elements example_registry unknown_field_error).

(** C9 on a path through the attribute [name]. *)
Lemma compute_schema_invalid_include_witness :
  exists kw' detail,
    project PersonSchema [] [] ["computers"; "name.first"]
    = Some (kw', Err (InvalidInclude detail)).
Proof.
  apply (compute_schema_invalid_include elements example_registry unknown_field_error
           PersonSchema [] [] ["computers"; "name.first"] "name.first").
  - right. left.
  - right. reflexivity.
Defined.

(** C8 on a person schema with a list [only] and a fieldset that asks
    for a field the schema does not declare. *)
Lemma sparse_fieldset_visible_fields_witness :
  exists kw' schema,
    project PersonSchema [("only", KTuple ["name"; "email"; "computers"])]
      [("fields[person]", "email,phone")] ["computers"]
    = Some (kw', Ok schema)
    /\ "id" ∈ visible_fields schema
    /\ NoDup (visible_fields schema)
    /\ forall f,
        f ∈ visible_fields schema <->
        f = "id"
        \/ (f ∈ Py.keys (cls_declared_fields PersonSchema)
            /\ allowed [("only", KTuple ["name"; "email"; "computers"])] f
            /\ f ∈ ["email"; "phone"]).
Proof.
  eexists _, _. split; [vm_compute; reflexivity|].
  eapply (sparse_fieldset_visible_fields elements example_registry
            unknown_field_error PersonSchema
           [("only", KTuple ["name"; "email"; "computers"])]
           [("fields[person]", "email,phone")] ["computers"] _ _
           [("person", ["email"; "phone"])] ["email"; "phone"]).
  - intros X. reflexivity.
  - vm_compute. reflexivity.
  - reflexivity.
  - reflexivity.
Defined.

(** C3, as the specification states it, fails when [id] is not
    requested: [id] is declared first and listed last. *)
Lemma requested_field_listed_before_id :
  exists kw' schema,
    project PersonSchema [] [("fields[person]", "name")] [] = Some (kw', Ok schema)
    /\ Py.keys (schema_declared_fields schema) = ["id"; "name"; "email"; "computers"]
    /\ visible_fields schema = ["name"; "id"]
    /\ ~ in_declared_order schema.
Proof.
  eexists _, _. split; [vm_compute; reflexivity|].
  split; [reflexivity|]. split; [reflexivity|].
  unfold in_declared_order. simpl. intros H.
  repeat match goal with
         | H : sublist _ _ |- _ => inversion H; clear H; subst
         end.
Qed.

(** C3 (amended) on a person schema with a fieldset of two fields. *)
Lemma visible_fields_order_witness :
  exists kw' schema,
    project PersonSchema [] [("fields[person]", "name,email")] ["computers"]
    = Some (kw', Ok schema)
    /\ visible_fields schema
       = with_id (elements (selected_fields PersonSchema [] ["name"; "email"])).
Proof.
  eexists _, _. split; [vm_compute; reflexivity|].
  destruct (visible_fields_order elements example_registry unknown_field_error)
    as (Horder & _).
  eapply (Horder PersonSchema [] [("fields[person]", "name,email")] ["computers"]
            _ _ [("person", ["name"; "email"])] ["name"; "email"]).
  - vm_compute. reflexivity.
  - reflexivity.
  - reflexivity.
Defined.

(** C4, as the specification states it, fails on every call: the
    options mapping of the caller, empty before, holds [include_data]
    after. *)
Lemma compute_schema_adds_include_data :
  exists kw' r,
    project PersonSchema [] [] [] = Some (kw', r)
    /\ kw' = [("include_data", KTuple [])]
    /\ kw' <> [].
Proof. eexists _, _. split; [vm_compute; reflexivity|]. by split. Qed.

End examples.

(** * Further properties *)

(** ** The query string as a whole *)

Section querystring_props.

Import QueryStringManager.

Local Arguments String.append !_ _ / : simpl nomatch.

Lemma set_absent {V} k (v : V) (d : Py.dict V) :
  k ∉ Py.keys d -> Py.set k v d = d ++ [(k, v)].
Proof.
  unfold Py.keys. induction d as [|[k' v'] d IH]; simpl; [done|].
  intros Hk. apply not_elem_of_cons in Hk as [Hne Hk].
  destruct (String.eqb_spec k' k); [congruence|]. by rewrite IH.
Qed.

Lemma dict_of_items_NoDup {V} (items : list (string * V)) :
  NoDup (Py.keys items) -> dict_of_items items = items.
Proof.
  unfold dict_of_items.
  assert (forall d : Py.dict V,
             NoDup (Py.keys (d ++ items)) ->
             foldl (fun d item => Py.set item.1 item.2 d) d items = d ++ items)
    as H; [|apply (H [])].
  induction items as [|[k v] items IH]; intros d Hnd; simpl.
  - by rewrite app_nil_r.
  - unfold Py.keys in *. rewrite fmap_app in Hnd. simpl in Hnd.
    apply NoDup_app in Hnd as (Hd & Hdis & Hitems).
    rewrite set_absent.
    + rewrite IH; [by rewrite <- app_assoc|].
      rewrite <- app_assoc. simpl. rewrite fmap_app. simpl.
      apply NoDup_app. done.
    + intros Hin. apply (Hdis k Hin). left.
Qed.

Lemma keys_filter_NoDup {V} (P : string * V -> bool) (d : Py.dict V) :
  NoDup (Py.keys d) -> NoDup (Py.keys (List.filter P d)).
Proof.
  unfold Py.keys. induction d as [|[k v] d IH]; simpl; [done|].
  intros [Hk Hd]%NoDup_cons. destruct (P (k, v)); simpl; [|by apply IH].
  apply NoDup_cons. split; [|by apply IH].
  intros Hin. apply Hk. apply list_elem_of_fmap in Hin as ([k' v'] & -> & Hin).
  apply list_elem_of_fmap. exists (k', v'). split; [done|].
  apply list_elem_of_In, List.filter_In in Hin as [Hin _].
  by apply list_elem_of_In.
Qed.

(** On a dictionary, that is on distinct keys, the property is the
    filter itself. *)
Lemma querystring_managed_filter qs :
  NoDup (Py.keys qs) ->
  querystring_managed qs
  = List.filter (fun item => startswith_any item.1 MANAGED_KEYS) qs.
Proof.
  intros Hnd. unfold querystring_managed.
  apply dict_of_items_NoDup. by apply keys_filter_NoDup.
Qed.

Lemma get_filter {V} (P : string -> bool) k (d : Py.dict V) :
  P k = true -> Py.get k (List.filter (fun item => P item.1) d) = Py.get k d.
Proof.
  intros Hk. induction d as [|[k' v] d IH]; simpl; [done|].
  destruct (P k') eqn:Ek'; simpl.
  - by rewrite IH.
  - destruct (String.eqb_spec k' k); [congruence|done].
Qed.

Lemma get_key_values_loop_filter (P : string -> bool) name qs results :
  (forall key, Py.startswith key name = true -> P key = true) ->
  get_key_values_loop name (List.filter (fun item => P item.1) qs) results
  = get_key_values_loop name qs results.
Proof.
  intros HP. revert results.
  induction qs as [|[key value] qs IH]; intros results; simpl; [done|].
  destruct (Py.startswith key name) eqn:Es; simpl.
  - rewrite (HP key Es). simpl. rewrite Es. simpl.
    destruct (item_key key); [apply IH|done].
  - destruct (P key); simpl; [|apply IH]. rewrite Es. simpl. apply IH.
Qed.

Lemma managed_page key :
  Py.startswith key "page" = true -> startswith_any key MANAGED_KEYS = true.
Proof.
  intros H. unfold startswith_any, MANAGED_KEYS. cbn [existsb].
  rewrite H. by rewrite ?orb_true_r.
Qed.

Lemma managed_fields key :
  Py.startswith key "fields" = true -> startswith_any key MANAGED_KEYS = true.
Proof.
  intros H. unfold startswith_any, MANAGED_KEYS. cbn [existsb].
  rewrite H. by rewrite ?orb_true_r.
Qed.

(** X1: dropping the parameters that are not managed changes nothing for
    the parsers: on the dictionary [querystring] they return what they
    return on the raw one. *)
Theorem parsers_read_managed_keys_only int cfg qs :
  NoDup (Py.keys qs) ->
  pagination int cfg (querystring_managed qs) = pagination int cfg qs
  /\ fields (querystring_managed qs) = fields qs
  /\ sorting (querystring_managed qs) = sorting qs
  /\ include cfg (querystring_managed qs) = include cfg qs
  /\ grouping (querystring_managed qs) = grouping qs.
Proof.
  intros Hnd. rewrite (querystring_managed_filter qs Hnd).
  set (P := fun key => startswith_any key MANAGED_KEYS).
  change (List.filter (fun item => startswith_any item.1 MANAGED_KEYS) qs)
    with (List.filter (fun item => P item.1) qs).
  assert (_get_key_values "page"
            (List.filter (fun item => P item.1) qs) = _get_key_values "page" qs)
    as Hpage by (apply get_key_values_loop_filter, managed_page).
  assert (_get_key_values "fields"
            (List.filter (fun item => P item.1) qs) = _get_key_values "fields" qs)
    as Hfields by (apply get_key_values_loop_filter, managed_fields).
  repeat split.
  - unfold pagination. by rewrite Hpage.
  - unfold fields. by rewrite Hfields.
  - unfold sorting. by rewrite (get_filter P "sort").
  - unfold include. by rewrite (get_filter P "include").
  - unfold grouping. by rewrite (get_filter P "group").
Qed.

Lemma filter_idempotent {A} (P : A -> bool) (l : list A) :
  List.filter P (List.filter P l) = List.filter P l.
Proof.
  induction l as [|x l IH]; simpl; [done|].
  destruct (P x) eqn:E; simpl; [|done]. by rewrite E, IH.
Qed.

Lemma querystring_managed_idempotent qs :
  NoDup (Py.keys qs) ->
  querystring_managed (querystring_managed qs) = querystring_managed qs.
Proof.
  intros Hnd. rewrite (querystring_managed_filter qs Hnd).
  rewrite querystring_managed_filter by by apply keys_filter_NoDup.
  apply filter_idempotent.
Qed.

End querystring_props.

(** ** Bracket-key extraction: the dictionary it builds *)

Section get_key_values_dict.

Import QueryStringManager.

Local Arguments String.append !_ _ / : simpl nomatch.

Lemma mem_keys {V} k (d : Py.dict V) : Py.mem k d = true <-> k ∈ Py.keys d.
Proof.
  unfold Py.mem, Py.keys. induction d as [|[k' v] d IH]; simpl.
  - split; [done|]. by intros ?%elem_of_nil.
  - rewrite elem_of_cons. destruct (String.eqb_spec k' k) as [->|Hne].
    + split; [by left|done].
    + rewrite IH. split; [by right|]. by intros [?|?].
Qed.

Lemma NoDup_keys_set {V} k (v : V) (d : Py.dict V) :
  NoDup (Py.keys d) -> NoDup (Py.keys (Py.set k v d)).
Proof.
  intros Hnd. destruct (Py.mem k d) eqn:E.
  - by rewrite keys_set_present.
  - assert (k ∉ Py.keys d) as Hk.
    { intros Hin%mem_keys. congruence. }
    rewrite set_absent by done. unfold Py.keys in *. rewrite fmap_app. simpl.
    apply NoDup_app. split; [done|]. split; [|apply NoDup_singleton].
    by intros x Hx ->%list_elem_of_singleton.
Qed.

Lemma get_key_values_loop_NoDup name qs results result :
  NoDup (Py.keys results) ->
  get_key_values_loop name qs results = Ok result ->
  NoDup (Py.keys result).
Proof.
  revert results. induction qs as [|[key value] qs IH]; intros results Hnd; simpl.
  - by intros [= <-].
  - destruct (Py.startswith key name); simpl; [|by apply IH].
    destruct (item_key key); [|done]. apply IH. by apply NoDup_keys_set.
Qed.

Lemma get_key_values_loop_get name qs results result k :
  get_key_values_loop name qs results = Ok result ->
  Py.get k result
  = match last (sub_key_values name k qs) with
    | Some v => Some v
    | None => Py.get k results
    end.
Proof.
  revert results. induction qs as [|[key value] qs IH]; intros results; simpl.
  - by intros [= <-].
  - unfold sub_key_values in *. simpl.
    destruct (Py.startswith key name); simpl; [|by apply IH].
    destruct (item_key key) as [k'|]; [|done].
    intros Hloop. rewrite (IH _ Hloop).
    destruct (String.eqb_spec k' k) as [->|Hne]; simpl.
    + rewrite last_cons. rewrite get_set_eq.
      by destruct (last (omap _ qs)).
    + by rewrite get_set_ne.
Qed.

Lemma get_key_values_NoDup name qs result :
  _get_key_values name qs = Ok result -> NoDup (Py.keys result).
Proof.
  intros H. eapply get_key_values_loop_NoDup; [|exact H]. apply NoDup_nil_2.
Qed.

(** X2: the dictionary bracket-key extraction returns has each sub-key
    once, and a sub-key that several raw keys give holds the value of the
    last of them. *)
Theorem get_key_values_last_wins name qs result :
  _get_key_values name qs = Ok result ->
  NoDup (Py.keys result)
  /\ forall k, Py.get k result = last (sub_key_values name k qs).
Proof.
  intros H. split.
  - by eapply get_key_values_NoDup.
  - intros k. rewrite (get_key_values_loop_get _ _ _ _ k H).
    by destruct (last _).
Qed.

Lemma get_key_values_last_wins_witness :
  NoDup (Py.keys [("size", VStr "20"); ("number", VStr "2")])
  /\ forall k,
      Py.get k [("size", VStr "20"); ("number", VStr "2")]
      = last (sub_key_values "page" k
                [("page[size]", "10"); ("page[number]", "2"); ("pages[size]", "20")]).
Proof.
  apply (get_key_values_last_wins "page"
           [("page[size]", "10"); ("page[number]", "2"); ("pages[size]", "20")]).
  reflexivity.
Defined.

Lemma get_key_values_loop_source name qs results result k v :
  get_key_values_loop name qs results = Ok result ->
  Py.get k result = Some v ->
  Py.get k results = Some v
  \/ exists key value,
      (key, value) ∈ qs /\ Py.startswith key name = true
      /\ item_key key = Some k /\ v = item_value value.
Proof.
  revert results. induction qs as [|[key value] qs IH]; intros results; simpl.
  - intros [= <-]. by left.
  - destruct (Py.startswith key name) eqn:Es; simpl.
    + destruct (item_key key) as [k'|] eqn:Ek; [|done].
      intros Hloop Hget. destruct (IH _ Hloop Hget) as [Hres|(key' & value' & Hin & ?)].
      * destruct (String.eqb_spec k' k) as [->|Hne].
        -- rewrite get_set_eq in Hres. injection Hres as <-.
           right. exists key, value. split; [left|done].
        -- rewrite get_set_ne in Hres by done. by left.
      * right. exists key', value'. split; [by right|done].
    + intros Hloop Hget. destruct (IH _ Hloop Hget) as [Hres|(key' & value' & Hin & ?)].
      * by left.
      * right. exists key', value'. split; [by right|done].
Qed.

Lemma get_map_values {V W} (f : V -> W) k (d : Py.dict V) :
  Py.get k (map (fun '(key, value) => (key, f value)) d) = f <$> Py.get k d.
Proof.
  induction d as [|[k' v] d IH]; simpl; [done|].
  by destruct (String.eqb k' k).
Qed.

Lemma keys_map_values {V W} (f : V -> W) (d : Py.dict V) :
  Py.keys (map (fun '(key, value) => (key, f value)) d) = Py.keys d.
Proof.
  unfold Py.keys. induction d as [|[k' v] d IH]; simpl; [done|].
  f_equal. apply IH.
Qed.

(** X3: in the sparse fieldsets every type has one entry, and its value
    is the raw value of a [fields] parameter for that type split at the
    commas: a list that is never empty and whose parts hold no comma,
    whether the raw value had a comma or not. *)
Theorem fields_values_are_split qs result :
  fields qs = Ok result ->
  NoDup (Py.keys result)
  /\ forall k l,
      Py.get k result = Some l ->
      l <> []
      /\ Forall (fun part => Py.contains "," part = false) l
      /\ exists key value,
          (key, value) ∈ qs /\ Py.startswith key "fields" = true
          /\ item_key key = Some k /\ l = Py.split "," value.
Proof.
  unfold fields.
  destruct (_get_key_values "fields" qs) as [r|] eqn:Hr; simpl; [|done].
  intros [= <-]. split.
  { rewrite keys_map_values. by eapply get_key_values_NoDup. }
  intros k l. rewrite get_map_values.
  destruct (Py.get k r) as [v|] eqn:Hget; [|done]. simpl. intros [= <-].
  destruct (get_key_values_loop_source _ _ _ _ _ _ Hr Hget)
    as [?|(key & value & Hin & Hs & Hk & ->)]; [done|].
  assert ((match item_value value with VList l => l | VStr s => [s] end)
          = Py.split "," value) as ->.
  { unfold item_value. destruct (Py.contains "," value) eqn:E; [done|].
    by rewrite split_free. }
  split; [apply split_not_nil|]. split.
  - apply Forall_forall. intros part. apply split_parts_free.
  - by exists key, value.
Qed.

Lemma fields_values_are_split_witness :
  NoDup (Py.keys [("user", ["name"; "email"]); ("computer", ["serial"])])
  /\ forall k l,
      Py.get k [("user", ["name"; "email"]); ("computer", ["serial"])] = Some l ->
      l <> []
      /\ Forall (fun part => Py.contains "," part = false) l
      /\ exists key value,
          (key, value)
            ∈ [("fields[user]", "name,email"); ("sort", "name");
               ("fields[computer]", "serial")]
          /\ Py.startswith key "fields" = true
          /\ item_key key = Some k /\ l = Py.split "," value.
Proof.
  apply (fields_values_are_split
           [("fields[user]", "name,email"); ("sort", "name");
            ("fields[computer]", "serial")]).
  reflexivity.
Defined.

(** X4: a pagination mapping that is returned has at most two entries. *)
Theorem pagination_at_most_two_entries int cfg qs result :
  pagination int cfg qs = Ok result ->
  NoDup (Py.keys result) /\ (length result <= 2)%nat.
Proof.
  intros H. pose proof H as [Hget Hall]%pagination_Ok.
  assert (NoDup (Py.keys result)) as Hnd by by eapply get_key_values_NoDup.
  split; [done|].
  assert (Py.keys result ⊆+ ["number"; "size"]) as Hsub.
  { apply NoDup_submseteq; [done|]. intros k Hk.
    apply list_elem_of_fmap in Hk as ([k' v] & -> & Hin).
    apply for_each_Ok in Hall. rewrite Forall_forall in Hall.
    apply Hall, check_page_item_Ok in Hin as [[-> | ->] _];
      [left|right; left]. }
  apply submseteq_length in Hsub. unfold Py.keys in Hsub.
  by rewrite length_fmap in Hsub.
Qed.

Lemma pagination_at_most_two_entries_witness :
  NoDup (Py.keys [("size", VStr "10"); ("number", VStr "3")])
  /\ (length [("size", VStr "10"); ("number", VStr "3")] <= 2)%nat.
Proof.
  apply (pagination_at_most_two_entries Py.int_ascii no_config
           [("page[size]", "10"); ("q", "x"); ("page[number]", "3")]).
  reflexivity.
Defined.

(** X5: a page number or size with a comma in it is a list for the
    parser, and [int] of a list raises [TypeError], which [pagination]
    does not catch: the request does not end in a [BadRequest]. *)
Theorem pagination_comma_type_error int cfg k value :
  k = "number" \/ k = "size" ->
  Py.contains "," value = true ->
  pagination int cfg [("page[" +:+ k +:+ "]", value)] = Err PyTypeError.
Proof.
  intros Hk Hv. unfold pagination, _get_key_values.
  assert (item_value value = VList (Py.split "," value)) as Hval
    by (unfold item_value; by rewrite Hv).
  destruct Hk as [-> | ->]; simpl; by rewrite Hval.
Qed.

Lemma pagination_comma_type_error_witness :
  pagination Py.int_ascii no_config [("page[" +:+ "size" +:+ "]", "10,20")]
  = Err PyTypeError.
Proof.
  apply (pagination_comma_type_error Py.int_ascii no_config "size" "10,20").
  - right. reflexivity.
  - reflexivity.
Defined.

End get_key_values_dict.

(** ** Sorting, inclusion and grouping: the lists they return *)

Section list_parameters.

Import QueryStringManager.

Local Arguments String.append !_ _ / : simpl nomatch.

(** Joining what [split] returns gives the string back. *)
Lemma join_split c s : Py.join (String c "") (Py.split c s) = s.
Proof.
  induction s as [|d s IH]; [done|]. simpl Py.split.
  destruct (Ascii.eqb_spec d c) as [->|Hne].
  - destruct (Py.split c s) as [|w ws] eqn:E; [by apply split_not_nil in E|].
    change (Py.join (String c "") ("" :: w :: ws))
      with (String c (Py.join (String c "") (w :: ws))).
    by rewrite IH.
  - destruct (Py.split c s) as [|w [|w' ws]] eqn:E.
    + by apply split_not_nil in E.
    + simpl in *. by rewrite IH.
    + change (Py.join (String c "") (String d w :: w' :: ws))
        with (String d (Py.join (String c "") (w :: w' :: ws))).
      by rewrite IH.
Qed.

Lemma truthy_not_empty s : Py.truthy s = true <-> s <> "".
Proof. by destruct s. Qed.

Lemma contains_remove c s : Py.contains c (Py.remove c s) = false.
Proof.
  induction s as [|d s IH]; [done|]. simpl.
  destruct (Ascii.eqb d c) eqn:E; [done|]. simpl. by rewrite E.
Qed.

(** X6: [sorting] returns one entry for each comma-separated token of
    [sort], in their order; the order of an entry is [desc] or [asc], and
    its field holds no hyphen. *)
Theorem sorting_entries qs sort :
  Py.get "sort" qs = Some sort -> sort <> "" ->
  length (sorting qs) = length (Py.split "," sort)
  /\ Forall2 (fun e token =>
                order e = (if Py.startswith token "-" then "desc" else "asc")
                /\ Py.contains "-" (field e) = false
                /\ Py.contains "," (field e) = false)
       (sorting qs) (Py.split "," sort).
Proof.
  intros Hget Hne%truthy_not_empty.
  rewrite (sorting_tokens qs sort Hget Hne).
  split; [by rewrite length_map|].
  apply Forall2_fmap_l, Forall_Forall2_diag, Forall_forall.
  intros token Hin. simpl. split; [done|]. split; [apply contains_remove|].
  apply split_parts_free in Hin.
  clear -Hin. induction token as [|d token IH]; [done|]. simpl in *.
  apply orb_false_iff in Hin as [Hd Hin].
  destruct (Ascii.eqb d "-"); [by apply IH|]. simpl. by rewrite Hd, IH.
Qed.

Lemma sorting_entries_witness :
  length (sorting [("sort", "-created-at,name")])
  = length (Py.split "," "-created-at,name")
  /\ Forall2 (fun e token =>
                order e = (if Py.startswith token "-" then "desc" else "asc")
                /\ Py.contains "-" (field e) = false
                /\ Py.contains "," (field e) = false)
       (sorting [("sort", "-created-at,name")])
       (Py.split "," "-created-at,name").
Proof.
  apply (sorting_entries [("sort", "-created-at,name")] "-created-at,name").
  - reflexivity.
  - discriminate.
Defined.

Lemma sort_token_free e :
  Py.contains "," (field e) = false -> Py.contains "," (sort_token e) = false.
Proof.
  intros H. unfold sort_token. by destruct (String.eqb (order e) "desc").
Qed.

Lemma sort_token_entry e :
  order e = "asc" \/ order e = "desc" ->
  Py.contains "-" (field e) = false ->
  {| field := Py.remove "-" (sort_token e);
     order := if Py.startswith (sort_token e) "-" then "desc" else "asc" |} = e.
Proof.
  destruct e as [f o]. simpl. intros Ho Hf. unfold sort_token. simpl.
  destruct Ho as [-> | ->]; simpl.
  - rewrite remove_free by done. destruct f as [|c f]; [done|].
    simpl in *. apply orb_false_iff in Hf as [-> _]. done.
  - by rewrite remove_free.
Qed.

(** X7: sort entries whose field names are not empty and hold no hyphen
    and no comma are read back from the [sort] parameter that lists
    their tokens. *)
Theorem sorting_round_trip qs entries :
  Forall (fun e =>
            field e <> "" /\ (order e = "asc" \/ order e = "desc")
            /\ Py.contains "-" (field e) = false
            /\ Py.contains "," (field e) = false) entries ->
  Py.get "sort" qs = Some (Py.join "," (map sort_token entries)) ->
  sorting qs = entries.
Proof.
  intros Hall Hget. destruct entries as [|e entries].
  { unfold sorting. by rewrite Hget. }
  assert (Py.truthy (Py.join "," (map sort_token (e :: entries))) = true) as Ht.
  { apply Forall_cons in Hall as [(Hf & _) _].
    assert (sort_token e <> "") as Hne.
    { unfold sort_token. destruct (String.eqb (order e) "desc"); [done|].
      by destruct (field e). }
    simpl map. destruct (sort_token e) as [|c t] eqn:Et; [done|].
    by destruct (map sort_token entries). }
  rewrite (sorting_tokens qs _ Hget Ht).
  change (map sort_token (e :: entries))
    with (sort_token e :: map sort_token entries).
  rewrite (split_join "," (sort_token e) (map sort_token entries)).
  - change (sort_token e :: map sort_token entries)
      with (map sort_token (e :: entries)).
    clear Hget Ht. induction Hall as [|e' l (_ & Ho & Hh & _) Hall IH]; [done|].
    cbn [map]. rewrite sort_token_entry by done. f_equal. exact IH.
  - change (sort_token e :: map sort_token entries)
      with (map sort_token (e :: entries)).
    apply Forall_fmap. eapply Forall_impl; [exact Hall|].
    intros e' (_ & _ & _ & Hc). by apply sort_token_free.
Qed.

Lemma sorting_round_trip_witness :
  sorting [("page[size]", "10"); ("sort", "-created_at,name")]
  = [{| field := "created_at"; order := "desc" |};
     {| field := "name"; order := "asc" |}].
Proof.
  apply (sorting_round_trip [("page[size]", "10"); ("sort", "-created_at,name")]
           [{| field := "created_at"; order := "desc" |};
            {| field := "name"; order := "asc" |}]).
  - repeat constructor; done.
  - reflexivity.
Defined.

Lemma check_include_one_char max c :
  check_include_path max (String c "")
  = if (if Ascii.eqb c "." then max <? 2 else max <? 1) then
      Err (InvalidInclude ("You can't use include through more than "
                           +:+ Py.str_of_int max +:+ " relationships"))
    else Ok tt.
Proof.
  unfold check_include_path. simpl Py.split.
  destruct (Ascii.eqb c "."); simpl length.
  - destruct (Z.gtb_spec (Z.of_nat 2) max), (Z.ltb_spec max 2); (done || lia).
  - destruct (Z.gtb_spec (Z.of_nat 1) max), (Z.ltb_spec max 1); (done || lia).
Qed.

Lemma check_include_chars max s :
  for_each (check_include_path max) (Py.chars s)
  = if include_rejected max s then
      Err (InvalidInclude ("You can't use include through more than "
                           +:+ Py.str_of_int max +:+ " relationships"))
    else Ok tt.
Proof.
  unfold include_rejected.
  induction s as [|c s IH]; simpl Py.chars; cbn [for_each].
  - simpl. by rewrite !andb_false_r.
  - rewrite check_include_one_char, IH. simpl Py.truthy. simpl Py.contains.
    rewrite andb_true_r.
    destruct (Ascii.eqb c "."), (Z.ltb_spec max 1), (Z.ltb_spec max 2),
      (Py.truthy s), (Py.contains "." s); simpl; (done || lia).
Qed.

(** X8: under a limit, [include] rejects the raw string exactly when the
    limit is below one and the string is not empty, or the limit is below
    two and the string holds a dot; otherwise it returns the
    comma-separated paths, whatever their depth. *)
Theorem include_rejected_exactly cfg qs max s :
  MAX_INCLUDE_DEPTH cfg = Some max ->
  Py.get "include" qs = Some s ->
  include cfg qs
  = if include_rejected max s then
      Err (InvalidInclude ("You can't use include through more than "
                           +:+ Py.str_of_int max +:+ " relationships"))
    else Ok (if Py.truthy s then Py.split "," s else []).
Proof.
  intros Hmax Hget. unfold include. rewrite Hmax, Hget, check_include_chars.
  by destruct (include_rejected max s).
Qed.

Lemma include_rejected_exactly_witness :
  include (max_include_depth 0) [("include", "author")]
  = if include_rejected 0 "author" then
      Err (InvalidInclude ("You can't use include through more than "
                           +:+ Py.str_of_int 0 +:+ " relationships"))
    else Ok (if Py.truthy "author" then Py.split "," "author" else []).
Proof.
  apply (include_rejected_exactly (max_include_depth 0) [("include", "author")]);
    reflexivity.
Defined.

(** X9: the lists [include] and [grouping] return give the raw parameter
    back when joined with commas; [grouping] never returns an empty list,
    and [include] returns one only for an absent or empty parameter. *)
Theorem include_grouping_join cfg qs :
  (forall paths,
      include cfg qs = Ok paths ->
      match Py.get "include" qs with
      | Some s => Py.join "," paths = s /\ (paths = [] <-> s = "")
      | None => paths = []
      end)
  /\ match Py.get "group" qs with
     | Some s =>
         exists groups,
           grouping qs = Some groups /\ groups <> [] /\ Py.join "," groups = s
     | None => grouping qs = None
     end.
Proof.
  split.
  - intros paths. unfold include.
    destruct (match MAX_INCLUDE_DEPTH cfg with Some _ => _ | None => _ end);
      simpl; [|done].
    intros [= <-]. destruct (Py.get "include" qs) as [s|]; [|done].
    destruct s as [|c s]; [done|]. simpl Py.truthy. cbv iota.
    split; [apply join_split|]. split; [|done].
    intros H. by apply split_not_nil in H.
  - unfold grouping. destruct (Py.get "group" qs) as [s|]; [|done].
    exists (Py.split "," s). split; [done|]. split; [apply split_not_nil|].
    apply join_split.
Qed.

End list_parameters.

(** ** Projection: the options mapping across calls *)

Section kwargs_across_calls.

Variable tuple_of_set : gset string -> list string.
Variable class_registry : Py.dict SchemaCls.
Variable init_error : SchemaCls -> kwargs -> option exn.

Implicit Types (schema_cls : SchemaCls) (include : list string)
  (kw default_kwargs : kwargs) (related : Py.dict (list string)).

Lemma set_set {V} k (v v' : V) (d : Py.dict V) :
  Py.set k v (Py.set k v' d) = Py.set k v d.
Proof.
  induction d as [|[k0 v0] d IH]; simpl.
  - by rewrite String.eqb_refl.
  - destruct (String.eqb k0 k) eqn:E; simpl; rewrite E; [done|]. by rewrite IH.
Qed.

Lemma set_same {V} k (v : V) (d : Py.dict V) :
  Py.get k d = Some v -> Py.set k v d = d.
Proof.
  induction d as [|[k0 v0] d IH]; simpl; [done|].
  destruct (String.eqb k0 k); [by intros [= ->]|]. intros H. by rewrite IH.
Qed.

(** What the first loop collects does not depend on the mapping. *)
Lemma collect_includes_related_indep schema_cls include kw kw0 related :
  (collect_includes schema_cls include kw related).2
  = (collect_includes schema_cls include kw0 related).2.
Proof.
  revert kw kw0 related.
  induction include as [|p include IH]; intros kw kw0 related; simpl; [done|].
  destruct (Py.get (first_segment p) (cls_declared_fields schema_cls))
    as [[|ref]|]; simpl; [done|apply IH|done].
Qed.

(** The first loop on a mapping whose [include_data] is known. *)
Lemma collect_includes_set schema_cls include data kw related :
  collect_includes schema_cls include
    (Py.set "include_data" (KTuple data) kw) related
  = (Py.set "include_data"
       (KTuple (data ++ validated_segments schema_cls include)) kw,
     (collect_includes schema_cls include kw related).2).
Proof.
  revert data kw related.
  induction include as [|p include IH]; intros data kw related; simpl.
  - by rewrite app_nil_r.
  - destruct (Py.get (first_segment p) (cls_declared_fields schema_cls))
      as [[|ref]|]; simpl; rewrite ?app_nil_r; try done.
    unfold kw_append at 1, kw_tuple at 1. rewrite get_set_eq, set_set, IH.
    rewrite <- app_assoc. simpl. f_equal.
    apply collect_includes_related_indep.
Qed.

Lemma kwargs_after_includes_set schema_cls default_kwargs include :
  kwargs_after_includes schema_cls default_kwargs include
  = Py.set "include_data" (KTuple (validated_segments schema_cls include))
      default_kwargs.
Proof. unfold kwargs_after_includes. by rewrite collect_includes_set. Qed.

(** What is left of [ensure_id] when it has run before. *)
Lemma ensure_id_after kw :
  ensure_id (ensure_id kw).1 = ((ensure_id kw).1, (ensure_id kw).2).
Proof.
  unfold ensure_id.
  destruct (Py.get "only" kw) as [[|b|t]|] eqn:E; simpl; rewrite ?E; try done.
  destruct (Py.elem "id" t) eqn:Et; simpl; [by rewrite E, Et|].
  unfold kw_append at 1, kw_tuple at 1. rewrite E.
  rewrite get_set_eq.
  assert (Py.elem "id" (t ++ ["id"]) = true) as ->; [|done].
  apply elem_spec, elem_of_app. right. left.
Qed.

(** X10: [compute_schema] writes to the options mapping of its caller,
    but a mapping it has written to is left as it is by a further call
    with the same arguments, and that call returns what the first one
    returned: the schema or the exception. *)
Theorem compute_schema_again schema_cls default_kwargs qs include kw' r :
  compute_schema tuple_of_set class_registry init_error
    schema_cls default_kwargs qs include
  = Some (kw', r) ->
  compute_schema tuple_of_set class_registry init_error schema_cls kw' qs include
  = Some (kw', r).
Proof.
  unfold compute_schema. generalize (S (depth include)) as fuel.
  intros [|fuel]; [done|]. cbn [compute_schema_fuel].
  rewrite (collect_includes_set schema_cls include [] default_kwargs []).
  rewrite (collect_includes_set schema_cls include [] kw' []).
  rewrite (collect_includes_related_indep schema_cls include kw' default_kwargs []).
  cbn [app].
  set (data := validated_segments schema_cls include).
  set (K := Py.set "include_data" (KTuple data) default_kwargs).
  destruct (collect_includes schema_cls include default_kwargs []).2
    as [related|e].
  - destruct (ensure_id K) as [kw2 o] eqn:Ee.
    assert (Py.set "include_data" (KTuple data) kw2 = kw2) as Hfix.
    { apply set_same. replace kw2 with (ensure_id K).1 by by rewrite Ee.
      rewrite ensure_id_frame by done. apply get_set_eq. }
    assert (ensure_id kw2 = (kw2, o)) as Hens.
    { pose proof (ensure_id_after K) as H. by rewrite Ee in H. }
    destruct o as [[]|e].
    + destruct (instantiate init_error schema_cls kw2) as [schema|e] eqn:Ei.
      * destruct (QueryStringManager.fields qs) as [f|e] eqn:Ef.
        -- destruct (expand_includes _ _ _ _ _) as [[d|e]|] eqn:Ex;
             intros [= <- <-]; rewrite Hfix, Hens, Ei; [by rewrite Ex|by rewrite Ex].
        -- intros [= <- <-]. by rewrite Hfix, Hens, Ei.
      * intros [= <- <-]. by rewrite Hfix, Hens, Ei.
    + intros [= <- <-]. by rewrite Hfix, Hens.
  - intros [= <- <-]. unfold K. by rewrite set_set.
Qed.

End kwargs_across_calls.

(** ** Projection: the declared fields of the schema returned *)

Section projected_fields.

Variable tuple_of_set : gset string -> list string.
Variable class_registry : Py.dict SchemaCls.
Variable init_error : SchemaCls -> kwargs -> option exn.

Implicit Types (schema_cls : SchemaCls) (include : list string)
  (kw default_kwargs : kwargs) (related : Py.dict (list string))
  (d : Py.dict Field).

Lemma get_Some_mem {V} k (v : V) (dict : Py.dict V) :
  Py.get k dict = Some v -> Py.mem k dict = true.
Proof. unfold Py.mem. by intros ->. Qed.

(** The second loop, for a recursive call that returns instances of the
    class it is given. *)
Lemma expand_includes_inv project related include d d' :
  (forall c k i kw s, project c k i = Some (kw, Ok s) -> schema_class s = c) ->
  expand_includes class_registry project related include d = Some (Ok d') ->
  Py.keys d' = Py.keys d
  /\ (forall f, f ∉ map first_segment include -> Py.get f d' = Py.get f d)
  /\ (forall f,
         f ∈ map first_segment include ->
         exists ref s c,
           Py.get f d = Some (Relationship ref)
           /\ ref_class class_registry ref = Some c
           /\ Py.get f d' = Some (Relationship (RefInstance s))
           /\ schema_class s = c)
  /\ (forall p,
         p ∈ include ->
         exists ref c subs k kw s,
           Py.get (first_segment p) d = Some (Relationship ref)
           /\ ref_class class_registry ref = Some c
           /\ Py.get (first_segment p) related = Some subs
           /\ project c k subs = Some (kw, Ok s)).
Proof.
  intros Hproject. revert d.
  induction include as [|p include IH]; intros d; simpl.
  - intros [= <-]. split; [done|]. split; [done|].
    split; [by intros f ?%elem_of_nil|by intros q ?%elem_of_nil].
  - destruct (Py.get (first_segment p) d) as [[|ref0]|] eqn:Ed; [done| |done].
    destruct (related_class class_registry ref0) as [[c0 k0]|] eqn:Er; [|done].
    destruct (Py.get (first_segment p) related) as [subs0|] eqn:Es; [|done].
    destruct (project c0 k0 subs0) as [[kw0 [s0|e]]|] eqn:Ep; [|done|done].
    pose proof (Hproject _ _ _ _ _ Ep) as Hc0.
    assert (ref_class class_registry ref0 = Some c0) as Hr0
      by (unfold ref_class; by rewrite Er).
    intros (Hkeys & Hout & Hin & Hpaths)%IH. clear IH.
    set (f0 := first_segment p) in *.
    assert (forall f ref c,
               Py.get f (Py.set f0 (Relationship (RefInstance s0)) d)
               = Some (Relationship ref) ->
               ref_class class_registry ref = Some c ->
               exists ref', Py.get f d = Some (Relationship ref')
                            /\ ref_class class_registry ref' = Some c) as Hback.
    { intros f ref c Hget Hc. destruct (String.eqb_spec f0 f) as [<-|Hne].
      - rewrite get_set_eq in Hget. injection Hget as <-.
        exists ref0. split; [done|]. unfold ref_class in Hc. simpl in Hc. congruence.
      - rewrite get_set_ne in Hget by done. by exists ref. }
    split.
    { rewrite Hkeys. apply keys_set_present. by eapply get_Some_mem. }
    split.
    { intros f Hf. apply not_elem_of_cons in Hf as [Hne Hf].
      rewrite (Hout f Hf). by rewrite get_set_ne. }
    split.
    { intros f Hf. destruct (decide (f ∈ map first_segment include)) as [Hf'|Hf'].
      - destruct (Hin f Hf') as (ref & s & c & Hget & Hc & Hget' & Hs).
        destruct (Hback f ref c Hget Hc) as (ref' & ? & ?).
        by exists ref', s, c.
      - apply elem_of_cons in Hf as [->|Hf]; [|done].
        exists ref0, s0, c0. rewrite (Hout f0 Hf'), get_set_eq. done. }
    intros q [->|Hq]%elem_of_cons.
    + by exists ref0, c0, subs0, k0, kw0, s0.
    + destruct (Hpaths q Hq) as (ref & c & subs & k & kw & s & Hget & Hc & ?).
      destruct (Hback _ ref c Hget Hc) as (ref' & ? & ?).
      by exists ref', c, subs, k, kw, s.
Qed.

(** A schema that is returned, and the second loop that built its
    declared fields. *)
Lemma compute_schema_fuel_expand fuel schema_cls default_kwargs qs include kw' schema :
  compute_schema_fuel tuple_of_set class_registry init_error (S fuel)
    schema_cls default_kwargs qs include = Some (kw', Ok schema) ->
  schema_class schema = schema_cls
  /\ exists related,
      (collect_includes schema_cls include
         (Py.set "include_data" (KTuple []) default_kwargs) []).2 = Ok related
      /\ expand_includes class_registry
           (fun c k i =>
              compute_schema_fuel tuple_of_set class_registry init_error
                fuel c k qs i)
           related include (cls_declared_fields schema_cls)
         = Some (Ok (schema_declared_fields schema)).
Proof.
  cbn [compute_schema_fuel].
  destruct (collect_includes _ _ _ _) as [kw1 [related|e]]; [|by intros [= _ ?]].
  destruct (ensure_id kw1) as [kw2 [[]|e]]; [|by intros [= _ ?]].
  unfold instantiate.
  destruct (init_error schema_cls kw2) as [e|]; [by intros [= _ ?]|].
  destruct (QueryStringManager.fields qs) as [fields|e]; [|by intros [= _ ?]].
  simpl schema_declared_fields.
  destruct (expand_includes _ _ _ _ _) as [[d|e]|] eqn:Ex; [|by intros [= _ ?]|done].
  intros [= <- <-]. split; [done|]. by exists related.
Qed.

Lemma compute_schema_fuel_class fuel schema_cls default_kwargs qs include kw' schema :
  compute_schema_fuel tuple_of_set class_registry init_error fuel
    schema_cls default_kwargs qs include = Some (kw', Ok schema) ->
  schema_class schema = schema_cls.
Proof.
  destruct fuel as [|fuel]; [done|]. by intros [? _]%compute_schema_fuel_expand.
Qed.

(** X11: projection keeps the declared fields of the class, in their
    order. A field that no include path starts with is left as the class
    declares it; a relationship that an include path starts with holds,
    in the schema returned, an instance of the class it relates to. *)
Theorem compute_schema_declared_fields schema_cls default_kwargs qs include kw' schema :
  compute_schema tuple_of_set class_registry init_error
    schema_cls default_kwargs qs include
  = Some (kw', Ok schema) ->
  Py.keys (schema_declared_fields schema) = Py.keys (cls_declared_fields schema_cls)
  /\ (forall f,
         f ∉ map first_segment include ->
         Py.get f (schema_declared_fields schema)
         = Py.get f (cls_declared_fields schema_cls))
  /\ (forall f,
         f ∈ map first_segment include ->
         exists ref related_schema related_cls,
           Py.get f (cls_declared_fields schema_cls) = Some (Relationship ref)
           /\ ref_class class_registry ref = Some related_cls
           /\ Py.get f (schema_declared_fields schema)
              = Some (Relationship (RefInstance related_schema))
           /\ schema_class related_schema = related_cls).
Proof.
  unfold compute_schema.
  intros (_ & related & _ & Hexpand)%compute_schema_fuel_expand.
  apply expand_includes_inv in Hexpand as (? & ? & ? & _); [done|].
  intros c k i kw s. apply compute_schema_fuel_class.
Qed.

End projected_fields.

(** ** Projection: when a schema is returned *)

Section projection_returns.

Variable tuple_of_set : gset string -> list string.
Variable class_registry : Py.dict SchemaCls.
Variable init_error : SchemaCls -> kwargs -> option exn.

Implicit Types (schema_cls : SchemaCls) (include : list string)
  (kw default_kwargs : kwargs) (related : Py.dict (list string))
  (d : Py.dict Field).

Local Open Scope nat_scope.









Lemma ensure_id_fine kw : only_fine kw -> (ensure_id kw).2 = Ok tt.
Proof.
  unfold only_fine, ensure_id.
  destruct (Py.get "only" kw) as [[|b|t]|]; try done.
  by destruct (Py.elem "id" t).
Qed.

Lemma ensure_id_not_fine kw : ~ only_fine kw -> (ensure_id kw).2 = Err PyTypeError.
Proof.
  unfold only_fine, ensure_id.
  destruct (Py.get "only" kw) as [[|b|t]|]; try done; by intros [].
Qed.




End projection_returns.

(** ** Projection: the exceptions it raises *)

Section projection_errors.

Variable tuple_of_set : gset string -> list string.
Variable class_registry : Py.dict SchemaCls.
Variable init_error : SchemaCls -> kwargs -> option exn.

Implicit Types (schema_cls : SchemaCls) (include : list string)
  (kw default_kwargs : kwargs) (related : Py.dict (list string))
  (d : Py.dict Field).







(** X14: the checks of [compute_schema] come in a fixed order. When the
    first segment of every include path is a relationship, a boolean
    [only] raises [TypeError] whatever the constructor and the query
    string would do; otherwise an exception of the constructor comes out
    whatever the query string is; and when the constructor accepts, a
    [fields] parameter that does not parse raises its [BadRequest]
    whatever the include paths lead to. *)
Theorem compute_schema_error_order schema_cls default_kwargs qs include :
  Forall (fun p => ~ invalid_include schema_cls p) include ->
  (~ only_fine default_kwargs ->
   compute_schema tuple_of_set class_registry init_error
     schema_cls default_kwargs qs include
   = Some (kwargs_after schema_cls default_kwargs include, Err PyTypeError))
  /\ (only_fine default_kwargs ->
      forall e,
        init_error schema_cls (kwargs_after schema_cls default_kwargs include)
        = Some e ->
        compute_schema tuple_of_set class_registry init_error
          schema_cls default_kwargs qs include
        = Some (kwargs_after schema_cls default_kwargs include, Err e))
  /\ (only_fine default_kwargs ->
      init_error schema_cls (kwargs_after schema_cls default_kwargs include)
      = None ->
      forall e,
        QueryStringManager.fields qs = Err e ->
        compute_schema tuple_of_set class_registry init_error
          schema_cls default_kwargs qs include
        = Some (kwargs_after schema_cls default_kwargs include, Err e)).
Proof.
  intros Hvalid. unfold compute_schema, kwargs_after, kwargs_after_includes.
  cbn [compute_schema_fuel].
  destruct (collect_includes_valid schema_cls include
              (Py.set "include_data" (KTuple []) default_kwargs) [] Hvalid)
    as [related Hrel].
  pose proof (collect_includes_frame schema_cls include
                (Py.set "include_data" (KTuple []) default_kwargs) [] "only") as Hfr.
  rewrite get_set_ne in Hfr by done. specialize (Hfr ltac:(done)).
  destruct (collect_includes _ _ _ _) as [kw1 r]. simpl in *. subst r.
  assert (only_fine kw1 <-> only_fine default_kwargs) as Hfine
    by (unfold only_fine; by rewrite Hfr).
  split; [|split].
  - intros Hnot. rewrite <- Hfine in Hnot.
    pose proof (ensure_id_not_fine kw1 Hnot) as He.
    destruct (ensure_id kw1) as [kw2 o]. simpl in *. by subst o.
  - intros Hok e Hinit. rewrite <- Hfine in Hok.
    pose proof (ensure_id_fine kw1 Hok) as He.
    destruct (ensure_id kw1) as [kw2 o]. simpl in *. subst o.
    unfold instantiate. by rewrite Hinit.
  - intros Hok Hinit e Hfields. rewrite <- Hfine in Hok.
    pose proof (ensure_id_fine kw1 Hok) as He.
    destruct (ensure_id kw1) as [kw2 o]. simpl in *. subst o.
    unfold instantiate. by rewrite Hinit, Hfields.
Qed.

End projection_errors.

(** ** The helpers of [schema.py] *)

Section schema_helpers.

Implicit Types (schema : SchemaObject) (field key : string).

Lemma get_model_field_declared schema key value :
  Py.get key (_declared_fields schema) = Some value ->
  get_model_field schema key = Done (model_field_of (key, value)).
Proof.
  intros H. unfold get_model_field, model_field_of. rewrite H. simpl.
  by destruct (attribute value).
Qed.

Lemma get_In_keys {V} k (d : Py.dict V) :
  k ∈ Py.keys d -> is_Some (Py.get k d).
Proof.
  intros Hk%mem_keys. unfold Py.mem in Hk. destruct (Py.get k d); [by eauto|done].
Qed.

Lemma get_NoDup {V} k (v : V) (d : Py.dict V) :
  NoDup (Py.keys d) -> (k, v) ∈ d -> Py.get k d = Some v.
Proof.
  unfold Py.keys. induction d as [|[k' v'] d IH]; simpl.
  - by intros _ ?%elem_of_nil.
  - intros [Hk Hd]%NoDup_cons [[= <- <-]|Hin]%elem_of_cons.
    + by rewrite String.eqb_refl.
    + destruct (String.eqb_spec k' k) as [->|Hne]; [|by apply IH].
      destruct Hk. apply list_elem_of_fmap. by exists (k, v).
Qed.

(** The items of [schema_fields_to_model]. *)
Lemma schema_fields_to_model_items schema :
  NoDup (Py.keys (_declared_fields schema)) ->
  map_attempt (fun key => try* value := get_model_field schema key in
                          Done (key, value))
    (Py.keys (_declared_fields schema))
  = Done (map (fun item => (item.1, model_field_of item)) (_declared_fields schema)).
Proof.
  intros Hnd.
  assert (forall items,
             (forall item, item ∈ items -> item ∈ _declared_fields schema) ->
             map_attempt (fun key => try* value := get_model_field schema key in
                                     Done (key, value)) (Py.keys items)
             = Done (map (fun item => (item.1, model_field_of item)) items)) as H;
    [|by apply H].
  induction items as [|[k v] items IH]; intros Hsub; [done|].
  change (Py.keys ((k, v) :: items)) with (k :: Py.keys items).
  cbn [map_attempt map]. rewrite (get_model_field_declared schema k v).
  - cbn [attempt_bind]. rewrite IH; [done|].
    intros item Hitem. apply Hsub. by right.
  - apply get_NoDup; [done|]. apply Hsub. left.
Qed.

Lemma find_schema_field_Done items field key :
  find_schema_field items field = Done key -> (key, field) ∈ items.
Proof.
  induction items as [|[k v] items IH]; simpl; [done|].
  destruct (String.eqb_spec v field) as [->|Hne].
  - intros [= ->]. left.
  - intros H. right. by apply IH.
Qed.

Lemma find_schema_field_first items field key :
  (key, field) ∈ items ->
  exists key', find_schema_field items field = Done key' /\ (key', field) ∈ items.
Proof.
  induction items as [|[k v] items IH]; simpl; [by intros ?%elem_of_nil|].
  intros Hin. destruct (String.eqb_spec v field) as [->|Hne].
  - exists k. split; [done|left].
  - apply elem_of_cons in Hin as [[= -> ->]|Hin]; [done|].
    destruct (IH Hin) as (key' & -> & ?). exists key'. split; [done|by right].
Qed.

Lemma find_schema_field_unique items field key :
  NoDup items.*2 -> (key, field) ∈ items ->
  find_schema_field items field = Done key.
Proof.
  induction items as [|[k v] items IH]; simpl; [by intros _ ?%elem_of_nil|].
  intros [Hv Hnd]%NoDup_cons [[= -> ->]|Hin]%elem_of_cons.
  - by rewrite String.eqb_refl.
  - destruct (String.eqb_spec v field) as [->|Hne]; [|by apply IH].
    destruct Hv. apply list_elem_of_fmap. by exists (key, field).
Qed.

Lemma keys_model_items (d : Py.dict FieldObject) :
  Py.keys (map (fun item => (item.1, model_field_of item)) d) = Py.keys d.
Proof.
  unfold Py.keys. induction d as [|[k v] d IH]; simpl; [done|]. f_equal. apply IH.
Qed.

Lemma get_schema_field_find schema field :
  NoDup (Py.keys (_declared_fields schema)) ->
  get_schema_field schema field
  = find_schema_field
      (map (fun item => (item.1, model_field_of item)) (_declared_fields schema))
      field.
Proof.
  intros Hnd. unfold get_schema_field.
  rewrite schema_fields_to_model_items by done. simpl.
  rewrite dict_of_items_NoDup; [done|]. by rewrite keys_model_items.
Qed.

(** X15: [get_schema_field] undoes [get_model_field]. The schema field it
    returns for a model field has that model field; asked for the model
    field of a declared field, it returns a declared field with the same
    model field, and that very field when no two declared fields share a
    model field. *)
Theorem get_schema_field_get_model_field schema :
  NoDup (Py.keys (_declared_fields schema)) ->
  (forall field key,
      get_schema_field schema field = Done key ->
      get_model_field schema key = Done field)
  /\ (forall key field,
         key ∈ Py.keys (_declared_fields schema) ->
         get_model_field schema key = Done field ->
         exists key',
           get_schema_field schema field = Done key'
           /\ get_model_field schema key' = Done field
           /\ (NoDup (map model_field_of (_declared_fields schema)) -> key' = key)).
Proof.
  intros Hnd.
  assert (forall key field,
             (key, field)
               ∈ map (fun item => (item.1, model_field_of item))
                   (_declared_fields schema) ->
             get_model_field schema key = Done field) as Hitems.
  { intros key field ([k v] & [= -> ->] & Hin)%list_elem_of_fmap.
    apply get_model_field_declared. by apply get_NoDup. }
  split.
  - intros field key. rewrite get_schema_field_find by done.
    intros Hfind%find_schema_field_Done. by apply Hitems.
  - intros key field [value Hvalue]%get_In_keys Hmodel.
    rewrite (get_model_field_declared _ _ _ Hvalue) in Hmodel.
    injection Hmodel as <-.
    assert ((key, model_field_of (key, value))
              ∈ map (fun item => (item.1, model_field_of item))
                  (_declared_fields schema)) as Hin.
    { apply list_elem_of_fmap. exists (key, value). split; [done|].
      by apply get_elem_of. }
    rewrite get_schema_field_find by done.
    destruct (find_schema_field_first _ _ _ Hin) as (key' & Hfind & Hin').
    exists key'. split; [done|]. split; [by apply Hitems|].
    intros Hmodels. rewrite (find_schema_field_unique _ _ key) in Hfind.
    + by injection Hfind.
    + by rewrite <- list_fmap_compose.
    + done.
Qed.

End schema_helpers.

(** ** Relationships: the helpers, the projection and the resource *)

Section relationships.

Implicit Types (schema : SchemaObject) (field key f : string).

Local Arguments String.append !_ _ / : simpl nomatch.

Lemma elem_of_relationships schema f :
  NoDup (Py.keys (_declared_fields schema)) ->
  f ∈ Py.keys (List.filter (fun item => is_relationship item.2)
                 (_declared_fields schema))
  <-> exists value,
      Py.get f (_declared_fields schema) = Some value
      /\ is_relationship value = true.
Proof.
  intros Hnd. unfold Py.keys. rewrite list_elem_of_fmap. split.
  - intros ([k v] & -> & Hin). apply list_elem_of_In, List.filter_In in Hin as [Hin Hr].
    exists v. split; [|done]. apply get_NoDup; [done|]. by apply list_elem_of_In.
  - intros (value & Hget & Hr). exists (f, value). split; [done|].
    apply list_elem_of_In, List.filter_In. split; [|done].
    by apply list_elem_of_In, get_elem_of.
Qed.

Lemma get_schema_cls_of schema f :
  Py.get f (cls_declared_fields (schema_cls_of schema))
  = fo_field <$> Py.get f (_declared_fields schema).
Proof. unfold schema_cls_of. simpl. apply get_map_values. Qed.

Lemma relationship_valid_include schema p :
  NoDup (Py.keys (_declared_fields schema)) ->
  first_segment p
    ∈ Py.keys (List.filter (fun item => is_relationship item.2)
                 (_declared_fields schema))
  <-> ~ invalid_include (schema_cls_of schema) p.
Proof.
  intros Hnd. rewrite elem_of_relationships by done.
  unfold invalid_include. rewrite get_schema_cls_of. unfold is_relationship.
  destruct (Py.get (first_segment p) (_declared_fields schema)) as [value|]; simpl.
  - destruct (fo_field value) eqn:Ef; split.
    + intros (v & [= <-] & Hr). by rewrite Ef in Hr.
    + intros H. by destruct H.
    + tauto.
    + intros _. exists value. by rewrite Ef.
  - split; [by intros (v & ? & _)|]. intros H. by destruct H.
Qed.

(** X16: [get_relationships] lists the names [compute_schema] accepts as
    the first segment of an include path, and those alone, and they are
    the fields [get_related_schema] finds a schema for: a path that
    starts with another name makes the projection of the class raise
    [InvalidInclude], and a projection that returns a schema has started
    every path with one of them. *)
Theorem get_relationships_include_roots
    tuple_of_set class_registry init_error schema default_kwargs qs include :
  NoDup (Py.keys (_declared_fields schema)) ->
  exists relationships,
    get_relationships schema false = Done relationships
    /\ (forall f,
           f ∈ relationships <-> exists ref, get_related_schema schema f = Done ref)
    /\ (forall p,
           p ∈ include -> first_segment p ∉ relationships ->
           exists kw' detail,
             compute_schema tuple_of_set class_registry init_error
               (schema_cls_of schema) default_kwargs qs include
             = Some (kw', Err (InvalidInclude detail)))
    /\ (forall kw' projected,
           compute_schema tuple_of_set class_registry init_error
             (schema_cls_of schema) default_kwargs qs include
           = Some (kw', Ok projected) ->
           Forall (fun p => first_segment p ∈ relationships) include).
Proof.
  intros Hnd. eexists. split; [reflexivity|]. split; [|split].
  - intros f. rewrite elem_of_relationships by done.
    unfold get_related_schema, is_relationship.
    destruct (Py.get f (_declared_fields schema)) as [value|].
    + destruct (fo_field value) eqn:Ef; split.
      * intros (v & [= <-] & Hr). by rewrite Ef in Hr.
      * by intros [? ?].
      * intros _. by eexists.
      * intros _. exists value. by rewrite Ef.
    + split; [by intros (v & ? & _)|by intros [? ?]].
  - intros p Hp Hnot. rewrite relationship_valid_include in Hnot by done.
    assert (invalid_include (schema_cls_of schema) p) as Hbad.
    { unfold invalid_include in *.
      destruct (Py.get (first_segment p) (cls_declared_fields (schema_cls_of schema)))
        as [[|ref]|]; try done. destruct Hnot. tauto. }
    pose proof (collect_includes_invalid (schema_cls_of schema) include
                  (Py.set "include_data" (KTuple []) default_kwargs) [] p Hp Hbad)
      as H.
    unfold compute_schema. cbn [compute_schema_fuel].
    destruct (collect_includes _ _ _ _) as [kw1 [related|[]]]; simpl in H; try done.
    by eexists _, _.
  - intros kw' projected (_ & Hvalid & _)%compute_schema_Ok.
    eapply Forall_impl; [exact Hvalid|]. intros p Hp.
    by apply relationship_valid_include.
Qed.

Lemma last_cons_cons {A} (x y : A) l d :
  List.last (x :: y :: l) d = List.last (y :: l) d.
Proof. done. Qed.

Lemma last_split_app c a s :
  List.last (Py.split c (a +:+ String c s)) "" = List.last (Py.split c s) "".
Proof.
  induction a as [|x a IH]; simpl.
  - rewrite Ascii.eqb_refl.
    destruct (Py.split c s) as [|w ws] eqn:E; [by apply split_not_nil in E|done].
  - assert (Py.contains c (a +:+ String c s) = true) as Hc.
    { rewrite contains_app. simpl. rewrite Ascii.eqb_refl. apply orb_true_r. }
    destruct (split_contains c _ Hc) as (w & w' & ws & E).
    rewrite E in IH. destruct (Ascii.eqb x c); rewrite E; [by rewrite <- IH|].
    by rewrite <- IH.
Qed.

Lemma map_attempt_Done {A B} (f : A -> B) (g : A -> attempt B) (l : list A) :
  (forall x, x ∈ l -> g x = Done (f x)) -> map_attempt g l = Done (map f l).
Proof.
  induction l as [|x l IH]; intros H; [done|].
  cbn [map_attempt map]. rewrite (H x) by left. cbn [attempt_bind].
  rewrite IH; [done|]. intros y Hy. apply H. by right.
Qed.

(** X17: asked for the model fields, [get_relationships] does not raise:
    it returns the model field of each relationship, in the order of the
    declared fields. *)
Theorem get_relationships_model_fields schema :
  NoDup (Py.keys (_declared_fields schema)) ->
  get_relationships schema true
  = Done (map model_field_of
            (List.filter (fun item => is_relationship item.2)
               (_declared_fields schema))).
Proof.
  intros Hnd. unfold get_relationships, Py.keys.
  assert (forall items,
             (forall item, item ∈ items -> item ∈ _declared_fields schema) ->
             map_attempt (get_model_field schema) items.*1
             = Done (map model_field_of items)) as H.
  { intros items Hsub.
    rewrite (map_attempt_Done
               (fun k => match Py.get k (_declared_fields schema) with
                         | Some v => model_field_of (k, v)
                         | None => k
                         end)
               (get_model_field schema)).
    - f_equal. induction items as [|[k v] items IH]; [done|]. simpl. f_equal.
      + rewrite (get_NoDup k v); [done|done|]. apply Hsub. left.
      + apply IH. intros item Hitem. apply Hsub. by right.
    - intros k ([k' v] & -> & Hin)%list_elem_of_fmap. simpl.
      unfold get_model_field, model_field_of.
      rewrite (get_NoDup k' v); [|done|by apply Hsub].
      simpl. by destruct (attribute v). }
  apply H. intros item Hitem%list_elem_of_In%List.filter_In.
  apply list_elem_of_In. tauto.
Qed.

(** X18: the last segment of the request path decides what
    [_get_relationship_data] does. When it names a relationship the
    result is that name with its model field, related type and
    identifier field; any other segment, the empty one after a trailing
    slash too, raises [RelationNotFound]. *)
Theorem get_relationship_data_last_segment schema prefix f :
  NoDup (Py.keys (_declared_fields schema)) ->
  Py.contains "/" f = false ->
  _get_relationship_data schema (prefix +:+ "/" +:+ f)
  = match Py.get f (_declared_fields schema) with
    | Some value =>
        if is_relationship value
        then Done (f, model_field_of (f, value), fo_type_ value, id_field value)
        else Raised (RelationNotFound (so_name schema +:+ " has no attribute " +:+ f))
    | None =>
        Raised (RelationNotFound (so_name schema +:+ " has no attribute " +:+ f))
    end.
Proof.
  intros Hnd Hf. unfold _get_relationship_data.
  change ("/" +:+ f) with (String "/" f).
  rewrite last_split_app, (split_free "/" f Hf). simpl List.last.
  unfold get_relationships. cbn [attempt_bind].
  destruct (Py.elem f _) eqn:Ee; simpl negb; cbv iota.
  - apply elem_spec, elem_of_relationships in Ee as (value & Hget & Hr); [|done].
    rewrite Hget, Hr. by rewrite (get_model_field_declared _ _ _ Hget).
  - destruct (Py.get f (_declared_fields schema)) as [value|] eqn:Hget; [|done].
    destruct (is_relationship value) eqn:Hr; [|done].
    assert (Py.elem f (Py.keys (List.filter (fun item => is_relationship item.2)
                                  (_declared_fields schema))) = true) as Hin.
    { apply elem_spec, elem_of_relationships; [done|]. by exists value. }
    congruence.
Qed.

(** X19: [get_schema_from_type] returns the first class of the registry
    entries that has the type asked for, and raises when no entry starts
    with such a class. *)
Theorem get_schema_from_type_first registry resource_type :
  match get_schema_from_type registry resource_type with
  | Done cls =>
      so_type_ cls = resource_type
      /\ exists before cls_name others after,
          registry = before ++ (cls_name, cls :: others) :: after
          /\ forall name cls' others',
              (name, cls' :: others') ∈ before -> so_type_ cls' <> resource_type
  | Raised e =>
      e = PlainException ("Couldn't find schema for type: " +:+ resource_type)
      /\ forall name cls others,
          (name, cls :: others) ∈ registry -> so_type_ cls <> resource_type
  end.
Proof.
  induction registry as [|[name [|cls0 others]] registry IH]; simpl.
  - split; [done|]. by intros ? ? ? ?%elem_of_nil.
  - destruct (get_schema_from_type registry resource_type) as [cls|e].
    + destruct IH as (Ht & before & n & o & after & -> & Hb).
      split; [done|]. exists ((name, []) :: before), n, o, after. split; [done|].
      intros n' c' o' [[= ]|Hin]%elem_of_cons. by eapply Hb.
    + destruct IH as [-> Hno]. split; [done|].
      intros n' c' o' [[= ]|Hin]%elem_of_cons. by eapply Hno.
  - destruct (String.eqb_spec (so_type_ cls0) resource_type) as [Heq|Hne].
    + split; [done|]. exists [], name, others, registry. split; [done|].
      by intros ? ? ? ?%elem_of_nil.
    + destruct (get_schema_from_type registry resource_type) as [cls|e].
      * destruct IH as (Ht & before & n & o & after & -> & Hb).
        split; [done|]. exists ((name, cls0 :: others) :: before), n, o, after.
        split; [done|].
        intros n' c' o' [[= -> -> ->]|Hin]%elem_of_cons; [done|]. by eapply Hb.
      * destruct IH as [-> Hno]. split; [done|].
        intros n' c' o' [[= -> -> ->]|Hin]%elem_of_cons; [done|]. by eapply Hno.
Qed.

End relationships.

(** ** The body of a relationship request *)

Section relationship_payload.

Implicit Types (body data obj : json).

Lemma check_identifier_Done mismatch related_type_ obj :
  check_identifier mismatch related_type_ obj = Done tt <->
  identifies related_type_ obj.
Proof.
  unfold check_identifier, identifies. split.
  - destruct obj as [| | |s|items|members]; simpl; try done.
    + destruct (is_substring "type" s); simpl; [|done].
      by destruct (is_substring "id" s).
    + destruct (existsb _ items); simpl; [|done].
      by destruct (existsb _ items).
    + destruct (Py.mem "type" members); simpl; [|done].
      destruct (Py.mem "id" members) eqn:Eid; simpl; [|done].
      destruct (Py.get "type" members) as [[| | |t| |]|] eqn:Et; simpl; try done.
      destruct (String.eqb_spec t related_type_) as [->|]; simpl; [|done].
      intros _. by exists members.
  - intros (members & -> & Hid & Htype). simpl.
    unfold Py.mem at 1. rewrite Htype. simpl. rewrite Hid. simpl.
    by rewrite String.eqb_refl.
Qed.

Lemma for_each_attempt_Done {A} (body : A -> attempt unit) l :
  for_each_attempt body l = Done tt <-> Forall (fun x => body x = Done tt) l.
Proof.
  induction l as [|x l IH]; simpl.
  - split; [constructor|done].
  - rewrite Forall_cons, <- IH.
    destruct (body x) as [[]|e]; simpl; [tauto|].
    split; [done|]. by intros [? _].
Qed.

(** X20: the body of a relationship request passes the checks of [post],
    [patch] and [delete] exactly when it is a dictionary whose [data] is
    a resource identifier of the related type, or a list of them, or
    neither a dictionary nor a list: [null], a string, a number or a
    boolean pass unchecked. *)
Theorem check_relationship_payload_accepts body related_type_ :
  check_relationship_payload body related_type_ = Done tt <->
  exists members data,
    body = JObject members
    /\ Py.get "data" members = Some data
    /\ match data with
       | JObject _ => identifies related_type_ data
       | JArray items => Forall (identifies related_type_) items
       | _ => True
       end.
Proof.
  unfold check_relationship_payload. split.
  - assert (forall members,
               (try* has_data := json_contains "data" (JObject members) in
                if negb has_data then
                  Raised (BadRequestAt
                            ("You must provide data with a " +:+ dq +:+ "data" +:+ dq
                             +:+ " route node") "/data")
                else
                  try* data := json_getitem (JObject members) "data" in
                  try* _ := match data with
                            | JObject _ =>
                                check_identifier
                                  "The type field does not match the resource type"
                                  related_type_ data
                            | _ => Done tt
                            end in
                  match data with
                  | JArray items =>
                      for_each_attempt
                        (check_identifier
                           "The type provided does not match the resource type"
                           related_type_) items
                  | _ => Done tt
                  end) = Done tt ->
               exists data,
                 Py.get "data" members = Some data
                 /\ match data with
                    | JObject _ => identifies related_type_ data
                    | JArray items => Forall (identifies related_type_) items
                    | _ => True
                    end) as Hobj.
    { intros members. simpl. unfold Py.mem.
      destruct (Py.get "data" members) as [data|]; simpl; [|done].
      intros H. exists data. split; [done|].
      destruct data as [| | | |items|o]; try done.
      - simpl in H. apply for_each_attempt_Done in H.
        eapply Forall_impl; [exact H|]. intros obj. apply check_identifier_Done.
      - destruct (check_identifier _ _ (JObject o)) as [[]|] eqn:Ec; [|done].
        by apply check_identifier_Done in Ec. }
    destruct body as [|b|z|s|items|members]; simpl json_truthy; cbv iota.
    + by intros (? & ? & _)%Hobj.
    + destruct b; [done|]. by intros (? & ? & _)%Hobj.
    + destruct (z =? 0); simpl negb; cbv iota; [by intros (? & ? & _)%Hobj|done].
    + destruct s; simpl Py.truthy; cbv iota; [by intros (? & ? & _)%Hobj|].
      simpl. by destruct (_ || _).
    + destruct items; [by intros (? & ? & _)%Hobj|].
      simpl. by destruct (_ || _).
    + destruct members as [|m members]; [by intros (? & ? & _)%Hobj|].
      intros (data & ? & ?)%Hobj. by exists (m :: members), data.
  - intros (members & data & -> & Hget & Hdata).
    assert (json_truthy (JObject members) = true) as ->.
    { destruct members; [done|done]. }
    simpl. unfold Py.mem. rewrite Hget. simpl.
    destruct data as [| | | |items|o]; try done.
    + simpl. apply for_each_attempt_Done.
      eapply Forall_impl; [exact Hdata|]. intros obj. apply check_identifier_Done.
    + apply (check_identifier_Done
               "The type field does not match the resource type") in Hdata.
      by rewrite Hdata.
Qed.

End relationship_payload.

(** ** The options of a schema class *)

Section schema_opts.



End schema_opts.

(** ** The further properties on examples *)

Section further_examples.

Import QueryStringManager.

Local Abbreviation project :=
  (compute_schema elements example_registry unknown_field_error).

Lemma parsers_read_managed_keys_only_witness :
  pagination Py.int_ascii no_config
    (querystring_managed
       [("page[size]", "10"); ("foo", "bar"); ("sort", "-name"); ("query", "x")])
  = pagination Py.int_ascii no_config
      [("page[size]", "10"); ("foo", "bar"); ("sort", "-name"); ("query", "x")]
  /\ fields
       (querystring_managed
          [("page[size]", "10"); ("foo", "bar"); ("sort", "-name"); ("query", "x")])
     = fields
         [("page[size]", "10"); ("foo", "bar"); ("sort", "-name"); ("query", "x")]
  /\ sorting
       (querystring_managed
          [("page[size]", "10"); ("foo", "bar"); ("sort", "-name"); ("query", "x")])
     = sorting
         [("page[size]", "10"); ("foo", "bar"); ("sort", "-name"); ("query", "x")]
  /\ include no_config
       (querystring_managed
          [("page[size]", "10"); ("foo", "bar"); ("sort", "-name"); ("query", "x")])
     = include no_config
         [("page[size]", "10"); ("foo", "bar"); ("sort", "-name"); ("query", "x")]
  /\ grouping
       (querystring_managed
          [("page[size]", "10"); ("foo", "bar"); ("sort", "-name"); ("query", "x")])
     = grouping
         [("page[size]", "10"); ("foo", "bar"); ("sort", "-name"); ("query", "x")].
Proof.
  apply (parsers_read_managed_keys_only Py.int_ascii no_config
           [("page[size]", "10"); ("foo", "bar"); ("sort", "-name"); ("query", "x")]).
  apply (bool_decide_unpack _). vm_compute. reflexivity.
Defined.

(** X10 on a call in which the constructor raises: the second call finds
    the mapping as the first one left it, leaves it so, and raises the
    same. *)
Lemma compute_schema_again_witness :
  project PersonSchema [("only", KTuple ["name"])]
    [("fields[person]", "name")] ["computers.owner"]
  = Some ([("only", KTuple ["name"; "id"]); ("include_data", KTuple ["computers"])],
          Err PyValueError)
  /\ project PersonSchema
       [("only", KTuple ["name"; "id"]); ("include_data", KTuple ["computers"])]
       [("fields[person]", "name")] ["computers.owner"]
     = Some ([("only", KTuple ["name"; "id"]);
              ("include_data", KTuple ["computers"])],
             Err PyValueError).
Proof.
  split; [vm_compute; reflexivity|].
  apply (compute_schema_again elements example_registry unknown_field_error
           PersonSchema [("only", KTuple ["name"])]).
  vm_compute. reflexivity.
Defined.

Lemma compute_schema_declared_fields_witness :
  exists kw' schema,
    project PersonSchema [] [] ["computers.owner"] = Some (kw', Ok schema)
    /\ Py.keys (schema_declared_fields schema)
       = Py.keys (cls_declared_fields PersonSchema)
    /\ (forall f,
           f ∉ map first_segment ["computers.owner"] ->
           Py.get f (schema_declared_fields schema)
           = Py.get f (cls_declared_fields PersonSchema))
    /\ (forall f,
           f ∈ map first_segment ["computers.owner"] ->
           exists ref related_schema related_cls,
             Py.get f (cls_declared_fields PersonSchema) = Some (Relationship ref)
             /\ ref_class example_registry ref = Some related_cls
             /\ Py.get f (schema_declared_fields schema)
                = Some (Relationship (RefInstance related_schema))
             /\ schema_class related_schema = related_cls).
Proof.
  eexists _, _. split; [vm_compute; reflexivity|].
  eapply (compute_schema_declared_fields elements example_registry
            unknown_field_error PersonSchema [] [] ["computers.owner"]).
  vm_compute. reflexivity.
Defined.



(** X14 on a [fields] key without brackets: with a list [only] that
    leaves [computers] out the exception of the constructor comes first,
    without one the [BadRequest] of the key. *)
Lemma compute_schema_error_order_witness :
  project PersonSchema [("only", KTuple ["name"])] [("fields", "x")] ["computers"]
  = Some (kwargs_after PersonSchema [("only", KTuple ["name"])] ["computers"],
          Err PyValueError)
  /\ project PersonSchema [] [("fields", "x")] ["computers"]
     = Some (kwargs_after PersonSchema [] ["computers"],
             Err (BadRequest "Parse error" "fields")).
Proof.
  split.
  - destruct (compute_schema_error_order elements example_registry
                unknown_field_error PersonSchema
                [("only", KTuple ["name"])] [("fields", "x")] ["computers"])
      as (_ & Hinit & _).
    + repeat constructor. vm_compute. tauto.
    + apply Hinit; [done|]. vm_compute. reflexivity.
  - destruct (compute_schema_error_order elements example_registry
                unknown_field_error PersonSchema
                [] [("fields", "x")] ["computers"])
      as (_ & _ & Hfields).
    + repeat constructor. vm_compute. tauto.
    + apply Hfields; [done| |]; vm_compute; reflexivity.
Defined.

Lemma get_schema_field_get_model_field_witness :
  (forall field key,
      get_schema_field PersonObject field = Done key ->
      get_model_field PersonObject key = Done field)
  /\ (forall key field,
         key ∈ Py.keys (_declared_fields PersonObject) ->
         get_model_field PersonObject key = Done field ->
         exists key',
           get_schema_field PersonObject field = Done key'
           /\ get_model_field PersonObject key' = Done field
           /\ (NoDup (map model_field_of (_declared_fields PersonObject)) ->
               key' = key)).
Proof.
  apply (get_schema_field_get_model_field PersonObject).
  apply (bool_decide_unpack _). vm_compute. reflexivity.
Defined.

Lemma get_relationships_include_roots_witness :
  exists relationships,
    get_relationships PersonObject false = Done relationships
    /\ (forall f,
           f ∈ relationships <->
           exists ref, get_related_schema PersonObject f = Done ref)
    /\ (forall p,
           p ∈ ["computers"; "name"] -> first_segment p ∉ relationships ->
           exists kw' detail,
             project (schema_cls_of PersonObject) [] [] ["computers"; "name"]
             = Some (kw', Err (InvalidInclude detail)))
    /\ (forall kw' projected,
           project (schema_cls_of PersonObject) [] [] ["computers"; "name"]
           = Some (kw', Ok projected) ->
           Forall (fun p => first_segment p ∈ relationships) ["computers"; "name"]).
Proof.
  apply (get_relationships_include_roots elements example_registry
           unknown_field_error PersonObject [] [] ["computers"; "name"]).
  apply (bool_decide_unpack _). vm_compute. reflexivity.
Defined.

Lemma get_relationships_model_fields_witness :
  get_relationships PersonObject true
  = Done (map model_field_of
            (List.filter (fun item => is_relationship item.2)
               (_declared_fields PersonObject))).
Proof.
  apply (get_relationships_model_fields PersonObject).
  apply (bool_decide_unpack _). vm_compute. reflexivity.
Defined.

Lemma get_relationship_data_last_segment_witness :
  _get_relationship_data PersonObject
    ("/persons/1/relationships" +:+ "/" +:+ "computers")
  = Done ("computers", "machines", "computer", "id").
Proof.
  apply (get_relationship_data_last_segment PersonObject
           "/persons/1/relationships" "computers").
  - apply (bool_decide_unpack _). vm_compute. reflexivity.
  - reflexivity.
Defined.

Lemma check_relationship_payload_accepts_witness :
  check_relationship_payload
    (JObject [("data", JArray [JObject [("type", JString "computer");
                                        ("id", JString "7")]])])
    "computer"
  = Done tt.
Proof.
  apply (check_relationship_payload_accepts
           (JObject [("data", JArray [JObject [("type", JString "computer");
                                               ("id", JString "7")]])])
           "computer").
  eexists _, _. split; [reflexivity|]. split; [reflexivity|].
  repeat constructor. by eexists.
Defined.

End further_examples.

(** ** The identifier of a patched resource, and the responses *)

Section detail_and_dispatch.

(** X22: the body of a patch passes the check of its identifier exactly
    when its [data] is a dictionary whose [id] is the string of the
    identifier in the url; an [id] given as a number does not pass. *)
Theorem check_patch_id_accepts json_data url_id :
  check_patch_id json_data url_id = Done tt <->
  exists members data_members,
    json_data = JObject members
    /\ Py.get "data" members = Some (JObject data_members)
    /\ Py.get "id" data_members = Some (JString url_id).
Proof.
  unfold check_patch_id. split.
  - destruct json_data as [| | | | |members]; simpl; try done.
    destruct (Py.get "data" members) as [data|] eqn:Hdata; simpl; [|done].
    destruct data as [| | |s|items|dm]; simpl; try done.
    + by destruct (is_substring "id" s).
    + by destruct (existsb _ items).
    + unfold Py.mem.
      destruct (Py.get "id" dm) as [[| | |i| |]|] eqn:Hid; simpl; try done.
      destruct (String.eqb_spec i url_id) as [->|]; simpl; [|done].
      intros _. by exists members, dm.
  - intros (members & dm & -> & Hdata & Hid). simpl. rewrite Hdata. simpl.
    unfold Py.mem. rewrite Hid. simpl. by rewrite String.eqb_refl.
Qed.

Lemma get_with_jsonapi members :
  with_jsonapi (JObject members)
  = JObject (Py.set "jsonapi" (JObject [("version", JString "1.0")]) members).
Proof. done. Qed.

(** X23: a response that [dispatch_request] makes from what a method
    returned, a response object apart, has the JSON:API content type; its
    status is 200 unless the method returned one in a tuple; and a
    dictionary that is sent holds the member [jsonapi] with the version
    1.0, its other members unchanged. A tuple of another length than two
    or three makes no response. *)
Theorem dispatch_response_jsonapi response r :
  dispatch_response response = Done r ->
  (forall r0, response <> ViewResponse r0) ->
  Py.get "Content-Type" (headers r) = Some content_type
  /\ (forall v, response = ViewValue v -> status r = JNumber 200)
  /\ (forall items, response = ViewTuple items ->
        (length items = 2 \/ length items = 3)%nat
        /\ Some (status r) = items !! 1%nat)
  /\ (forall members,
         body r = JObject members ->
         Py.get "jsonapi" members = Some (JObject [("version", JString "1.0")])
         /\ exists sent,
             members
             = Py.set "jsonapi" (JObject [("version", JString "1.0")]) sent
             /\ (response = ViewValue (JObject sent)
                 \/ exists items,
                     response = ViewTuple items
                     /\ items !! 0%nat = Some (JObject sent))).
Proof.
  intros H Hnot. destruct response as [r0|items|v].
  - by destruct (Hnot r0).
  - assert (forall data, body r = with_jsonapi data ->
               forall members, body r = JObject members ->
                 Py.get "jsonapi" members
                 = Some (JObject [("version", JString "1.0")])
                 /\ exists sent,
                     members
                     = Py.set "jsonapi" (JObject [("version", JString "1.0")]) sent
                     /\ data = JObject sent) as Hbody.
    { intros data Hb members Hm. rewrite Hb in Hm.
      destruct data as [| | | | |sent]; try done. rewrite get_with_jsonapi in Hm.
      injection Hm as <-. split; [apply get_set_eq|]. by exists sent. }
    destruct items as [|d [|s [|h [|x items]]]]; simpl in H; try done.
    + injection H as <-. simpl. split; [done|]. split; [done|].
      split; [intros ? [= <-]; split; [by left|done]|].
      intros members Hm. destruct (Hbody d eq_refl members Hm) as (? & sent & ? & ->).
      split; [done|]. exists sent. split; [done|]. right. by eexists.
    + destruct h as [| | | | |hm]; simpl in H; try done.
      injection H as <-. simpl. split; [apply get_set_eq|]. split; [done|].
      split; [intros ? [= <-]; split; [by right|done]|].
      intros members Hm. destruct (Hbody d eq_refl members Hm) as (? & sent & ? & ->).
      split; [done|]. exists sent. split; [done|]. right. by eexists.
    + destruct h as [| | | | |hm]; simpl in H; done.
  - simpl in H. injection H as <-. simpl. split; [done|]. split; [done|].
    split; [done|]. intros members Hm.
    destruct v as [| | | | |sent]; try done. rewrite get_with_jsonapi in Hm.
    injection Hm as <-. split; [apply get_set_eq|]. exists sent.
    split; [done|]. by left.
Qed.

Lemma dispatch_response_jsonapi_witness :
  exists r,
    dispatch_response
      (ViewTuple [JObject [("data", JNull); ("jsonapi", JString "0.9")];
                  JNumber 201; JObject [("Location", JString "/persons/1")]])
    = Done r
    /\ Py.get "Content-Type" (headers r) = Some content_type
    /\ status r = JNumber 201
    /\ body r
       = JObject [("data", JNull);
                  ("jsonapi", JObject [("version", JString "1.0")])].
Proof.
  eexists. split; [reflexivity|].
  destruct (dispatch_response_jsonapi
              (ViewTuple [JObject [("data", JNull); ("jsonapi", JString "0.9")];
                          JNumber 201;
                          JObject [("Location", JString "/persons/1")]])
              _ eq_refl) as (Hct & _ & _ & _); [done|].
  split; [exact Hct|]. by split.
Defined.

End detail_and_dispatch.

(** ** Projection: the objects it leaves alone *)

Section store_frame.

Variable tuple_of_set : gset string -> list string.
Variable class_registry : Py.dict Store.StoredClass.
Variable construct :
  Store.store -> Store.StoredClass -> kwargs ->
  Store.store * outcome Store.StoredSchema.

Implicit Types (h : Store.store) (schema_cls : Store.StoredClass)
  (include : list string) (kw default_kwargs : kwargs)
  (related : Py.dict (list string)).

Local Open Scope nat_scope.

Lemma unchanged_refl h : Store.unchanged h h.
Proof. by split. Qed.

Lemma unchanged_trans h1 h2 h3 :
  Store.unchanged h1 h2 -> Store.unchanged h2 h3 -> Store.unchanged h1 h3.
Proof.
  intros [Hlen12 H12] [Hlen23 H23]. split; [lia|].
  intros l Hl. rewrite H23 by lia. by apply H12.
Qed.

Lemma unchanged_app h new : Store.unchanged h (h ++ new).
Proof.
  split; [rewrite length_app; lia|]. intros l Hl. by apply lookup_app_l.
Qed.

(** A write to an object that was made after [h0] leaves the objects of
    [h0] alone. *)
Lemma unchanged_insert h0 h l (v : Store.StoredField) :
  length h0 <= l -> Store.unchanged h0 h -> Store.unchanged h0 (<[l := v]> h).
Proof.
  intros Hl [Hlen H]. split; [by rewrite length_insert|].
  intros l' Hl'. rewrite list_lookup_insert_ne by lia. by apply H.
Qed.

(** The first loop reads of the class what its view shows. *)
Lemma get_first_loop_view h schema_cls f :
  Py.get f (cls_declared_fields (first_loop_view h schema_cls))
  = (fun l => if Store.is_relationship h l
              then Relationship (RefName (Store.cls_name schema_cls))
              else Attribute)
    <$> Py.get f (Store.cls_declared_fields schema_cls).
Proof.
  unfold first_loop_view. simpl.
  induction (Store.cls_declared_fields schema_cls) as [|[f' l] d IH]; simpl;
    [done|].
  by destruct (String.eqb f' f).
Qed.

Lemma collect_includes_view h schema_cls include kw related :
  Store.collect_includes h schema_cls include kw related
  = collect_includes (first_loop_view h schema_cls) include kw related.
Proof.
  revert kw related. induction include as [|p include IH]; intros kw related;
    [done|].
  cbn [collect_includes Store.collect_includes]. rewrite get_first_loop_view.
  destruct (Py.get (first_segment p) (Store.cls_declared_fields schema_cls))
    as [l|]; simpl; [|done].
  destruct (Store.is_relationship h l); simpl; [apply IH|done].
Qed.

(** The second loop writes to the field objects of the instance, which
    are none of [h0] when the instance was made after it. *)
Lemma expand_includes_unchanged project related include declared_fields h0 h h' r :
  (forall h1 c k i h2 kw o,
      project h1 c k i = Some (h2, kw, o) -> Store.unchanged h1 h2) ->
  (forall f l, Py.get f declared_fields = Some l -> length h0 <= l) ->
  Store.unchanged h0 h ->
  Store.expand_includes class_registry project related include declared_fields h
  = Some (h', r) ->
  Store.unchanged h0 h'.
Proof.
  intros Hproject Hfresh. revert h.
  induction include as [|p include IH]; intros h Hh; simpl.
  - by intros [= <- _].
  - destruct (Py.get (first_segment p) declared_fields) as [l|] eqn:El;
      [|by intros [= <- _]].
    destruct (h !! l) as [[|slot]|]; [by intros [= <- _]| |by intros [= <- _]].
    destruct (Store.related_class class_registry slot) as [[c k]|];
      [|by intros [= <- _]].
    destruct (Py.get (first_segment p) related) as [subs|];
      [|by intros [= <- _]].
    destruct (project h c k subs) as [[[h1 kw1] [s|e]]|] eqn:Ep; [| |done].
    + apply IH. apply unchanged_insert; [by eapply Hfresh|].
      eapply unchanged_trans; [exact Hh|]. by eapply Hproject.
    + intros [= <- _]. eapply unchanged_trans; [exact Hh|]. by eapply Hproject.
Qed.

Section copying.

Hypothesis construct_copies : Store.copies construct.

Lemma construct_unchanged h schema_cls kw :
  Store.unchanged h (construct h schema_cls kw).1.
Proof.
  destruct (construct_copies h schema_cls kw) as [[new ->] _].
  apply unchanged_app.
Qed.

(** One call of [compute_schema], and the store and the mapping as it
    leaves them. *)
Lemma store_compute_schema_fuel_inv fuel h schema_cls default_kwargs qs include
    h' kw' r :
  Store.compute_schema_fuel tuple_of_set class_registry construct fuel
    h schema_cls default_kwargs qs include = Some (h', kw', r) ->
  Store.unchanged h h'
  /\ match (collect_includes (first_loop_view h schema_cls) include
              (Py.set "include_data" (KTuple []) default_kwargs) []).2 with
     | Err e =>
         kw' = kwargs_after_includes (first_loop_view h schema_cls)
                 default_kwargs include
         /\ r = Err e
     | Ok _ =>
         kw' = kwargs_after (first_loop_view h schema_cls) default_kwargs include
     end
  /\ forall schema,
      r = Ok schema ->
      Store.schema_class schema = schema_cls
      /\ forall f l,
          Py.get f (Store.schema_declared_fields schema) = Some l ->
          length h <= l.
Proof.
  revert h schema_cls default_kwargs include h' kw' r.
  induction fuel as [|fuel IH];
    intros h schema_cls default_kwargs include h' kw' r; [done|].
  cbn [Store.compute_schema_fuel]. rewrite collect_includes_view.
  unfold kwargs_after, kwargs_after_includes.
  destruct (collect_includes _ _ _ _) as [kw1 [related|e]]; simpl.
  2:{ intros [= <- <- <-]. split; [apply unchanged_refl|]. by split. }
  destruct (ensure_id kw1) as [kw2 [[]|e]]; simpl.
  2:{ intros [= <- <- <-]. split; [apply unchanged_refl|]. by split. }
  pose proof (construct_unchanged h schema_cls kw2) as Hh1.
  destruct (construct_copies h schema_cls kw2) as [_ Hnew].
  destruct (construct h schema_cls kw2) as [h1 [schema|e]]; simpl in *.
  2:{ intros [= <- <- <-]. by split. }
  destruct (Hnew schema eq_refl) as [Hcls Hfresh].
  destruct (QueryStringManager.fields qs) as [fields|e].
  2:{ intros [= <- <- <-]. by split. }
  destruct (Store.expand_includes _ _ _ _ _ _) as [[h2 [[]|e]]|] eqn:Ex; [| |done].
  - intros [= <- <- <-]. split.
    + eapply expand_includes_unchanged; [|exact Hfresh|exact Hh1|exact Ex].
      intros h3 c k i h4 kw o H. by apply IH in H as [? _].
    + split; [done|]. by intros s [= <-].
  - intros [= <- <- <-]. split; [|by split].
    eapply expand_includes_unchanged; [|exact Hfresh|exact Hh1|exact Ex].
    intros h3 c k i h4 kw o H. by apply IH in H as [? _].
Qed.

Lemma store_expand_includes_total project related include declared_fields h :
  (forall h1 field subs c kw,
      Py.get field related = Some subs -> is_Some (project h1 c kw subs)) ->
  is_Some (Store.expand_includes class_registry project related include
             declared_fields h).
Proof.
  intros Hproject. revert h.
  induction include as [|p include IH]; intros h; simpl; [done|].
  destruct (Py.get (first_segment p) declared_fields) as [l|]; [|done].
  destruct (h !! l) as [[|slot]|]; [done| |done].
  destruct (Store.related_class class_registry slot) as [[c kw]|]; [|done].
  destruct (Py.get (first_segment p) related) as [subs|] eqn:Hsubs; [|done].
  destruct (Hproject h _ _ c kw Hsubs) as [[[h1 kw1] [s|e]] ->]; [apply IH|done].
Qed.

(** With more fuel than the include paths have segments the projection
    ends. *)
Lemma store_compute_schema_fuel_total fuel h schema_cls default_kwargs qs include :
  depth include < fuel ->
  is_Some (Store.compute_schema_fuel tuple_of_set class_registry construct fuel
             h schema_cls default_kwargs qs include).
Proof.
  revert h schema_cls default_kwargs include.
  induction fuel as [|fuel IH]; intros h schema_cls default_kwargs include Hfuel;
    [lia|].
  cbn [Store.compute_schema_fuel]. rewrite collect_includes_view.
  destruct (collect_includes _ _ _ _) as [kw1 [related|e]] eqn:Ec; [|done].
  destruct (ensure_id kw1) as [kw2 [[]|e]]; [|done].
  destruct (construct h schema_cls kw2) as [h1 [schema|e]]; [|done].
  destruct (QueryStringManager.fields qs) as [fields|e]; [|done].
  match goal with
  | |- context [Store.expand_includes _ ?project ?rel ?inc ?declared ?h0] =>
      destruct (store_expand_includes_total project rel inc declared h0)
        as [[h2 [[]|e]] ->]; [|done|done]
  end.
  intros h2 field subs c kw Hget. apply IH.
  pose proof (collect_includes_depth (first_loop_view h schema_cls) include
                (Py.set "include_data" (KTuple []) default_kwargs)
                related field subs) as Hd.
  rewrite Ec in Hd. specialize (Hd eq_refl Hget). lia.
Qed.

(** C4 (amended): [compute_schema] ends, and it leaves every field
    object that was there before the call as it was, those of the schema
    class and of every registered class among them: the registered
    descriptors are unchanged. A schema it returns is a new instance of
    the schema class, with field objects of its own. Of the options
    mapping of the caller it leaves every entry other than [include_data]
    and [only] as it was, and it does write to that mapping: when it
    returns a schema, [include_data] holds the first segments of the
    include paths and a list [only] without [id] has [id] at its end. *)
Theorem compute_schema_leaves_descriptors h schema_cls default_kwargs qs include :
  exists h' kw' r,
    Store.compute_schema tuple_of_set class_registry construct
      h schema_cls default_kwargs qs include
    = Some (h', kw', r)
    /\ (forall l, l < length h -> h' !! l = h !! l)
    /\ (forall key,
           key <> "include_data" -> key <> "only" ->
           Py.get key kw' = Py.get key default_kwargs)
    /\ (forall schema,
           r = Ok schema ->
           Store.schema_class schema = schema_cls
           /\ (forall f l,
                  Py.get f (Store.schema_declared_fields schema) = Some l ->
                  length h <= l)
           /\ Py.get "include_data" kw' = Some (KTuple (map first_segment include))
           /\ Py.get "only" kw'
              = match Py.get "only" default_kwargs with
                | Some (KTuple t) => Some (KTuple (with_id t))
                | o => o
                end).
Proof.
  destruct (store_compute_schema_fuel_total (S (depth include)) h schema_cls
              default_kwargs qs include) as [[[h' kw'] r] H]; [lia|].
  exists h', kw', r. split; [exact H|].
  apply store_compute_schema_fuel_inv in H as ([_ Hframe] & Hkw & Hnew).
  split; [exact Hframe|].
  set (view := first_loop_view h schema_cls) in *.
  assert (forall key, key <> "include_data" ->
            Py.get key (kwargs_after_includes view default_kwargs include)
            = Py.get key default_kwargs) as Hfr.
  { intros key Hkey. unfold kwargs_after_includes.
    rewrite collect_includes_frame by done. by rewrite get_set_ne. }
  split.
  - intros key Hdata Honly.
    destruct (collect_includes _ _ _ _).2; [|destruct Hkw as [-> _]; by apply Hfr].
    subst kw'. unfold kwargs_after. rewrite ensure_id_frame by done. by apply Hfr.
  - intros schema ->. destruct (Hnew schema eq_refl) as [Hcls Hfresh].
    split; [done|]. split; [done|].
    destruct (collect_includes _ _ _ _).2 as [related|e] eqn:Ec;
      [|by destruct Hkw as [_ ?]].
    subst kw'. split; [|apply only_after].
    unfold kwargs_after, kwargs_after_includes.
    rewrite ensure_id_frame by done.
    by erewrite collect_includes_include_data; [|apply get_set_eq|done].
Qed.

End copying.

End store_frame.

(** The constructor of the examples copies. *)
Lemma copy_fields_length h next fields :
  forall f l, Py.get f (Store.copy_fields h next fields).2 = Some l -> (next <= l)%nat.
Proof.
  revert next. induction fields as [|[f' l'] fields IH]; intros next f l; simpl;
    [done|].
  specialize (IH (S next) f l).
  destruct (Store.copy_fields h (S next) fields) as [objects table]. simpl in *.
  destruct (String.eqb f' f); [intros [= <-]; lia|].
  intros H. apply IH in H. lia.
Qed.

Lemma copying_constructor_copies : Store.copies Store.copying_constructor.
Proof.
  intros h schema_cls schema_kwargs. unfold Store.copying_constructor.
  pose proof (copy_fields_length h (length h) (Store.cls_declared_fields schema_cls))
    as Hlen.
  destruct (Store.copy_fields h (length h) (Store.cls_declared_fields schema_cls))
    as [objects table].
  simpl in *. split; [by eexists|]. intros schema [= <-]. by split.
Qed.

(** C4 (amended) on a computer schema with two paths through [owner]:
    the store of seven field objects has grown, and the seven are as they
    were. *)
Lemma compute_schema_leaves_descriptors_witness :
  exists h' kw' schema,
    Store.compute_schema elements Store.example_registry Store.copying_constructor
      Store.example_store Store.ComputerSchema
      [("many", KBool true); ("only", KTuple ["serial"; "owner"])]
      [] ["owner.computers"; "owner"]
    = Some (h', kw', Ok schema)
    /\ length h' = 24%nat
    /\ (forall l, (l < 7)%nat -> h' !! l = Store.example_store !! l)
    /\ Store.schema_class schema = Store.ComputerSchema
    /\ Py.get "include_data" kw' = Some (KTuple ["owner"; "owner"])
    /\ Py.get "only" kw' = Some (KTuple ["serial"; "owner"; "id"]).
Proof.
  destruct (compute_schema_leaves_descriptors elements Store.example_registry
              Store.copying_constructor copying_constructor_copies
              Store.example_store Store.ComputerSchema
              [("many", KBool true); ("only", KTuple ["serial"; "owner"])]
              [] ["owner.computers"; "owner"])
    as (h' & kw' & r & Hrun & Hframe & _ & Hnew).
  vm_compute in Hrun. injection Hrun as <- <- <-.
  eexists _, _, _. split; [vm_compute; reflexivity|].
  split; [reflexivity|]. split; [exact Hframe|].
  destruct (Hnew _ eq_refl) as (Hcls & _ & Hdata & Honly).
  split; [exact Hcls|]. split; [exact Hdata|exact Honly].
Defined.
